(** * GitHub Talent Sourcer: a shallow embedding of the contributor pipeline

    The development follows the TypeScript sources:
    - [github-client.ts]: [parseRepo], [fetchUserProfile], [matchesLocation],
      the three collection passes and [fetchContributors];
    - [csv-exporter.ts]: [mergeContributors] and the row mapping of
      [exportToCSV];
    - [index.ts]: the per-repository loop of [main], its filter and sort.

    Conventions.  JavaScript strings are rendered as [string] (sequences of
    8-bit characters; the inputs of interest are ASCII).  JavaScript numbers
    that hold counts are rendered as [Z].  A [Date] is its time value, the
    number of milliseconds since the epoch (Invalid Date is not represented:
    every date of the program comes from a timestamp of the data source or
    from the clock).  A thrown exception is the [Throw] case of [result]. *)

From Stdlib Require Import ZArith List String Ascii Bool Lia.
From Stdlib Require Import Permutation Sorted.
Import ListNotations.

Open Scope string_scope.
Open Scope Z_scope.

(** ** Exceptions *)

Inductive result (A : Type) : Type :=
| Ok (a : A)
| Throw (message : string).
Arguments Ok {A} a.
Arguments Throw {A} message.

Definition isThrow {A : Type} (r : result A) : Prop :=
  exists message, r = Throw message.

(** ** The string operations used by the program *)

Module JsString.

(** [s.substring(n)] *)
Fixpoint drop (n : nat) (s : string) : string :=
  match n, s with
  | O, _ => s
  | S n', String _ s' => drop n' s'
  | S _, EmptyString => EmptyString
  end.

(** [s.includes(needle)] *)
Fixpoint includes (needle s : string) : bool :=
  if prefix needle s then true
  else match s with
       | EmptyString => false
       | String _ s' => includes needle s'
       end.

(** [s.replace(pattern, replacement)] with a string pattern: only the
    first occurrence of [pattern] is replaced. *)
Fixpoint replace (pattern replacement s : string) : string :=
  if prefix pattern s then replacement ++ drop (String.length pattern) s
  else match s with
       | EmptyString => EmptyString
       | String c s' => String c (replace pattern replacement s')
       end.

(** [s.split(c)] for a one-character separator: every occurrence of the
    separator ends a segment, so empty segments are kept. *)
Fixpoint split (sep : ascii) (s : string) : list string :=
  match s with
  | EmptyString => [EmptyString]
  | String c s' =>
      if Ascii.eqb c sep then EmptyString :: split sep s'
      else match split sep s' with
           | seg :: segs => String c seg :: segs
           | [] => [String c EmptyString]
           end
  end.

(** [s.endsWith(suffix)], used to state what a trailing suffix is. *)
Definition endsWith (suffix s : string) : bool :=
  (String.length suffix <=? String.length s)%nat &&
  String.eqb (drop (String.length s - String.length suffix) s) suffix.

(** The longest prefix of [s] without the character [c], and the rest. *)
Fixpoint span_not (c : ascii) (s : string) : string * string :=
  match s with
  | EmptyString => (EmptyString, EmptyString)
  | String a s' =>
      if Ascii.eqb a c then (EmptyString, s)
      else let (seg, rest) := span_not c s' in (String a seg, rest)
  end.

Definition lower_ascii (c : ascii) : ascii :=
  let n := nat_of_ascii c in
  if ((65 <=? n) && (n <=? 90))%nat then ascii_of_nat (n + 32) else c.

(** [s.toLowerCase()] on ASCII text: the letters [A] to [Z] become [a] to
    [z] and every other character is kept.  On other text the built-in
    follows the Unicode case mapping, which is not modelled; what is stated
    of the location match is stated for ASCII text. *)
Fixpoint toLowerCase (s : string) : string :=
  match s with
  | EmptyString => EmptyString
  | String c s' => String (lower_ascii c) (toLowerCase s')
  end.

(** [xs.join(sep)] *)
Definition join (sep : string) (xs : list string) : string :=
  String.concat sep xs.

End JsString.

(** ** Repository references ([types.ts], [GitHubClient.parseRepo]) *)

Record RepoConfig : Type := mkRepoConfig {
  owner : string;
  repo : string;
  fullName : string
}.

Module RepoUrl.

(** The regular expression [/github\.com\/([^\/]+)\/([^\/]+)/] tried at the
    start of [s].  Both groups are greedy runs of characters other than
    the slash; the first must be followed by a slash, so it is the whole
    run, and both must be non-empty. *)
Definition match_here (s : string) : option (string * string) :=
  if prefix "github.com/" s then
    let (g1, rest) := JsString.span_not "/" (JsString.drop 11 s) in
    match g1, rest with
    | String _ _, String _ rest' =>
        let (g2, _) := JsString.span_not "/" rest' in
        match g2 with
        | String _ _ => Some (g1, g2)
        | EmptyString => None
        end
    | _, _ => None
    end
  else None.

(** [s.match(re)]: the leftmost position at which the expression matches;
    the result is the pair of captured groups. *)
Fixpoint search (s : string) : option (string * string) :=
  match match_here s with
  | Some groups => Some groups
  | None => match s with
            | EmptyString => None
            | String _ s' => search s'
            end
  end.

End RepoUrl.

Definition parseRepo (repoInput : string) : result RepoConfig :=
  if JsString.includes "github.com" repoInput then
    match RepoUrl.search repoInput with
    | None => Throw ("Invalid GitHub URL: " ++ repoInput)
    | Some (m1, m2) =>
        Ok {| owner := m1;
              repo := JsString.replace ".git" "" m2;
              fullName := m1 ++ "/" ++ JsString.replace ".git" "" m2 |}
    end
  else
    let parts := JsString.split "/" repoInput in
    match parts with
    | [p0; p1] =>
        Ok {| owner := p0; repo := p1; fullName := repoInput |}
    | _ =>
        Throw ("Invalid repo format: " ++ repoInput ++
               ". Use 'owner/repo' or full GitHub URL")
    end.

(** ** Dates *)

(** The time value of a JavaScript [Date], in milliseconds since the epoch. *)
Definition Date : Type := Z.

(** ** Contributor records ([types.ts]) *)

Record ContributorData : Type := mkContributorData {
  username : string;
  name : option string;
  email : option string;
  location : option string;
  bio : option string;
  company : option string;
  twitter : option string;
  blog : option string;
  profileUrl : string;
  totalContributions : Z;
  pullRequests : Z;
  issues : Z;
  commits : Z;
  notableContributions : list string;
  firstContribution : option Date;
  lastContribution : option Date;
  repoName : string;
  fetchedAt : Date
}.

Record FetchOptions : Type := mkFetchOptions {
  locationFilter : option (list string);
  minContributions : option Z;
  activeWithinMonths : option Z;
  includeIssueCreators : option bool;
  includePRAuthors : option bool;
  includeCommitters : option bool
}.

(** ** The insertion-ordered [Map<string, V>] *)

Module JsMap.

Definition t (V : Type) : Type := list (string * V).

Definition empty {V : Type} : t V := [].

Fixpoint get {V : Type} (k : string) (m : t V) : option V :=
  match m with
  | [] => None
  | (k', v) :: m' => if String.eqb k k' then Some v else get k m'
  end.

Definition has {V : Type} (k : string) (m : t V) : bool :=
  match get k m with Some _ => true | None => false end.

(** [m.set(k, v)]: a present key keeps its place and takes the new value,
    an absent key goes last. *)
Fixpoint set {V : Type} (k : string) (v : V) (m : t V) : t V :=
  match m with
  | [] => [(k, v)]
  | (k', v') :: m' =>
      if String.eqb k k' then (k, v) :: m' else (k', v') :: set k v m'
  end.

Definition keys {V : Type} (m : t V) : list string := map fst m.

(** [Array.from(m.values())] *)
Definition values {V : Type} (m : t V) : list V := map snd m.

End JsMap.

(** [Array.from(new Set(xs))]: the distinct strings of [xs] in the order of
    their first occurrence. *)
Module JsSet.

Definition mem (x : string) (s : list string) : bool :=
  existsb (String.eqb x) s.

Definition add (s : list string) (x : string) : list string :=
  if mem x s then s else s ++ [x].

Definition from (xs : list string) : list string :=
  fold_left add xs [].

End JsSet.

(** ** The data source (the Octokit calls of [github-client.ts])

    The answers of the hosting API are inputs of the model.  A call either
    returns its data or throws, and a call repeated within a run gets the
    same answer. *)

Record Profile : Type := mkProfile {
  login : string;
  p_name : option string;
  p_email : option string;
  p_location : option string;
  p_bio : option string;
  p_company : option string;
  twitter_username : option string;
  p_blog : option string;
  html_url : string
}.

(** An entry of [repos.listContributors]. *)
Record Contributor : Type := mkContributor {
  c_type : string;
  c_login : option string;
  contributions : Z
}.

(** An entry of [pulls.list]; [pr_user] is [pr.user?.login]. *)
Record PullRequest : Type := mkPullRequest {
  pr_created_at : Date;
  pr_user : option string;
  pr_title : string
}.

(** An entry of [issues.listForRepo]; [i_pull_request] tells whether the
    entry carries a [pull_request] back-reference. *)
Record Issue : Type := mkIssue {
  i_pull_request : bool;
  i_created_at : Date;
  i_user : option string;
  i_title : string
}.

Record Octokit : Type := mkOctokit {
  repos_listContributors : RepoConfig -> result (list Contributor);
  pulls_list : RepoConfig -> Z -> result (list PullRequest);
  issues_listForRepo : RepoConfig -> Z -> result (list Issue);
  users_getByUsername : string -> result Profile
}.

(** [if (!username) continue]: an absent login and the empty string are
    both falsy. *)
Definition truthy (s : option string) : option string :=
  match s with
  | Some (String c s') => Some (String c s')
  | _ => None
  end.

(** ** [GitHubClient]: profiles and the location filter *)

Section Client.

Variable octokit : Octokit.
(** The clock reading taken by [new Date()] and [Date.now()]. *)
Variable now : Date.

Definition fetchUserProfile (username : string) : Profile :=
  match users_getByUsername octokit username with
  | Ok data => data
  | Throw _ =>
      {| login := username;
         p_name := None;
         p_email := None;
         p_location := None;
         p_bio := None;
         p_company := None;
         twitter_username := None;
         p_blog := None;
         html_url := "https://github.com/" ++ username |}
  end.

Definition matchesLocation (location : string) (filters : list string) : bool :=
  let locationLower := JsString.toLowerCase location in
  existsb (fun filter => JsString.includes (JsString.toLowerCase filter) locationLower)
          filters.

(** The location test made before a record is created: [true] when the
    entry is to be skipped. *)
Definition locationRejects (options : FetchOptions) (profile : Profile) : bool :=
  match locationFilter options with
  | Some (f :: fs) =>
      match truthy (p_location profile) with
      | None => true
      | Some location => negb (matchesLocation location (f :: fs))
      end
  | _ => false
  end.

Definition newRecord (repoConfig : RepoConfig) (username : string) (profile : Profile)
    (total prs iss cms : Z) (notable : list string) (date : option Date)
  : ContributorData :=
  {| username := username;
     name := p_name profile;
     email := p_email profile;
     location := p_location profile;
     bio := p_bio profile;
     company := p_company profile;
     twitter := twitter_username profile;
     blog := p_blog profile;
     profileUrl := html_url profile;
     totalContributions := total;
     pullRequests := prs;
     issues := iss;
     commits := cms;
     notableContributions := notable;
     firstContribution := date;
     lastContribution := date;
     repoName := fullName repoConfig;
     fetchedAt := now |}.

(** *** The commit pass *)

(** [existing.commits += n; existing.totalContributions += n] *)
Definition addCommits (n : Z) (existing : ContributorData) : ContributorData :=
  {| username := username existing;
     name := name existing;
     email := email existing;
     location := location existing;
     bio := bio existing;
     company := company existing;
     twitter := twitter existing;
     blog := blog existing;
     profileUrl := profileUrl existing;
     totalContributions := totalContributions existing + n;
     pullRequests := pullRequests existing;
     issues := issues existing;
     commits := commits existing + n;
     notableContributions := notableContributions existing;
     firstContribution := firstContribution existing;
     lastContribution := lastContribution existing;
     repoName := repoName existing;
     fetchedAt := fetchedAt existing |}.

(** The body of the loop over [response.data].  The test
    [contributors.has(username)] and the later [contributors.get(username)!]
    are the one lookup of the map. *)
Definition committerStep (repoConfig : RepoConfig) (options : FetchOptions)
    (contributors : JsMap.t ContributorData) (contributor : Contributor)
  : JsMap.t ContributorData :=
  if negb (String.eqb (c_type contributor) "User") then contributors
  else
    match truthy (c_login contributor) with
    | None => contributors
    | Some username =>
        match JsMap.get username contributors with
        | None =>
            let profile := fetchUserProfile username in
            if locationRejects options profile then contributors
            else
              JsMap.set username
                (newRecord repoConfig username profile
                   (contributions contributor) 0 0 (contributions contributor)
                   [] None)
                contributors
        | Some existing =>
            JsMap.set username (addCommits (contributions contributor) existing)
              contributors
        end
    end.

(** A failed request is caught and leaves the map as it is. *)
Definition fetchCommitters (repoConfig : RepoConfig)
    (contributors : JsMap.t ContributorData) (options : FetchOptions)
  : JsMap.t ContributorData :=
  match repos_listContributors octokit repoConfig with
  | Throw _ => contributors
  | Ok data => fold_left (committerStep repoConfig options) data contributors
  end.

(** *** The pull-request and issue passes *)

Definition cutoffDate (options : FetchOptions) : option Date :=
  match activeWithinMonths options with
  | None => None
  | Some months =>
      if months =? 0 then None
      else Some (now - months * 30 * 24 * 60 * 60 * 1000)
  end.

Definition beforeCutoff (cutoff : option Date) (created_at : Date) : bool :=
  match cutoff with
  | None => false
  | Some c => created_at <? c
  end.

Definition pushNotable (notable : list string) (title : string) : list string :=
  if (List.length notable <? 5)%nat then notable ++ [title] else notable.

Definition earlier (first : option Date) (date : Date) : option Date :=
  match first with
  | None => Some date
  | Some f => if date <? f then Some date else Some f
  end.

Definition later (last : option Date) (date : Date) : option Date :=
  match last with
  | None => Some date
  | Some l => if l <? date then Some date else Some l
  end.

(** The update of an existing record by a pull request ([isPR]) or an
    issue: one more of its kind, one more in total, the title kept while
    fewer than five are stored, the dates widened. *)
Definition addEvent (isPR : bool) (title : string) (date : Date)
    (existing : ContributorData) : ContributorData :=
  {| username := username existing;
     name := name existing;
     email := email existing;
     location := location existing;
     bio := bio existing;
     company := company existing;
     twitter := twitter existing;
     blog := blog existing;
     profileUrl := profileUrl existing;
     totalContributions := totalContributions existing + 1;
     pullRequests := if isPR then pullRequests existing + 1 else pullRequests existing;
     issues := if isPR then issues existing else issues existing + 1;
     commits := commits existing;
     notableContributions := pushNotable (notableContributions existing) title;
     firstContribution := earlier (firstContribution existing) date;
     lastContribution := later (lastContribution existing) date;
     repoName := repoName existing;
     fetchedAt := fetchedAt existing |}.

(** What both passes do with a dated, titled event of a named user; as
    above, [has] and [get] are the one lookup. *)
Definition eventStep (isPR : bool) (repoConfig : RepoConfig) (options : FetchOptions)
    (contributors : JsMap.t ContributorData)
    (username title : string) (date : Date)
  : JsMap.t ContributorData :=
  match JsMap.get username contributors with
  | None =>
      let profile := fetchUserProfile username in
      if locationRejects options profile then contributors
      else
        JsMap.set username
          (newRecord repoConfig username profile
             1 (if isPR then 1 else 0) (if isPR then 0 else 1) 0
             [title] (Some date))
          contributors
  | Some existing =>
      JsMap.set username (addEvent isPR title date existing) contributors
  end.

(** The loop over one page of pull requests.  The second component is
    [hasMore]: it is cleared when an entry older than the cutoff ends the
    loop. *)
Fixpoint prPage (repoConfig : RepoConfig) (options : FetchOptions)
    (data : list PullRequest) (contributors : JsMap.t ContributorData)
  : JsMap.t ContributorData * bool :=
  match data with
  | [] => (contributors, true)
  | pr :: rest =>
      if beforeCutoff (cutoffDate options) (pr_created_at pr) then (contributors, false)
      else
        match truthy (pr_user pr) with
        | None => prPage repoConfig options rest contributors
        | Some username =>
            prPage repoConfig options rest
              (eventStep true repoConfig options contributors
                 username (pr_title pr) (pr_created_at pr))
        end
  end.

(** [while (hasMore && page <= 3)], one iteration for each of [pages]. *)
Fixpoint prPages (repoConfig : RepoConfig) (options : FetchOptions)
    (pages : list Z) (contributors : JsMap.t ContributorData)
  : JsMap.t ContributorData :=
  match pages with
  | [] => contributors
  | page :: pages' =>
      match pulls_list octokit repoConfig page with
      | Throw _ => contributors
      | Ok [] => contributors
      | Ok data =>
          let (contributors', hasMore) := prPage repoConfig options data contributors in
          if hasMore then prPages repoConfig options pages' contributors'
          else contributors'
      end
  end.

Definition fetchPRAuthors (repoConfig : RepoConfig)
    (contributors : JsMap.t ContributorData) (options : FetchOptions)
  : JsMap.t ContributorData :=
  prPages repoConfig options [1; 2; 3] contributors.

Fixpoint issuePage (repoConfig : RepoConfig) (options : FetchOptions)
    (data : list Issue) (contributors : JsMap.t ContributorData)
  : JsMap.t ContributorData * bool :=
  match data with
  | [] => (contributors, true)
  | issue :: rest =>
      if i_pull_request issue then issuePage repoConfig options rest contributors
      else if beforeCutoff (cutoffDate options) (i_created_at issue)
      then (contributors, false)
      else
        match truthy (i_user issue) with
        | None => issuePage repoConfig options rest contributors
        | Some username =>
            issuePage repoConfig options rest
              (eventStep false repoConfig options contributors
                 username (i_title issue) (i_created_at issue))
        end
  end.

Fixpoint issuePages (repoConfig : RepoConfig) (options : FetchOptions)
    (pages : list Z) (contributors : JsMap.t ContributorData)
  : JsMap.t ContributorData :=
  match pages with
  | [] => contributors
  | page :: pages' =>
      match issues_listForRepo octokit repoConfig page with
      | Throw _ => contributors
      | Ok [] => contributors
      | Ok data =>
          let (contributors', hasMore) :=
            issuePage repoConfig options data contributors in
          if hasMore then issuePages repoConfig options pages' contributors'
          else contributors'
      end
  end.

Definition fetchIssueCreators (repoConfig : RepoConfig)
    (contributors : JsMap.t ContributorData) (options : FetchOptions)
  : JsMap.t ContributorData :=
  issuePages repoConfig options [1; 2; 3] contributors.

(** *** [fetchContributors] *)

(** [options.flag !== false] *)
Definition enabled (flag : option bool) : bool :=
  match flag with Some false => false | _ => true end.

Definition fetchContributors (repoConfig : RepoConfig) (options : FetchOptions)
  : list ContributorData :=
  let contributors := JsMap.empty in
  let contributors :=
    if enabled (includeCommitters options)
    then fetchCommitters repoConfig contributors options else contributors in
  let contributors :=
    if enabled (includePRAuthors options)
    then fetchPRAuthors repoConfig contributors options else contributors in
  let contributors :=
    if enabled (includeIssueCreators options)
    then fetchIssueCreators repoConfig contributors options else contributors in
  JsMap.values contributors.

End Client.

(** ** [CSVExporter.mergeContributors] *)

(** [contributor.date && (!existing.date || contributor.date < existing.date)] *)
Definition mergeFirst (existing contributor : option Date) : option Date :=
  match contributor with
  | None => existing
  | Some c =>
      match existing with
      | None => Some c
      | Some e => if c <? e then Some c else Some e
      end
  end.

Definition mergeLast (existing contributor : option Date) : option Date :=
  match contributor with
  | None => existing
  | Some c =>
      match existing with
      | None => Some c
      | Some e => if e <? c then Some c else Some e
      end
  end.

(** The [else] branch of the merge loop: the record held by the map takes
    the sums of the counters, the distinct titles of both (at most five),
    the widened dates, the other repository's name unless it already occurs
    in its own, and the time of the merge. *)
Definition mergeInto (now : Date) (existing contributor : ContributorData)
  : ContributorData :=
  {| username := username existing;
     name := name existing;
     email := email existing;
     location := location existing;
     bio := bio existing;
     company := company existing;
     twitter := twitter existing;
     blog := blog existing;
     profileUrl := profileUrl existing;
     totalContributions := totalContributions existing + totalContributions contributor;
     pullRequests := pullRequests existing + pullRequests contributor;
     issues := issues existing + issues contributor;
     commits := commits existing + commits contributor;
     notableContributions :=
       firstn 5 (JsSet.from (notableContributions existing ++
                             notableContributions contributor));
     firstContribution :=
       mergeFirst (firstContribution existing) (firstContribution contributor);
     lastContribution :=
       mergeLast (lastContribution existing) (lastContribution contributor);
     repoName :=
       if JsString.includes (repoName contributor) (repoName existing)
       then repoName existing
       else repoName existing ++ ", " ++ repoName contributor;
     fetchedAt := now |}.

(** The body of the loop over [newContributors]. *)
Definition mergeStep (now : Date) (merged : JsMap.t ContributorData)
    (contributor : ContributorData) : JsMap.t ContributorData :=
  match JsMap.get (username contributor) merged with
  | None => JsMap.set (username contributor) contributor merged
  | Some existing =>
      JsMap.set (username contributor) (mergeInto now existing contributor) merged
  end.

(** The records of the two arrays are distinct objects (each array is built
    by its own [fetchContributors] call, or is a copy), so the in-place
    update of [existing] is the replacement of the value held by the map. *)
Definition mergeContributors (now : Date)
    (existingContributors newContributors : list ContributorData)
  : list ContributorData :=
  let merged :=
    fold_left (fun m contributor => JsMap.set (username contributor) contributor m)
              existingContributors JsMap.empty in
  let merged := fold_left (mergeStep now) newContributors merged in
  JsMap.values merged.

(** ** [index.ts]: filter, merge and sort *)

(** [options.minContributions || 1] *)
Definition minThreshold (options : FetchOptions) : Z :=
  match minContributions options with
  | None => 1
  | Some m => if m =? 0 then 1 else m
  end.

(** [contributors.filter(c => c.totalContributions >= (options.minContributions || 1))] *)
Definition filterMin (options : FetchOptions) (contributors : list ContributorData)
  : list ContributorData :=
  filter (fun c => minThreshold options <=? totalContributions c) contributors.

(** The loop of [main] over the command-line references: a reference that
    does not parse is reported and skipped; the records of a repository are
    filtered and then merged into [allContributors]. *)
Fixpoint mainLoop (octokit : Octokit) (now : Date) (options : FetchOptions)
    (repos : list string) (allContributors : list ContributorData)
  : list ContributorData :=
  match repos with
  | [] => allContributors
  | repoInput :: repos' =>
      match parseRepo repoInput with
      | Throw _ => mainLoop octokit now options repos' allContributors
      | Ok repoConfig =>
          let contributors := fetchContributors octokit now repoConfig options in
          let filtered := filterMin options contributors in
          mainLoop octokit now options repos'
            (mergeContributors now allContributors filtered)
      end
  end.

(** [xs.sort((a, b) => b.totalContributions - a.totalContributions)]: the
    sort is stable, so it is the result of inserting each record, from the
    last to the first, before the first record with a smaller or equal
    total. *)
Fixpoint insertByTotal (x : ContributorData) (sorted : list ContributorData)
  : list ContributorData :=
  match sorted with
  | [] => [x]
  | y :: ys =>
      if totalContributions y <=? totalContributions x then x :: y :: ys
      else y :: insertByTotal x ys
  end.

Fixpoint sortByTotal (xs : list ContributorData) : list ContributorData :=
  match xs with
  | [] => []
  | x :: xs' => insertByTotal x (sortByTotal xs')
  end.

(** The record set handed to [exportToCSV]. *)
Definition exported (octokit : Octokit) (now : Date) (options : FetchOptions)
    (repos : list string) : list ContributorData :=
  sortByTotal (mainLoop octokit now options repos []).

(** The reading of the filter stage in which the threshold is applied once,
    to the merged records of all repositories: the repositories are merged
    unfiltered, the merged set is filtered, and the result is sorted. *)
Fixpoint mergeAll (octokit : Octokit) (now : Date) (options : FetchOptions)
    (repos : list string) (allContributors : list ContributorData)
  : list ContributorData :=
  match repos with
  | [] => allContributors
  | repoInput :: repos' =>
      match parseRepo repoInput with
      | Throw _ => mergeAll octokit now options repos' allContributors
      | Ok repoConfig =>
          mergeAll octokit now options repos'
            (mergeContributors now allContributors
               (fetchContributors octokit now repoConfig options))
      end
  end.

Definition filteredAfterMerge (octokit : Octokit) (now : Date) (options : FetchOptions)
    (repos : list string) : list ContributorData :=
  sortByTotal (filterMin options (mergeAll octokit now options repos [])).

(** ** [Date.prototype.toISOString]

    The calendar arithmetic of the language standard: a time value is split
    into its day number and the time within the day, and the day number
    into the year, month and day of the proleptic Gregorian calendar. *)

Module IsoDate.

Definition msPerDay : Z := 86400000.

Definition Day (t : Date) : Z := t / msPerDay.

Definition TimeWithinDay (t : Date) : Z := t mod msPerDay.

(** Year of the cycle, month (1 to 12) and day of the month (1 to 31) of a
    day of a cycle of 400 years (146097 days) of years that start on the
    first of March. *)
Definition cycleDay (doe : Z) : Z * Z * Z :=
  let yoe := (doe - doe / 1460 + doe / 36524 - doe / 146096) / 365 in
  let doy := doe - (365 * yoe + yoe / 4 - yoe / 100) in
  let mp := (5 * doy + 2) / 153 in
  let d := doy - (153 * mp + 2) / 5 + 1 in
  let m := if mp <? 10 then mp + 3 else mp - 9 in
  (yoe, m, d).

(** Year, month and day of the month of a day number. *)
Definition civil (days : Z) : Z * Z * Z :=
  let z := days + 719468 in
  let era := z / 146097 in
  let '(yoe, m, d) := cycleDay (z mod 146097) in
  (yoe + era * 400 + (if m <=? 2 then 1 else 0), m, d).

Definition YearFromTime (t : Date) : Z := fst (fst (civil (Day t))).
Definition MonthFromTime (t : Date) : Z := snd (fst (civil (Day t))) - 1.
Definition DateFromTime (t : Date) : Z := snd (civil (Day t)).

Definition digit (d : Z) : ascii := ascii_of_nat (48 + Z.to_nat d).

(** The last [width] decimal digits of [n], most significant first. *)
Fixpoint digits (width : nat) (n : Z) : string :=
  match width with
  | O => EmptyString
  | S width' => digits width' (n / 10) ++ String (digit (n mod 10)) EmptyString
  end.

(** Four digits for the years 0 to 9999, a sign and six digits otherwise. *)
Definition yearString (y : Z) : string :=
  if (0 <=? y) && (y <=? 9999) then digits 4 y
  else (if y <? 0 then "-" else "+") ++ digits 6 (Z.abs y).

Definition dateString (t : Date) : string :=
  yearString (YearFromTime t) ++ "-" ++ digits 2 (MonthFromTime t + 1)
    ++ "-" ++ digits 2 (DateFromTime t).

Definition timeString (t : Date) : string :=
  let ms := TimeWithinDay t in
  digits 2 (ms / 3600000) ++ ":" ++ digits 2 ((ms / 60000) mod 60)
    ++ ":" ++ digits 2 ((ms / 1000) mod 60) ++ "." ++ digits 3 (ms mod 1000).

Definition toISOString (t : Date) : string :=
  dateString t ++ "T" ++ timeString t ++ "Z".

(** The definitions of the standard that fix the calendar: the day number
    of the first day of a year, the length of a year, and the month (from
    0) and day of the month of a day within a year; [leap] is 1 in a leap
    year and 0 otherwise. *)
Definition DayFromYear (y : Z) : Z :=
  365 * (y - 1970) + (y - 1969) / 4 - (y - 1901) / 100 + (y - 1601) / 400.

Definition DaysInYear (y : Z) : Z :=
  if negb (y mod 4 =? 0) then 365
  else if negb (y mod 100 =? 0) then 366
  else if negb (y mod 400 =? 0) then 365
  else 366.

Definition monthAndDate (dayWithinYear leap : Z) : Z * Z :=
  if dayWithinYear <? 31 then (0, dayWithinYear + 1)
  else if dayWithinYear <? 59 + leap then (1, dayWithinYear - 30)
  else if dayWithinYear <? 90 + leap then (2, dayWithinYear - 58 - leap)
  else if dayWithinYear <? 120 + leap then (3, dayWithinYear - 89 - leap)
  else if dayWithinYear <? 151 + leap then (4, dayWithinYear - 119 - leap)
  else if dayWithinYear <? 181 + leap then (5, dayWithinYear - 150 - leap)
  else if dayWithinYear <? 212 + leap then (6, dayWithinYear - 180 - leap)
  else if dayWithinYear <? 243 + leap then (7, dayWithinYear - 211 - leap)
  else if dayWithinYear <? 273 + leap then (8, dayWithinYear - 242 - leap)
  else if dayWithinYear <? 304 + leap then (9, dayWithinYear - 272 - leap)
  else if dayWithinYear <? 334 + leap then (10, dayWithinYear - 303 - leap)
  else (11, dayWithinYear - 333 - leap).

Definition isDigit (c : ascii) : bool :=
  let n := nat_of_ascii c in ((48 <=? n) && (n <=? 57))%nat.

(** The shape [YYYY-MM-DD]: ten characters, digits but for the two
    hyphens. *)
Definition isYMD (s : string) : bool :=
  match s with
  | String y1 (String y2 (String y3 (String y4 (String h1
      (String m1 (String m2 (String h2 (String d1 (String d2 EmptyString))))))))) =>
      isDigit y1 && isDigit y2 && isDigit y3 && isDigit y4 && Ascii.eqb h1 "-"
      && isDigit m1 && isDigit m2 && Ascii.eqb h2 "-" && isDigit d1 && isDigit d2
  | _ => false
  end.

End IsoDate.

(** ** [CSVExporter.exportToCSV]: the rows handed to the writer *)

Record CsvRecord : Type := mkCsvRecord {
  r_username : string;
  r_name : option string;
  r_email : option string;
  r_location : option string;
  r_company : option string;
  r_bio : option string;
  r_twitter : option string;
  r_blog : option string;
  r_profileUrl : string;
  r_repoName : string;
  r_totalContributions : Z;
  r_commits : Z;
  r_pullRequests : Z;
  r_issues : Z;
  r_notableContributions : string;
  r_firstContribution : string;
  r_lastContribution : string;
  r_fetchedAt : string
}.

(** [date.toISOString().split('T')[0]] *)
Definition isoDay (date : Date) : string :=
  hd EmptyString (JsString.split "T" (IsoDate.toISOString date)).

(** [value || ''], where [value] is [undefined] when the optional chain
    stopped at a [null] date. *)
Definition orEmpty (value : option string) : string :=
  match value with
  | Some (String c s) => String c s
  | _ => EmptyString
  end.

Definition toCsvRecord (contributor : ContributorData) : CsvRecord :=
  {| r_username := username contributor;
     r_name := name contributor;
     r_email := email contributor;
     r_location := location contributor;
     r_company := company contributor;
     r_bio := bio contributor;
     r_twitter := twitter contributor;
     r_blog := blog contributor;
     r_profileUrl := profileUrl contributor;
     r_repoName := repoName contributor;
     r_totalContributions := totalContributions contributor;
     r_commits := commits contributor;
     r_pullRequests := pullRequests contributor;
     r_issues := issues contributor;
     r_notableContributions :=
       JsString.join " | " (firstn 3 (notableContributions contributor));
     r_firstContribution :=
       orEmpty (option_map isoDay (firstContribution contributor));
     r_lastContribution :=
       orEmpty (option_map isoDay (lastContribution contributor));
     r_fetchedAt := isoDay (fetchedAt contributor) |}.

(** [contributors.map(contributor => ({...}))] *)
Definition csvRecords (contributors : list ContributorData) : list CsvRecord :=
  map toCsvRecord contributors.

(** ** Notions used to state the properties *)

(** The shorthand reading that asks for two non-empty segments. *)
Definition twoNonEmptySegments (s : string) : Prop :=
  exists p0 p1,
    JsString.split "/" s = [p0; p1] /\ p0 <> EmptyString /\ p1 <> EmptyString.

(** [totalContributions == commits + pullRequests + issues] *)
Definition totalIsSum (c : ContributorData) : Prop :=
  totalContributions c = commits c + pullRequests c + issues c.

Definition usernames (contributors : list ContributorData) : list string :=
  map username contributors.

(** The map entry under which a record is stored. *)
Definition entry (c : ContributorData) : string * ContributorData :=
  (username c, c).

(** A map whose every record is stored under its own username. *)
Definition keyed (m : JsMap.t ContributorData) : Prop :=
  Forall (fun kv => username (snd kv) = fst kv) m.

(** What the merge makes of an existing record: it is merged with the new
    record of the same username, if there is one. *)
Definition mergedWith (now : Date) (newContributors : list ContributorData)
    (existing : ContributorData) : ContributorData :=
  match find (fun c => String.eqb (username c) (username existing)) newContributors with
  | Some c => mergeInto now existing c
  | None => existing
  end.

(** The new records whose username no existing record has. *)
Definition unseenIn (existingContributors : list ContributorData)
    (c : ContributorData) : bool :=
  negb (JsSet.mem (username c) (usernames existingContributors)).

(** A copy of a record that carries another repository identifier. *)
Definition copyForRepo (repository : string) (c : ContributorData) : ContributorData :=
  {| username := username c;
     name := name c;
     email := email c;
     location := location c;
     bio := bio c;
     company := company c;
     twitter := twitter c;
     blog := blog c;
     profileUrl := profileUrl c;
     totalContributions := totalContributions c;
     pullRequests := pullRequests c;
     issues := issues c;
     commits := commits c;
     notableContributions := notableContributions c;
     firstContribution := firstContribution c;
     lastContribution := lastContribution c;
     repoName := repository;
     fetchedAt := fetchedAt c |}.

(** The four counters of a record: commits, pull requests, issues, total. *)
Definition counters (c : ContributorData) : Z * Z * Z * Z :=
  (commits c, pullRequests c, issues c, totalContributions c).

(** ** Sample data *)

(** The options as [main] builds them from the environment. *)
Definition mainOptions (locations : option (list string)) (minimum : Z)
    (months : option Z) : FetchOptions :=
  {| locationFilter := locations;
     minContributions := Some minimum;
     activeWithinMonths := months;
     includeIssueCreators := Some true;
     includePRAuthors := Some true;
     includeCommitters := Some true |}.

(** A record without profile data. *)
Definition plainRecord (user repository : string) (cms prs iss : Z)
    (titles : list string) : ContributorData :=
  {| username := user;
     name := None; email := None; location := None; bio := None;
     company := None; twitter := None; blog := None;
     profileUrl := "https://github.com/" ++ user;
     totalContributions := cms + prs + iss;
     pullRequests := prs;
     issues := iss;
     commits := cms;
     notableContributions := titles;
     firstContribution := None;
     lastContribution := None;
     repoName := repository;
     fetchedAt := 0 |}.

(** A data source in which every repository has one contributor, alice,
    with three commits, and no pull request or issue; profile lookups
    fail. *)
Definition threeCommitsEach : Octokit :=
  {| repos_listContributors := fun _ =>
       Ok [ {| c_type := "User"; c_login := Some "alice"; contributions := 3 |} ];
     pulls_list := fun _ _ => Ok [];
     issues_listForRepo := fun _ _ => Ok [];
     users_getByUsername := fun _ => Throw "Not Found" |}.

(** A data source with ten commits, a pull request of 2024-01-01 and an
    issue of 2024-06-01 by alice, a bot, and a pull request by bob, whose
    profile cannot be fetched. *)
Definition aliceAndBob : Octokit :=
  {| repos_listContributors := fun _ =>
       Ok [ {| c_type := "Bot"; c_login := Some "robot"; contributions := 50 |};
            {| c_type := "User"; c_login := Some "alice"; contributions := 10 |} ];
     pulls_list := fun _ page =>
       if page =? 1
       then Ok [ {| pr_created_at := 1704067200000; pr_user := Some "bob";
                    pr_title := "Add docs" |};
                 {| pr_created_at := 1704067200000; pr_user := Some "alice";
                    pr_title := "Fix bug" |} ]
       else Ok [];
     issues_listForRepo := fun _ page =>
       if page =? 1
       then Ok [ {| i_pull_request := true; i_created_at := 1717200000000;
                    i_user := Some "alice"; i_title := "Fix bug" |};
                 {| i_pull_request := false; i_created_at := 1717200000000;
                    i_user := Some "alice"; i_title := "Report bug" |} ]
       else Ok [];
     users_getByUsername := fun u =>
       if String.eqb u "alice"
       then Ok {| login := "alice"; p_name := Some "Alice"; p_email := None;
                  p_location := Some "Bangalore, India"; p_bio := None;
                  p_company := None; twitter_username := None; p_blog := None;
                  html_url := "https://github.com/alice" |}
       else Throw "Not Found" |}.

(** The profile substituted for one that cannot be fetched. *)
Definition placeholderProfile (user : string) : Profile :=
  {| login := user;
     p_name := None;
     p_email := None;
     p_location := None;
     p_bio := None;
     p_company := None;
     twitter_username := None;
     p_blog := None;
     html_url := "https://github.com/" ++ user |}.

(** The data source in which no profile lookup fails: a lookup that fails
    in [octokit] returns the placeholder profile instead. *)
Definition recovered (octokit : Octokit) : Octokit :=
  {| repos_listContributors := repos_listContributors octokit;
     pulls_list := pulls_list octokit;
     issues_listForRepo := issues_listForRepo octokit;
     users_getByUsername := fun user =>
       match users_getByUsername octokit user with
       | Ok data => Ok data
       | Throw _ => Ok (placeholderProfile user)
       end |}.

(** A string without the character [c]. *)
Fixpoint lacks (c : ascii) (s : string) : bool :=
  match s with
  | EmptyString => true
  | String a s' => negb (Ascii.eqb a c) && lacks c s'
  end.

(** The record of alice built from ten commits, the pull request [Fix bug]
    of 2024-01-01 and the issue [Report bug] of 2024-06-01, in that order,
    fetched at the time 7. *)
Definition aliceRecord : ContributorData :=
  {| username := "alice";
     name := Some "Alice"; email := None; location := Some "Bangalore, India";
     bio := None; company := None; twitter := None; blog := None;
     profileUrl := "https://github.com/alice";
     totalContributions := 12;
     pullRequests := 1;
     issues := 1;
     commits := 10;
     notableContributions := ["Fix bug"; "Report bug"];
     firstContribution := Some 1704067200000;
     lastContribution := Some 1717200000000;
     repoName := "acme/widgets";
     fetchedAt := 7 |}.

(** ** Further notions used to state properties *)

(** The dates of a record agree with its counters: a record without pull
    request and issue has no date; any other has a first date that is not
    after its last date and, when a cutoff is given, not before the
    cutoff. *)
Definition datesConsistent (cutoff : option Date) (c : ContributorData) : Prop :=
  match firstContribution c, lastContribution c with
  | None, None => pullRequests c + issues c = 0
  | Some first, Some last =>
      first <= last /\ 1 <= pullRequests c + issues c /\
      match cutoff with
      | Some limit => limit <= first
      | None => True
      end
  | _, _ => False
  end.

(** The profile fields of a record are those of a profile. *)
Definition hasProfile (profile : Profile) (c : ContributorData) : Prop :=
  name c = p_name profile /\ email c = p_email profile /\
  location c = p_location profile /\ bio c = p_bio profile /\
  company c = p_company profile /\ twitter c = twitter_username profile /\
  blog c = p_blog profile /\ profileUrl c = html_url profile.

(** A record as it is after further events of its user within the
    repository: the same user, profile and repository, counters that are
    not smaller, the same titles followed by later ones, and dates that
    reach at least as far back and as far forward. *)
Definition grownFrom (before after : ContributorData) : Prop :=
  username after = username before /\
  hasProfile {| login := username before;
                p_name := name before; p_email := email before;
                p_location := location before; p_bio := bio before;
                p_company := company before; twitter_username := twitter before;
                p_blog := blog before; html_url := profileUrl before |} after /\
  repoName after = repoName before /\ fetchedAt after = fetchedAt before /\
  commits before <= commits after /\
  pullRequests before <= pullRequests after /\
  issues before <= issues after /\
  totalContributions before <= totalContributions after /\
  (exists later,
      notableContributions after = (notableContributions before ++ later)%list) /\
  (forall first, firstContribution before = Some first ->
     exists first', firstContribution after = Some first' /\ first' <= first) /\
  (forall last, lastContribution before = Some last ->
     exists last', lastContribution after = Some last' /\ last <= last').

(** A map that extends another: the keys of the other come first, in their
    order, and each of its records has grown. *)
Definition extendsMap (before after : JsMap.t ContributorData) : Prop :=
  (exists added, JsMap.keys after = (JsMap.keys before ++ added)%list) /\
  forall k e, JsMap.get k before = Some e ->
              exists e', JsMap.get k after = Some e' /\ grownFrom e e'.

(** A map of records as the passes keep it: every record is stored under
    its username, no username occurs twice, every record has the property
    [P]. *)
Definition goodMap (P : ContributorData -> Prop) (m : JsMap.t ContributorData) : Prop :=
  keyed m /\ NoDup (JsMap.keys m) /\ Forall P (JsMap.values m).

(** The sum of a counter over records. *)
Definition sumBy (f : ContributorData -> Z) (records : list ContributorData) : Z :=
  fold_right (fun c acc => f c + acc) 0 records.

(** The number of entries of a page of pull requests or issues; a request
    that fails gives none. *)
Definition pullsOnPage (octokit : Octokit) (repoConfig : RepoConfig) (page : Z) : Z :=
  match pulls_list octokit repoConfig page with
  | Ok data => Z.of_nat (List.length data)
  | Throw _ => 0
  end.

Definition issuesOnPage (octokit : Octokit) (repoConfig : RepoConfig) (page : Z) : Z :=
  match issues_listForRepo octokit repoConfig page with
  | Ok data => Z.of_nat (List.length data)
  | Throw _ => 0
  end.

(** The sum of a counter over the records that pass the filter, repository
    by repository. *)
Fixpoint filteredSum (f : ContributorData -> Z) (octokit : Octokit) (now : Date)
    (options : FetchOptions) (repos : list string) : Z :=
  match repos with
  | [] => 0
  | repoInput :: repos' =>
      match parseRepo repoInput with
      | Throw _ => filteredSum f octokit now options repos'
      | Ok repoConfig =>
          sumBy f (filterMin options (fetchContributors octokit now repoConfig options))
          + filteredSum f octokit now options repos'
      end
  end.

(** ** The summary printed by [main] *)

Record Summary : Type := mkSummary {
  uniqueContributors : nat;
  withEmail : nat;
  withLocation : nat;
  withTwitter : nat;
  totalPRs : Z;
  totalIssues : Z;
  totalCommits : Z
}.

(** [c.field] as a condition: a string that is neither null nor empty. *)
Definition present (field : option string) : bool :=
  match truthy field with Some _ => true | None => false end.

Definition summarize (allContributors : list ContributorData) : Summary :=
  {| uniqueContributors := List.length allContributors;
     withEmail := List.length (filter (fun c => present (email c)) allContributors);
     withLocation := List.length (filter (fun c => present (location c)) allContributors);
     withTwitter := List.length (filter (fun c => present (twitter c)) allContributors);
     totalPRs := fold_left (fun sum c => sum + pullRequests c) allContributors 0;
     totalIssues := fold_left (fun sum c => sum + issues c) allContributors 0;
     totalCommits := fold_left (fun sum c => sum + commits c) allContributors 0 |}.

(** ** Further sample data *)

Definition widgets : RepoConfig :=
  {| owner := "acme"; repo := "widgets"; fullName := "acme/widgets" |}.

(** A data source without committers whose pull requests come in three
    pages: a first page with one of 2024-06-01 by alice, one of 2023-01-01
    by bob and one of 2024-06-01 by carol, and two pages with one pull
    request each.  Its only page of issues holds the issue of a pull
    request of 2023-01-01, an issue of 2024-06-01 by bob, an issue of
    2023-01-01 by carol and an issue of 2024-06-01 by dave.  Profile
    lookups fail. *)
Definition pagedSource : Octokit :=
  {| repos_listContributors := fun _ => Ok [];
     pulls_list := fun _ page =>
       if page =? 1
       then Ok [ {| pr_created_at := 1717200000000; pr_user := Some "alice";
                    pr_title := "Fix bug" |};
                 {| pr_created_at := 1672531200000; pr_user := Some "bob";
                    pr_title := "Old docs" |};
                 {| pr_created_at := 1717200000000; pr_user := Some "carol";
                    pr_title := "New docs" |} ]
       else if page =? 2
       then Ok [ {| pr_created_at := 1717200000000; pr_user := Some "dave";
                    pr_title := "Typo" |} ]
       else if page =? 3
       then Ok [ {| pr_created_at := 1717200000000; pr_user := Some "alice";
                    pr_title := "Tests" |} ]
       else Ok [];
     issues_listForRepo := fun _ page =>
       if page =? 1
       then Ok [ {| i_pull_request := true; i_created_at := 1672531200000;
                    i_user := Some "bob"; i_title := "Old docs" |};
                 {| i_pull_request := false; i_created_at := 1717200000000;
                    i_user := Some "bob"; i_title := "Crash" |};
                 {| i_pull_request := false; i_created_at := 1672531200000;
                    i_user := Some "carol"; i_title := "Old crash" |};
                 {| i_pull_request := false; i_created_at := 1717200000000;
                    i_user := Some "dave"; i_title := "Question" |} ]
       else Ok [];
     users_getByUsername := fun _ => Throw "Not Found" |}.

(** Text of ASCII characters only.  On such text the strings of the model
    are those of the program, character by character, and
    [JsString.toLowerCase] is the built-in. *)
Fixpoint asciiText (s : string) : bool :=
  match s with
  | EmptyString => true
  | String c s' => (nat_of_ascii c <? 128)%nat && asciiText s'
  end.

(** A data source whose commit statistics list carol with no commit, and
    without pull requests and issues; profile lookups fail. *)
Definition zeroCommits : Octokit :=
  {| repos_listContributors := fun _ =>
       Ok [ {| c_type := "User"; c_login := Some "carol"; contributions := 0 |} ];
     pulls_list := fun _ _ => Ok [];
     issues_listForRepo := fun _ _ => Ok [];
     users_getByUsername := fun _ => Throw "Not Found" |}.

(** A map with the records of two users: zoe, with two commits, and
    alice. *)
Definition zoeAndAlice : JsMap.t ContributorData :=
  JsMap.set "alice" aliceRecord
    (JsMap.set "zoe" (plainRecord "zoe" "acme/widgets" 2 0 0 []) JsMap.empty).

(** * Properties *)

Local Open Scope list_scope.

Example iso_2024 : IsoDate.toISOString 1704067200000 = "2024-01-01T00:00:00.000Z".
Proof. reflexivity. Qed.
Example iso_1969 : IsoDate.toISOString (-1) = "1969-12-31T23:59:59.999Z".
Proof. reflexivity. Qed.
Example iso_leap : IsoDate.toISOString 1709210096789 = "2024-02-29T12:34:56.789Z".
Proof. reflexivity. Qed.
Example iso_far : IsoDate.toISOString 253402300800000 = "+010000-01-01T00:00:00.000Z".
Proof. reflexivity. Qed.
Example iso_neg : IsoDate.toISOString (-62198755200000) = "-000001-01-01T00:00:00.000Z".
Proof. reflexivity. Qed.

(** ** Repository references *)

Module ParseRepoFacts.

Lemma split_nonempty (sep : ascii) (s : string) : JsString.split sep s <> [].
Proof.
  destruct s as [|c s]; simpl; [discriminate|].
  destruct (Ascii.eqb c sep); [discriminate|].
  destruct (JsString.split sep s); discriminate.
Qed.

(** Joining the segments with the separator gives the string back. *)
Lemma join_split (sep : ascii) (s : string) :
  String.concat (String sep EmptyString) (JsString.split sep s) = s.
Proof.
  induction s as [|c s IH]; simpl; [reflexivity|].
  destruct (Ascii.eqb_spec c sep) as [->|Hne].
  - pose proof (split_nonempty sep s) as Hnil.
    simpl. destruct (JsString.split sep s) as [|seg segs]; [contradiction|].
    simpl in *. now rewrite IH.
  - pose proof (split_nonempty sep s) as Hnil.
    destruct (JsString.split sep s) as [|seg segs]; [contradiction|].
    simpl in *. destruct segs; simpl in *; now rewrite <- IH.
Qed.

(** No segment holds the separator. *)
Lemma split_lacks (sep : ascii) (s : string) :
  Forall (fun seg => lacks sep seg = true) (JsString.split sep s).
Proof.
  induction s as [|c s IH]; simpl; [repeat constructor|].
  destruct (Ascii.eqb c sep) eqn:Hc; [now constructor|].
  destruct (JsString.split sep s) as [|seg segs]; [repeat constructor; simpl; now rewrite Hc|].
  inversion IH; subst. constructor; [|assumption].
  simpl. now rewrite Hc.
Qed.

Lemma split_two (s p0 p1 : string) :
  JsString.split "/" s = [p0; p1] -> s = (p0 ++ "/" ++ p1)%string.
Proof.
  intros H. rewrite <- (join_split "/" s) at 1. now rewrite H.
Qed.

End ParseRepoFacts.

Example parseRepo_url :
  parseRepo "https://github.com/acme/widgets.git"
  = Ok {| owner := "acme"; repo := "widgets"; fullName := "acme/widgets" |}.
Proof. reflexivity. Qed.

Example parseRepo_short :
  parseRepo "acme/widgets"
  = Ok {| owner := "acme"; repo := "widgets"; fullName := "acme/widgets" |}.
Proof. reflexivity. Qed.

Example parseRepo_url_deeper :
  parseRepo "https://github.com/acme/widgets/tree/main"
  = Ok {| owner := "acme"; repo := "widgets"; fullName := "acme/widgets" |}.
Proof. reflexivity. Qed.

Example parseRepo_url_without_name :
  isThrow (parseRepo "https://github.com/acme/").
Proof. eexists. reflexivity. Qed.

(** The URL branch can return an empty name as well. *)
Example parseRepo_url_empty_name :
  parseRepo "https://github.com/acme/.git"
  = Ok {| owner := "acme"; repo := ""; fullName := "acme/" |}.
Proof. reflexivity. Qed.

(** C4, as stated, fails: the shorthand branch counts the segments and does
    not look into them, so a reference with one separator and an empty
    segment is accepted. *)
Lemma parseRepo_empty_segment_accepted :
  ~ (forall s : string,
        JsString.includes "github.com" s = false ->
        ~ twoNonEmptySegments s -> isThrow (parseRepo s)).
Proof.
  intros H. specialize (H "acme/" eq_refl).
  destruct H as [message Hm].
  - intros (p0 & p1 & Hsplit & _ & Hp1).
    simpl in Hsplit. injection Hsplit as _ Hp. now subst p1.
  - discriminate Hm.
Qed.

(** C4, amended: for a string without the host fragment, parsing succeeds
    exactly when the string splits on the separator into two segments,
    that is, when it is two separator-free parts around one separator; the
    parts may be empty.  They are returned as owner and name, and the
    string itself as full name.  So [acme/] and [/widgets] parse, and
    [not-a-repo] fails. *)
Theorem parseRepo_shorthand (s : string) :
  JsString.includes "github.com" s = false ->
  (forall p0 p1, JsString.split "/" s = [p0; p1] ->
     s = (p0 ++ "/" ++ p1)%string /\ lacks "/" p0 = true /\ lacks "/" p1 = true /\
     parseRepo s = Ok {| owner := p0; repo := p1; fullName := s |}) /\
  (List.length (JsString.split "/" s) <> 2%nat -> isThrow (parseRepo s)) /\
  parseRepo "acme/" = Ok {| owner := "acme"; repo := ""; fullName := "acme/" |} /\
  parseRepo "/widgets" = Ok {| owner := ""; repo := "widgets"; fullName := "/widgets" |} /\
  isThrow (parseRepo "not-a-repo").
Proof.
  intros Hhost. unfold parseRepo. rewrite Hhost.
  split; [|split; [|split; [|split]]]; try reflexivity.
  - intros p0 p1 Hsplit.
    pose proof (ParseRepoFacts.split_lacks "/" s) as Hlacks.
    rewrite Hsplit in *. inversion Hlacks as [|? ? H0 H1]; subst.
    inversion H1; subst.
    repeat split; try assumption. now apply ParseRepoFacts.split_two.
  - intros Hlen.
    destruct (JsString.split "/" s) as [|p0 [|p1 [|p2 rest]]]; simpl in Hlen;
      try (eexists; reflexivity).
    now contradiction Hlen.
  - eexists; reflexivity.
Qed.

Lemma parseRepo_shorthand_witness :
  parseRepo "acme/widgets"
  = Ok {| owner := "acme"; repo := "widgets"; fullName := "acme/widgets" |}.
Proof.
  exact (proj2 (proj2 (proj2 (proj1 (parseRepo_shorthand "acme/widgets" eq_refl)
                                "acme" "widgets" eq_refl)))).
Defined.

(** C5: a reference whose name holds [.git] before its end.  The name is not
    a [.git]-suffixed one, yet the parser removes the first occurrence of
    [.git] from it; the suffix of a clone URL is removed as intended. *)
Theorem parseRepo_git_inside_name :
  JsString.endsWith ".git" "acme.github.io" = false /\
  parseRepo "https://github.com/acme/acme.github.io"
  = Ok {| owner := "acme"; repo := "acmehub.io"; fullName := "acme/acmehub.io" |} /\
  parseRepo "https://github.com/acme/widgets.git"
  = Ok {| owner := "acme"; repo := "widgets"; fullName := "acme/widgets" |}.
Proof. repeat split. Qed.

(** ** The ordered map and the set of strings *)

Module JsMapFacts.

Section Facts.

Context {V : Type}.
Implicit Types (m : JsMap.t V) (k : string) (v : V).

Lemma get_not_in k m : ~ In k (JsMap.keys m) -> JsMap.get k m = None.
Proof.
  induction m as [|[k' v'] m IH]; simpl; intros Hk; [reflexivity|].
  destruct (String.eqb_spec k k') as [->|_]; [|apply IH]; tauto.
Qed.

Lemma get_in k m : In k (JsMap.keys m) -> exists v, JsMap.get k m = Some v.
Proof.
  induction m as [|[k' v'] m IH]; simpl; intros Hk; [contradiction|].
  destruct (String.eqb_spec k k') as [->|Hne]; [eauto|].
  destruct Hk as [Hk|Hk]; [congruence|auto].
Qed.

Lemma get_some_in k m v : JsMap.get k m = Some v -> In (k, v) m.
Proof.
  induction m as [|[k' v'] m IH]; simpl; [discriminate|].
  destruct (String.eqb_spec k k') as [->|_]; intros H.
  - injection H as ->. now left.
  - right. auto.
Qed.

(** The keys after [set]: the key is added to the set of keys. *)
Lemma keys_set k v m : JsMap.keys (JsMap.set k v m) = JsSet.add (JsMap.keys m) k.
Proof.
  unfold JsSet.add. induction m as [|[k' v'] m IH]; simpl; [reflexivity|].
  destruct (String.eqb_spec k k') as [->|Hne]; simpl; [reflexivity|].
  rewrite IH. now destruct (JsSet.mem k (JsMap.keys m)).
Qed.

Lemma get_set_same k v m : JsMap.get k (JsMap.set k v m) = Some v.
Proof.
  induction m as [|[k' v'] m IH]; simpl.
  - now rewrite String.eqb_refl.
  - destruct (String.eqb k k') eqn:Hk; simpl.
    + now rewrite String.eqb_refl.
    + now rewrite Hk.
Qed.

Lemma get_middle k v m1 m2 :
  ~ In k (JsMap.keys m1) -> JsMap.get k (m1 ++ (k, v) :: m2) = Some v.
Proof.
  induction m1 as [|[k' v'] m1 IH]; simpl; intros Hk.
  - now rewrite String.eqb_refl.
  - destruct (String.eqb_spec k k') as [->|_]; [|apply IH]; tauto.
Qed.

Lemma set_middle k v v' m1 m2 :
  ~ In k (JsMap.keys m1) ->
  JsMap.set k v' (m1 ++ (k, v) :: m2) = m1 ++ (k, v') :: m2.
Proof.
  induction m1 as [|[k0 v0] m1 IH]; simpl; intros Hk.
  - now rewrite String.eqb_refl.
  - destruct (String.eqb_spec k k0) as [->|_]; [tauto|].
    f_equal. apply IH. tauto.
Qed.

Lemma set_fresh k v m :
  ~ In k (JsMap.keys m) -> JsMap.set k v m = m ++ [(k, v)].
Proof.
  induction m as [|[k0 v0] m IH]; simpl; intros Hk; [reflexivity|].
  destruct (String.eqb_spec k k0) as [->|_]; [tauto|].
  f_equal. apply IH. tauto.
Qed.

(** A property of all values survives [set] with a value that has it. *)
Lemma values_set (P : V -> Prop) k v m :
  Forall P (JsMap.values m) -> P v -> Forall P (JsMap.values (JsMap.set k v m)).
Proof.
  unfold JsMap.values.
  induction m as [|[k0 v0] m IH]; simpl; intros Hm Hv.
  - now constructor.
  - inversion Hm; subst.
    destruct (String.eqb k k0); simpl; constructor; auto.
Qed.

Lemma values_get (P : V -> Prop) k v m :
  Forall P (JsMap.values m) -> JsMap.get k m = Some v -> P v.
Proof.
  intros Hm Hget. apply get_some_in in Hget.
  rewrite Forall_forall in Hm. apply Hm.
  unfold JsMap.values. now apply (in_map snd) in Hget.
Qed.

End Facts.

End JsMapFacts.

Module JsSetFacts.

Lemma mem_In (x : string) (s : list string) : JsSet.mem x s = true <-> In x s.
Proof.
  unfold JsSet.mem. rewrite existsb_exists. split.
  - intros (y & Hy & Heq). apply String.eqb_eq in Heq. now subst.
  - intros H. exists x. split; [assumption|apply String.eqb_refl].
Qed.

Lemma mem_not_In (x : string) (s : list string) : JsSet.mem x s = false <-> ~ In x s.
Proof.
  rewrite <- mem_In. destruct (JsSet.mem x s); split; congruence.
Qed.

Lemma add_In (s : list string) (x y : string) :
  In y (JsSet.add s x) <-> In y s \/ y = x.
Proof.
  unfold JsSet.add. destruct (JsSet.mem x s) eqn:Hm.
  - apply mem_In in Hm. split; [tauto|]. intros [H| ->]; assumption.
  - rewrite in_app_iff. simpl. intuition auto.
Qed.

Lemma add_NoDup (s : list string) (x : string) : NoDup s -> NoDup (JsSet.add s x).
Proof.
  unfold JsSet.add. intros Hs. destruct (JsSet.mem x s) eqn:Hm; [assumption|].
  apply mem_not_In in Hm.
  apply NoDup_app; [assumption|repeat constructor; intros []|].
  intros y Hy [->|[]]. contradiction.
Qed.

Lemma fold_add_In (xs acc : list string) (y : string) :
  In y (fold_left JsSet.add xs acc) <-> In y acc \/ In y xs.
Proof.
  revert acc. induction xs as [|x xs IH]; intros acc; simpl; [tauto|].
  rewrite IH, add_In. split; intros H; intuition auto.
Qed.

Lemma fold_add_NoDup (xs acc : list string) :
  NoDup acc -> NoDup (fold_left JsSet.add xs acc).
Proof.
  revert acc. induction xs as [|x xs IH]; intros acc Hacc; simpl; [assumption|].
  apply IH. now apply add_NoDup.
Qed.

(** The result of [from] has no repetition and the elements of its input. *)
Lemma from_NoDup (xs : list string) : NoDup (JsSet.from xs).
Proof. apply fold_add_NoDup. constructor. Qed.

Lemma from_In (xs : list string) (y : string) : In y (JsSet.from xs) <-> In y xs.
Proof. unfold JsSet.from. rewrite fold_add_In. simpl. tauto. Qed.

Lemma add_app (acc t : list string) (x : string) :
  JsSet.add (acc ++ t) x
  = if JsSet.mem x acc then acc ++ t else acc ++ JsSet.add t x.
Proof.
  unfold JsSet.add, JsSet.mem. rewrite existsb_app.
  destruct (existsb (String.eqb x) acc); simpl; [reflexivity|].
  destruct (existsb (String.eqb x) t); [reflexivity|].
  now rewrite app_assoc.
Qed.

(** Adding to [acc ++ t] handles only the elements that are not in [acc]. *)
Lemma fold_add_skip (xs acc t : list string) :
  fold_left JsSet.add xs (acc ++ t)
  = acc ++ fold_left JsSet.add (filter (fun x => negb (JsSet.mem x acc)) xs) t.
Proof.
  revert t. induction xs as [|x xs IH]; intros t; simpl; [reflexivity|].
  rewrite add_app. destruct (JsSet.mem x acc); simpl; apply IH.
Qed.

Lemma fold_add_fresh (xs acc : list string) :
  NoDup (acc ++ xs) -> fold_left JsSet.add xs acc = acc ++ xs.
Proof.
  revert acc. induction xs as [|x xs IH]; intros acc Hnd; simpl.
  - now rewrite app_nil_r.
  - assert (Hx : JsSet.mem x acc = false).
    { apply mem_not_In. apply NoDup_remove_2 in Hnd.
      intros Hin. apply Hnd. apply in_or_app. now left. }
    unfold JsSet.add. rewrite Hx.
    rewrite IH; rewrite <- app_assoc; [reflexivity|exact Hnd].
Qed.

Lemma from_fresh (xs : list string) : NoDup xs -> JsSet.from xs = xs.
Proof. intros H. now apply (fold_add_fresh xs []). Qed.

(** The distinct elements of [a ++ b], for [a] without repetition: [a],
    then the distinct elements of [b] that are not in [a]. *)
Lemma from_app (a b : list string) :
  NoDup a ->
  JsSet.from (a ++ b)
  = a ++ JsSet.from (filter (fun x => negb (JsSet.mem x a)) b).
Proof.
  intros Ha. unfold JsSet.from. rewrite fold_left_app.
  fold (JsSet.from a). rewrite (from_fresh a Ha).
  rewrite <- (app_nil_r a) at 1. apply fold_add_skip.
Qed.

End JsSetFacts.

(** ** The inter-repository merge *)

Module MergeFacts.

Lemma keys_entries (l : list ContributorData) : JsMap.keys (map entry l) = usernames l.
Proof. unfold JsMap.keys, usernames. rewrite map_map. reflexivity. Qed.

Lemma values_entries (l : list ContributorData) : JsMap.values (map entry l) = l.
Proof. unfold JsMap.values. rewrite map_map. simpl. apply map_id. Qed.

Lemma keyed_values (m : JsMap.t ContributorData) :
  keyed m -> usernames (JsMap.values m) = JsMap.keys m.
Proof.
  unfold keyed, usernames, JsMap.values, JsMap.keys.
  induction 1 as [|[k v] m Hkv _ IH]; simpl in *; [reflexivity|].
  now rewrite Hkv, IH.
Qed.

Lemma keyed_set (k : string) (c : ContributorData) (m : JsMap.t ContributorData) :
  keyed m -> username c = k -> keyed (JsMap.set k c m).
Proof.
  unfold keyed. induction 1 as [|[k0 v0] m Hkv Hm IH]; simpl; intros Hc.
  - now repeat constructor.
  - destruct (String.eqb k k0); constructor; auto.
Qed.

Lemma keyed_get (k : string) (c : ContributorData) (m : JsMap.t ContributorData) :
  keyed m -> JsMap.get k m = Some c -> username c = k.
Proof.
  intros Hm Hget. apply JsMapFacts.get_some_in in Hget.
  unfold keyed in Hm. rewrite Forall_forall in Hm. exact (Hm _ Hget).
Qed.

Lemma mergeInto_username (now : Date) (e c : ContributorData) :
  username (mergeInto now e c) = username e.
Proof. reflexivity. Qed.

Lemma mergeStep_keyed (now : Date) (m : JsMap.t ContributorData) (c : ContributorData) :
  keyed m -> keyed (mergeStep now m c).
Proof.
  intros Hm. unfold mergeStep.
  destruct (JsMap.get (username c) m) as [e|] eqn:Hget.
  - apply keyed_set; [assumption|]. simpl. now apply (keyed_get _ _ m).
  - now apply keyed_set.
Qed.

Lemma mergeStep_keys (now : Date) (m : JsMap.t ContributorData) (c : ContributorData) :
  JsMap.keys (mergeStep now m c) = JsSet.add (JsMap.keys m) (username c).
Proof.
  unfold mergeStep. destruct (JsMap.get (username c) m); apply JsMapFacts.keys_set.
Qed.

Lemma insert_all_keyed (l : list ContributorData) (m : JsMap.t ContributorData) :
  keyed m ->
  keyed (fold_left (fun m c => JsMap.set (username c) c m) l m).
Proof.
  revert m. induction l as [|c l IH]; intros m Hm; simpl; [assumption|].
  apply IH. now apply keyed_set.
Qed.

Lemma insert_all_keys (l : list ContributorData) (m : JsMap.t ContributorData) :
  JsMap.keys (fold_left (fun m c => JsMap.set (username c) c m) l m)
  = fold_left JsSet.add (usernames l) (JsMap.keys m).
Proof.
  revert m. induction l as [|c l IH]; intros m; simpl; [reflexivity|].
  now rewrite IH, JsMapFacts.keys_set.
Qed.

Lemma merge_all_keyed (now : Date) (l : list ContributorData) (m : JsMap.t ContributorData) :
  keyed m -> keyed (fold_left (mergeStep now) l m).
Proof.
  revert m. induction l as [|c l IH]; intros m Hm; simpl; [assumption|].
  apply IH. now apply mergeStep_keyed.
Qed.

Lemma merge_all_keys (now : Date) (l : list ContributorData) (m : JsMap.t ContributorData) :
  JsMap.keys (fold_left (mergeStep now) l m)
  = fold_left JsSet.add (usernames l) (JsMap.keys m).
Proof.
  revert m. induction l as [|c l IH]; intros m; simpl; [reflexivity|].
  now rewrite IH, mergeStep_keys.
Qed.

(** The usernames of the merge: the distinct usernames of the existing
    records followed by the new ones, in the order of first occurrence. *)
Lemma merge_usernames (now : Date) (ex nw : list ContributorData) :
  usernames (mergeContributors now ex nw)
  = JsSet.from (usernames ex ++ usernames nw).
Proof.
  unfold mergeContributors.
  rewrite keyed_values.
  - rewrite merge_all_keys, insert_all_keys. unfold JsSet.from.
    now rewrite fold_left_app.
  - apply merge_all_keyed, insert_all_keyed. constructor.
Qed.

Lemma merge_username_In (now : Date) (ex nw : list ContributorData) (u : string) :
  In u (usernames (mergeContributors now ex nw))
  <-> In u (usernames ex) \/ In u (usernames nw).
Proof. rewrite merge_usernames, JsSetFacts.from_In. apply in_app_iff. Qed.

Lemma merge_usernames_NoDup (now : Date) (ex nw : list ContributorData) :
  NoDup (usernames (mergeContributors now ex nw)).
Proof. rewrite merge_usernames. apply JsSetFacts.from_NoDup. Qed.

(** Existing records with distinct usernames enter the map as they are. *)
Lemma insert_all_entries (ex : list ContributorData) :
  NoDup (usernames ex) ->
  fold_left (fun m c => JsMap.set (username c) c m) ex JsMap.empty = map entry ex.
Proof.
  intros Hnd.
  enough (H : forall pre l, NoDup (usernames (pre ++ l)) ->
            fold_left (fun m c => JsMap.set (username c) c m) l (map entry pre)
            = map entry (pre ++ l)).
  { exact (H [] ex Hnd). }
  intros pre l. revert pre. induction l as [|c l IH]; intros pre Hpl; simpl.
  - now rewrite app_nil_r.
  - rewrite JsMapFacts.set_fresh.
    + change (map entry pre ++ [(username c, c)]) with (map entry pre ++ map entry [c]).
      rewrite <- map_app. rewrite IH; rewrite <- app_assoc; [reflexivity|exact Hpl].
    + rewrite keys_entries. unfold usernames in *. rewrite map_app in Hpl. simpl in Hpl.
      apply NoDup_remove_2 in Hpl. intros Hin. apply Hpl. apply in_or_app. now left.
Qed.

Lemma usernames_app (l1 l2 : list ContributorData) :
  usernames (l1 ++ l2) = usernames l1 ++ usernames l2.
Proof. apply map_app. Qed.

(** The first record of a username that occurs in a list. *)
Lemma usernames_split (l : list ContributorData) (k : string) :
  In k (usernames l) ->
  exists l1 e l2,
    l = l1 ++ e :: l2 /\ username e = k /\ ~ In k (usernames l1).
Proof.
  induction l as [|a l IH]; simpl; intros Hin; [contradiction|].
  destruct (String.eqb_spec (username a) k) as [Heq|Hne].
  - exists [], a, l. simpl. tauto.
  - destruct Hin as [Hin|Hin]; [contradiction|].
    destruct (IH Hin) as (l1 & e & l2 & -> & He & Hl1).
    exists (a :: l1), e, l2. simpl. intuition auto.
Qed.

Lemma find_snoc {A : Type} (f : A -> bool) (l : list A) (c : A) :
  find f (l ++ [c])
  = match find f l with
    | Some x => Some x
    | None => if f c then Some c else None
    end.
Proof.
  induction l as [|a l IH]; simpl; [reflexivity|].
  now destruct (f a).
Qed.

Lemma find_username_none (l : list ContributorData) (k : string) :
  ~ In k (usernames l) -> find (fun c => String.eqb (username c) k) l = None.
Proof.
  induction l as [|a l IH]; simpl; intros Hk; [reflexivity|].
  destruct (String.eqb_spec (username a) k) as [Heq|_]; [|apply IH]; tauto.
Qed.

Lemma mergedWith_username (now : Date) (nw : list ContributorData) (e : ContributorData) :
  username (mergedWith now nw e) = username e.
Proof. unfold mergedWith. now destruct (find _ nw). Qed.

Lemma mergedWith_usernames (now : Date) (nw l : list ContributorData) :
  usernames (map (mergedWith now nw) l) = usernames l.
Proof.
  unfold usernames. rewrite map_map. apply map_ext. apply mergedWith_username.
Qed.

Lemma mergedWith_snoc_other (now : Date) (nw : list ContributorData)
    (c e : ContributorData) :
  username c <> username e ->
  mergedWith now (nw ++ [c]) e = mergedWith now nw e.
Proof.
  intros Hne. unfold mergedWith. rewrite find_snoc.
  destruct (find _ nw); [reflexivity|].
  now destruct (String.eqb_spec (username c) (username e)).
Qed.

Lemma mergedWith_snoc_same (now : Date) (nw : list ContributorData)
    (c e : ContributorData) :
  username e = username c -> ~ In (username c) (usernames nw) ->
  mergedWith now (nw ++ [c]) e = mergeInto now e c /\ mergedWith now nw e = e.
Proof.
  intros Heq Hnw. unfold mergedWith. rewrite find_snoc.
  rewrite Heq, (find_username_none nw (username c) Hnw).
  now rewrite String.eqb_refl.
Qed.

Lemma mergedWith_map_snoc (now : Date) (nw l : list ContributorData)
    (c : ContributorData) :
  ~ In (username c) (usernames l) ->
  map (mergedWith now (nw ++ [c])) l = map (mergedWith now nw) l.
Proof.
  intros Hl. apply map_ext_in. intros e He.
  apply mergedWith_snoc_other. intros Heq. apply Hl.
  rewrite Heq. unfold usernames. now apply in_map.
Qed.

Lemma filter_usernames_incl (f : ContributorData -> bool)
    (l : list ContributorData) (k : string) :
  In k (usernames (filter f l)) -> In k (usernames l).
Proof.
  unfold usernames. rewrite !in_map_iff.
  intros (c & Hc & Hin). apply filter_In in Hin. exists c. tauto.
Qed.

(** The map after the merge loop, for record lists with distinct
    usernames: every existing record in its place, merged with the new
    record of its username if there is one, then the unseen new records. *)
Lemma merge_steps_entries (now : Date) (ex nw : list ContributorData) :
  NoDup (usernames ex) -> NoDup (usernames nw) ->
  fold_left (mergeStep now) nw (map entry ex)
  = map entry (map (mergedWith now nw) ex ++ filter (unseenIn ex) nw).
Proof.
  intros Hex. induction nw as [|c nw IH] using rev_ind; intros Hnw.
  - simpl. rewrite app_nil_r. f_equal. symmetry. apply map_id.
  - rewrite usernames_app in Hnw. simpl in Hnw.
    assert (Hc : ~ In (username c) (usernames nw)).
    { apply NoDup_remove_2 in Hnw. now rewrite app_nil_r in Hnw. }
    apply NoDup_remove_1 in Hnw. rewrite app_nil_r in Hnw.
    rewrite fold_left_app. simpl. rewrite (IH Hnw). clear IH.
    rewrite filter_app. simpl. unfold mergeStep.
    destruct (unseenIn ex c) eqn:Hseen; unfold unseenIn in Hseen.
    + (* a username that no existing record has *)
      apply negb_true_iff, JsSetFacts.mem_not_In in Hseen.
      assert (Hfresh : ~ In (username c)
                (JsMap.keys (map entry (map (mergedWith now nw) ex
                                        ++ filter (unseenIn ex) nw)))).
      { rewrite keys_entries, usernames_app, mergedWith_usernames, in_app_iff.
        intros [H|H]; [contradiction|]. now apply filter_usernames_incl in H. }
      rewrite (JsMapFacts.get_not_in _ _ Hfresh), (JsMapFacts.set_fresh _ _ _ Hfresh).
      rewrite (mergedWith_map_snoc now nw ex c Hseen).
      rewrite app_assoc, !map_app. reflexivity.
    + (* a username of an existing record *)
      apply negb_false_iff, JsSetFacts.mem_In in Hseen.
      destruct (usernames_split ex (username c) Hseen) as (ex1 & e & ex2 & -> & He & Hex1).
      assert (Hex2 : ~ In (username c) (usernames ex2)).
      { rewrite usernames_app in Hex. simpl in Hex. rewrite He in Hex.
        apply NoDup_remove_2 in Hex. intros Hin. apply Hex. apply in_or_app. now right. }
      destruct (mergedWith_snoc_same now nw c e He Hc) as [Hnew Hold].
      rewrite app_nil_r, !map_app. simpl. rewrite Hnew, Hold.
      rewrite (mergedWith_map_snoc now nw ex1 c Hex1).
      rewrite (mergedWith_map_snoc now nw ex2 c Hex2).
      rewrite <- !app_assoc. simpl. unfold entry at 2 6. rewrite He.
      assert (Hk : ~ In (username c)
                     (JsMap.keys (map entry (map (mergedWith now nw) ex1)))).
      { now rewrite keys_entries, mergedWith_usernames. }
      rewrite (JsMapFacts.get_middle _ _ _ _ Hk), (JsMapFacts.set_middle _ _ _ _ _ Hk).
      change (entry (mergeInto now e c)) with (username e, mergeInto now e c).
      now rewrite He.
Qed.

(** The merge of two record lists with distinct usernames. *)
Lemma merge_shape (now : Date) (ex nw : list ContributorData) :
  NoDup (usernames ex) -> NoDup (usernames nw) ->
  mergeContributors now ex nw
  = map (mergedWith now nw) ex ++ filter (unseenIn ex) nw.
Proof.
  intros Hex Hnw. unfold mergeContributors.
  rewrite (insert_all_entries ex Hex), (merge_steps_entries now ex nw Hex Hnw).
  apply values_entries.
Qed.

(** A property of records that merging two records keeps is kept by the
    merge of two record lists. *)
Lemma mergeStep_Forall (P : ContributorData -> Prop) (now : Date)
    (m : JsMap.t ContributorData) (c : ContributorData) :
  (forall e, P e -> P (mergeInto now e c)) -> P c ->
  Forall P (JsMap.values m) -> Forall P (JsMap.values (mergeStep now m c)).
Proof.
  intros Hmerge Hc Hm. unfold mergeStep.
  destruct (JsMap.get (username c) m) as [e|] eqn:Hget;
    apply JsMapFacts.values_set; auto.
  apply Hmerge. exact (JsMapFacts.values_get P _ e m Hm Hget).
Qed.

Lemma merge_Forall (P : ContributorData -> Prop) (now : Date)
    (ex nw : list ContributorData) :
  (forall e c, P e -> P c -> P (mergeInto now e c)) ->
  Forall P ex -> Forall P nw -> Forall P (mergeContributors now ex nw).
Proof.
  intros Hmerge Hex Hnw. unfold mergeContributors.
  assert (H1 : forall l m, Forall P l -> Forall P (JsMap.values m) ->
            Forall P (JsMap.values
              (fold_left (fun m c => JsMap.set (username c) c m) l m))).
  { induction l as [|c l IH]; intros m Hl Hm; simpl; [assumption|].
    inversion Hl; subst. apply IH; [assumption|].
    now apply JsMapFacts.values_set. }
  assert (H2 : forall l m, Forall P l -> Forall P (JsMap.values m) ->
            Forall P (JsMap.values (fold_left (mergeStep now) l m))).
  { induction l as [|c l IH]; intros m Hl Hm; simpl; [assumption|].
    inversion Hl; subst. apply IH; [assumption|].
    apply mergeStep_Forall; auto. }
  apply H2; [assumption|]. apply H1; [assumption|constructor].
Qed.

End MergeFacts.

(** ** Properties of all records kept by the collection passes *)

Module PassFacts.

Section Invariant.

Variable octokit : Octokit.
Variable now : Date.
Variable repoConfig : RepoConfig.
Variable options : FetchOptions.

(** [P] is a property of records and [Q] one of reported commit counts. *)
Variable P : ContributorData -> Prop.
Variable Q : Z -> Prop.

Hypothesis counts_Q :
  forall data, repos_listContributors octokit repoConfig = Ok data ->
               Forall (fun contributor => Q (contributions contributor)) data.
Hypothesis new_committer :
  forall u profile n, Q n -> P (newRecord now repoConfig u profile n 0 0 n [] None).
Hypothesis add_commits :
  forall n e, Q n -> P e -> P (addCommits n e).
Hypothesis new_event :
  forall (isPR : bool) u profile title date,
    P (newRecord now repoConfig u profile
         1 (if isPR then 1 else 0) (if isPR then 0 else 1) 0 [title] (Some date)).
Hypothesis add_event :
  forall (isPR : bool) title date e, P e -> P (addEvent isPR title date e).

Lemma committerStep_holds (m : JsMap.t ContributorData) (contributor : Contributor) :
  Q (contributions contributor) -> Forall P (JsMap.values m) ->
  Forall P (JsMap.values (committerStep octokit now repoConfig options m contributor)).
Proof.
  intros Hq Hm. unfold committerStep.
  destruct (negb _); [assumption|].
  destruct (truthy _) as [u|]; [|assumption].
  destruct (JsMap.get u m) as [e|] eqn:Hget.
  - apply JsMapFacts.values_set; [assumption|].
    apply add_commits; [assumption|]. exact (JsMapFacts.values_get P u e m Hm Hget).
  - destruct (locationRejects _ _); [assumption|].
    apply JsMapFacts.values_set; auto.
Qed.

Lemma committerSteps_holds (data : list Contributor) (m : JsMap.t ContributorData) :
  Forall (fun contributor => Q (contributions contributor)) data ->
  Forall P (JsMap.values m) ->
  Forall P (JsMap.values
              (fold_left (committerStep octokit now repoConfig options) data m)).
Proof.
  intros Hq. revert m.
  induction Hq as [|c data Hc _ IH]; intros m Hm; simpl; [assumption|].
  apply IH. now apply committerStep_holds.
Qed.

Lemma fetchCommitters_holds (m : JsMap.t ContributorData) :
  Forall P (JsMap.values m) ->
  Forall P (JsMap.values (fetchCommitters octokit now repoConfig m options)).
Proof.
  intros Hm. unfold fetchCommitters. pose proof counts_Q as Hq.
  destruct (repos_listContributors octokit repoConfig) as [data|]; [|assumption].
  apply committerSteps_holds; auto.
Qed.

Lemma eventStep_holds (isPR : bool) (m : JsMap.t ContributorData)
    (u title : string) (date : Date) :
  Forall P (JsMap.values m) ->
  Forall P (JsMap.values
              (eventStep octokit now isPR repoConfig options m u title date)).
Proof.
  intros Hm. unfold eventStep.
  destruct (JsMap.get u m) as [e|] eqn:Hget.
  - apply JsMapFacts.values_set; [assumption|].
    apply add_event. exact (JsMapFacts.values_get P u e m Hm Hget).
  - destruct (locationRejects _ _); [assumption|].
    apply JsMapFacts.values_set; auto.
Qed.

Lemma prPage_holds (data : list PullRequest) (m : JsMap.t ContributorData) :
  Forall P (JsMap.values m) ->
  Forall P (JsMap.values (fst (prPage octokit now repoConfig options data m))).
Proof.
  revert m. induction data as [|pr data IH]; intros m Hm; simpl; [assumption|].
  destruct (beforeCutoff _ _); [assumption|].
  destruct (truthy _); [|auto]. apply IH. now apply eventStep_holds.
Qed.

Lemma prPages_holds (pages : list Z) (m : JsMap.t ContributorData) :
  Forall P (JsMap.values m) ->
  Forall P (JsMap.values (prPages octokit now repoConfig options pages m)).
Proof.
  revert m. induction pages as [|page pages IH]; intros m Hm; simpl; [assumption|].
  destruct (pulls_list octokit repoConfig page) as [[|pr data]|]; try assumption.
  pose proof (prPage_holds (pr :: data) m Hm) as Hpage.
  destruct (prPage octokit now repoConfig options (pr :: data) m) as [m' hasMore].
  simpl in Hpage. destruct hasMore; auto.
Qed.

Lemma issuePage_holds (data : list Issue) (m : JsMap.t ContributorData) :
  Forall P (JsMap.values m) ->
  Forall P (JsMap.values (fst (issuePage octokit now repoConfig options data m))).
Proof.
  revert m. induction data as [|issue data IH]; intros m Hm; simpl; [assumption|].
  destruct (i_pull_request issue); [auto|].
  destruct (beforeCutoff _ _); [assumption|].
  destruct (truthy _); [|auto]. apply IH. now apply eventStep_holds.
Qed.

Lemma issuePages_holds (pages : list Z) (m : JsMap.t ContributorData) :
  Forall P (JsMap.values m) ->
  Forall P (JsMap.values (issuePages octokit now repoConfig options pages m)).
Proof.
  revert m. induction pages as [|page pages IH]; intros m Hm; simpl; [assumption|].
  destruct (issues_listForRepo octokit repoConfig page) as [[|issue data]|];
    try assumption.
  pose proof (issuePage_holds (issue :: data) m Hm) as Hpage.
  destruct (issuePage octokit now repoConfig options (issue :: data) m) as [m' hasMore].
  simpl in Hpage. destruct hasMore; auto.
Qed.

(** Every record returned by [fetchContributors] has the property. *)
Lemma fetchContributors_holds :
  Forall P (fetchContributors octokit now repoConfig options).
Proof.
  unfold fetchContributors, fetchPRAuthors, fetchIssueCreators.
  assert (H0 : Forall P (JsMap.values (@JsMap.empty ContributorData))) by constructor.
  destruct (enabled (includeCommitters options));
    [apply fetchCommitters_holds in H0|];
    (destruct (enabled (includePRAuthors options));
     [apply (prPages_holds [1; 2; 3]) in H0|]);
    (destruct (enabled (includeIssueCreators options));
     [apply (issuePages_holds [1; 2; 3]) in H0|]);
    exact H0.
Qed.

End Invariant.

End PassFacts.

(** ** Filter, sort and the loop of [main] *)

Module MainFacts.

Lemma insertByTotal_Permutation (x : ContributorData) (l : list ContributorData) :
  Permutation (x :: l) (insertByTotal x l).
Proof.
  induction l as [|y l IH]; simpl; [reflexivity|].
  destruct (totalContributions y <=? totalContributions x); [reflexivity|].
  rewrite perm_swap. now constructor.
Qed.

(** The sort rearranges the records, it neither drops nor adds one. *)
Lemma sortByTotal_Permutation (l : list ContributorData) :
  Permutation l (sortByTotal l).
Proof.
  induction l as [|x l IH]; simpl; [constructor|].
  rewrite <- insertByTotal_Permutation. now constructor.
Qed.

Lemma insertByTotal_sorted (x : ContributorData) (l : list ContributorData) :
  StronglySorted (fun a b => totalContributions b <= totalContributions a) l ->
  StronglySorted (fun a b => totalContributions b <= totalContributions a)
                 (insertByTotal x l).
Proof.
  induction 1 as [|y l Hl IH Hy]; simpl.
  - repeat constructor.
  - destruct (Z.leb_spec (totalContributions y) (totalContributions x)) as [Hle|Hgt].
    + constructor; [now constructor|].
      constructor; [assumption|].
      rewrite Forall_forall in *. intros z Hz. specialize (Hy z Hz). lia.
    + constructor; [assumption|].
      rewrite Forall_forall in *. intros z Hz.
      apply (Permutation_in _ (Permutation_sym (insertByTotal_Permutation x l))) in Hz.
      destruct Hz as [<-|Hz]; [lia|auto].
Qed.

(** The sorted records are in descending order of their totals. *)
Lemma sortByTotal_sorted (l : list ContributorData) :
  StronglySorted (fun a b => totalContributions b <= totalContributions a)
                 (sortByTotal l).
Proof.
  induction l as [|x l IH]; simpl; [constructor|].
  now apply insertByTotal_sorted.
Qed.

(** The sort is stable: the records of any one total keep their order. *)
Lemma insertByTotal_stable (k : Z) (x : ContributorData) (l : list ContributorData) :
  filter (fun c => totalContributions c =? k) (insertByTotal x l)
  = filter (fun c => totalContributions c =? k) (x :: l).
Proof.
  induction l as [|y l IH]; [reflexivity|].
  cbn [insertByTotal].
  destruct (Z.leb_spec (totalContributions y) (totalContributions x)) as [Hle|Hgt];
    [reflexivity|].
  cbn [filter] in *. rewrite IH.
  destruct (Z.eqb_spec (totalContributions y) k) as [Hy|Hy];
    destruct (Z.eqb_spec (totalContributions x) k) as [Hx|Hx];
    try reflexivity; lia.
Qed.

Lemma sortByTotal_stable (k : Z) (l : list ContributorData) :
  filter (fun c => totalContributions c =? k) (sortByTotal l)
  = filter (fun c => totalContributions c =? k) l.
Proof.
  induction l as [|x l IH]; [reflexivity|].
  cbn [sortByTotal]. rewrite insertByTotal_stable. cbn [filter]. now rewrite IH.
Qed.

Lemma sortByTotal_Forall (P : ContributorData -> Prop) (l : list ContributorData) :
  Forall P l -> Forall P (sortByTotal l).
Proof.
  intros H. rewrite Forall_forall in *. intros x Hx. apply H.
  exact (Permutation_in _ (Permutation_sym (sortByTotal_Permutation l)) Hx).
Qed.

Lemma filterMin_Forall (P : ContributorData -> Prop) (options : FetchOptions)
    (l : list ContributorData) :
  Forall P l -> Forall P (filterMin options l).
Proof.
  intros H. rewrite Forall_forall in *. intros x Hx.
  apply filter_In in Hx. now apply H.
Qed.

(** A property that every fetched record has and that the merge of two
    records keeps holds of everything [main] accumulates. *)
Lemma mainLoop_Forall (P : ContributorData -> Prop) (octokit : Octokit) (now : Date)
    (options : FetchOptions) (repos : list string) (all : list ContributorData) :
  (forall repoConfig, Forall P (fetchContributors octokit now repoConfig options)) ->
  (forall e c, P e -> P c -> P (mergeInto now e c)) ->
  Forall P all -> Forall P (mainLoop octokit now options repos all).
Proof.
  intros Hfetch Hmerge. revert all.
  induction repos as [|repoInput repos IH]; intros all Hall; simpl; [assumption|].
  destruct (parseRepo repoInput) as [repoConfig|]; [|auto].
  apply IH. apply MergeFacts.merge_Forall; auto.
  apply filterMin_Forall, Hfetch.
Qed.

(** Who is accumulated by [main]: the users already there and the users
    who pass the filter within one of the repositories. *)
Lemma mainLoop_usernames (octokit : Octokit) (now : Date) (options : FetchOptions)
    (repos : list string) (all : list ContributorData) (u : string) :
  In u (usernames (mainLoop octokit now options repos all))
  <-> In u (usernames all) \/
      exists repoInput repoConfig c,
        In repoInput repos /\ parseRepo repoInput = Ok repoConfig /\
        In c (fetchContributors octokit now repoConfig options) /\
        username c = u /\ minThreshold options <= totalContributions c.
Proof.
  revert all. induction repos as [|repoInput repos IH]; intros all; simpl.
  - split; [tauto|]. intros [H|(r & _ & _ & [] & _)]. exact H.
  - destruct (parseRepo repoInput) as [repoConfig|message] eqn:Hparse.
    + rewrite IH, MergeFacts.merge_username_In. split.
      * intros [[H|H]|H].
        -- now left.
        -- right. unfold usernames in H. apply in_map_iff in H.
           destruct H as (c & Hc & Hin). apply filter_In in Hin.
           destruct Hin as [Hin Hmin]. apply Z.leb_le in Hmin.
           exists repoInput, repoConfig, c. tauto.
        -- right. destruct H as (r & rc & c & Hr & H). exists r, rc, c. tauto.
      * intros [H|(r & rc & c & [<-|Hr] & Hp & Hin & Hu & Hmin)].
        -- tauto.
        -- left. right. rewrite Hparse in Hp. injection Hp as <-.
           unfold usernames. apply in_map_iff. exists c. split; [assumption|].
           apply filter_In. split; [assumption|]. now apply Z.leb_le.
        -- right. exists r, rc, c. tauto.
    + rewrite IH. split.
      * intros [H|(r & rc & c & Hr & H)]; [tauto|]. right. exists r, rc, c. tauto.
      * intros [H|(r & rc & c & [<-|Hr] & Hp & H)]; [tauto|congruence|].
        right. exists r, rc, c. tauto.
Qed.

End MainFacts.

(** ** The claims about the merge *)

Module SelfMergeFacts.

Lemma fold_add_known (xs acc : list string) :
  (forall x, In x xs -> In x acc) -> fold_left JsSet.add xs acc = acc.
Proof.
  revert acc. induction xs as [|x xs IH]; intros acc Hxs; simpl; [reflexivity|].
  assert (Hx : JsSet.mem x acc = true) by (apply JsSetFacts.mem_In, Hxs; now left).
  unfold JsSet.add at 2. rewrite Hx. apply IH. intros y Hy. apply Hxs. now right.
Qed.

(** The distinct elements of a list followed by itself are its own. *)
Lemma from_twice (xs : list string) : JsSet.from (xs ++ xs) = JsSet.from xs.
Proof.
  unfold JsSet.from. rewrite fold_left_app. apply fold_add_known.
  intros x Hx. now apply JsSetFacts.from_In.
Qed.

Lemma filter_none {A : Type} (f : A -> bool) (l : list A) :
  (forall x, In x l -> f x = false) -> filter f l = [].
Proof.
  induction l as [|a l IH]; simpl; intros H; [reflexivity|].
  rewrite (H a (or_introl eq_refl)). apply IH. intros x Hx. apply H. now right.
Qed.

Lemma copies_usernames (repository : string) (l : list ContributorData) :
  usernames (map (copyForRepo repository) l) = usernames l.
Proof. unfold usernames. rewrite map_map. reflexivity. Qed.

Lemma find_copy (repository : string) (l : list ContributorData) (e : ContributorData) :
  NoDup (usernames l) -> In e l ->
  find (fun c => String.eqb (username c) (username e)) (map (copyForRepo repository) l)
  = Some (copyForRepo repository e).
Proof.
  induction l as [|a l IH]; simpl; intros Hnd Hin; [contradiction|].
  inversion Hnd as [|? ? Ha Hl]; subst.
  destruct (String.eqb_spec (username a) (username e)) as [Heq|Hne].
  - destruct Hin as [->|Hin]; [reflexivity|].
    exfalso. apply Ha. rewrite Heq. unfold usernames. now apply in_map.
  - destruct Hin as [->|Hin]; [congruence|auto].
Qed.

(** Merging a record list with its copy merges every record with its own
    copy and adds no record. *)
Lemma merge_with_copy (now : Date) (repository : string) (l : list ContributorData) :
  NoDup (usernames l) ->
  mergeContributors now l (map (copyForRepo repository) l)
  = map (fun e => mergeInto now e (copyForRepo repository e)) l.
Proof.
  intros Hnd. rewrite MergeFacts.merge_shape;
    [|assumption|now rewrite copies_usernames].
  replace (filter (unseenIn l) (map (copyForRepo repository) l)) with
    (@nil ContributorData).
  - rewrite app_nil_r. apply map_ext_in. intros e He.
    unfold mergedWith. now rewrite (find_copy repository l e Hnd He).
  - symmetry. apply filter_none. intros c Hc. apply in_map_iff in Hc.
    destruct Hc as (e & <- & He). unfold unseenIn.
    apply negb_false_iff, JsSetFacts.mem_In. unfold usernames. simpl.
    now apply (in_map username) in He.
Qed.

End SelfMergeFacts.

Module NotableFacts.

Lemma firstn_NoDup {A : Type} (n : nat) (l : list A) : NoDup l -> NoDup (firstn n l).
Proof.
  intros H. rewrite <- (firstn_skipn n l) in H. now apply NoDup_app_remove_r in H.
Qed.

(** The titles of a merged record are distinct and at most five. *)
Lemma mergeInto_notable (now : Date) (e c : ContributorData) :
  NoDup (notableContributions (mergeInto now e c)) /\
  (List.length (notableContributions (mergeInto now e c)) <= 5)%nat.
Proof.
  change (notableContributions (mergeInto now e c)) with
    (firstn 5 (JsSet.from (notableContributions e ++ notableContributions c))).
  split.
  - apply firstn_NoDup, JsSetFacts.from_NoDup.
  - apply firstn_le_length.
Qed.

End NotableFacts.

(** C3: merging a result set (records with distinct usernames) with a copy
    of itself that carries any other repository identifier keeps the
    records and their order, doubles the commits, pull requests, issues and
    total of each, and leaves each with the distinct titles it had, cut to
    five: the titles are pairwise different and at most five. *)
Theorem self_merge_doubles (now : Date) (repository : string)
    (records : list ContributorData) :
  NoDup (usernames records) ->
  let merged := mergeContributors now records (map (copyForRepo repository) records) in
  usernames merged = usernames records /\
  map counters merged
  = map (fun c => (2 * commits c, 2 * pullRequests c, 2 * issues c,
                   2 * totalContributions c)) records /\
  map notableContributions merged
  = map (fun c => firstn 5 (JsSet.from (notableContributions c))) records /\
  Forall (fun c => NoDup (notableContributions c) /\
                   (List.length (notableContributions c) <= 5)%nat) merged.
Proof.
  intros Hnd merged. subst merged.
  rewrite (SelfMergeFacts.merge_with_copy now repository records Hnd).
  unfold usernames. rewrite !map_map. repeat split.
  - apply map_ext. intros c. unfold counters, mergeInto, copyForRepo.
    cbn [commits pullRequests issues totalContributions].
    repeat (f_equal; try lia).
  - apply map_ext. intros c.
    change (notableContributions (mergeInto now c (copyForRepo repository c))) with
      (firstn 5 (JsSet.from (notableContributions c ++ notableContributions c))).
    now rewrite SelfMergeFacts.from_twice.
  - apply Forall_forall. intros c Hc. apply in_map_iff in Hc.
    destruct Hc as (e & <- & _). apply NotableFacts.mergeInto_notable.
Qed.

Lemma self_merge_doubles_witness :
  map counters
    (mergeContributors 7
       [plainRecord "alice" "acme/widgets" 10 1 1 ["Fix bug"; "Fix bug"; "Report bug"];
        plainRecord "bob" "acme/widgets" 0 1 0 ["Add docs"]]
       (map (copyForRepo "acme/gadgets")
          [plainRecord "alice" "acme/widgets" 10 1 1 ["Fix bug"; "Fix bug"; "Report bug"];
           plainRecord "bob" "acme/widgets" 0 1 0 ["Add docs"]]))
  = [(20, 2, 2, 24); (0, 2, 0, 2)].
Proof.
  refine (proj1 (proj2 (self_merge_doubles 7 "acme/gadgets"
            [plainRecord "alice" "acme/widgets" 10 1 1 ["Fix bug"; "Fix bug"; "Report bug"];
             plainRecord "bob" "acme/widgets" 0 1 0 ["Add docs"]] _))).
  simpl. repeat constructor; simpl; intuition discriminate.
Defined.

(** C10: for an existing set (records with distinct usernames) and any new
    list, the merge lists the usernames of the existing set in their order,
    followed by the usernames of the new list that the existing set does
    not have, each once, in the order of first appearance.  When the new
    list has distinct usernames too, the result is the existing records,
    each in its place and merged with the new record of its username if
    there is one, followed by the new records of unseen usernames as they
    are. *)
Theorem merge_keeps_order (now : Date) (ex nw : list ContributorData) :
  NoDup (usernames ex) ->
  usernames (mergeContributors now ex nw)
  = usernames ex
    ++ JsSet.from (filter (fun u => negb (JsSet.mem u (usernames ex))) (usernames nw))
  /\ (NoDup (usernames nw) ->
      mergeContributors now ex nw
      = map (mergedWith now nw) ex ++ filter (unseenIn ex) nw).
Proof.
  intros Hex. split.
  - rewrite MergeFacts.merge_usernames. now apply JsSetFacts.from_app.
  - intros Hnw. now apply MergeFacts.merge_shape.
Qed.

Lemma merge_keeps_order_witness :
  usernames
    (mergeContributors 7
       [plainRecord "alice" "acme/widgets" 10 1 1 ["Fix bug"];
        plainRecord "bob" "acme/widgets" 0 1 0 ["Add docs"]]
       [plainRecord "carol" "acme/gadgets" 2 0 0 [];
        plainRecord "bob" "acme/gadgets" 4 0 0 [];
        plainRecord "dave" "acme/gadgets" 1 0 0 [];
        plainRecord "carol" "acme/gadgets" 0 1 0 ["Typo"]])
  = ["alice"; "bob"; "carol"; "dave"].
Proof.
  refine (proj1 (merge_keeps_order 7
            [plainRecord "alice" "acme/widgets" 10 1 1 ["Fix bug"];
             plainRecord "bob" "acme/widgets" 0 1 0 ["Add docs"]]
            [plainRecord "carol" "acme/gadgets" 2 0 0 [];
             plainRecord "bob" "acme/gadgets" 4 0 0 [];
             plainRecord "dave" "acme/gadgets" 1 0 0 [];
             plainRecord "carol" "acme/gadgets" 0 1 0 ["Typo"]] _)).
  simpl. repeat constructor; simpl; intuition discriminate.
Defined.

(** ** The total is the sum of the three counters *)

Module TotalFacts.

Lemma newRecord_committer (now : Date) (repoConfig : RepoConfig) (u : string)
    (profile : Profile) (n : Z) :
  totalIsSum (newRecord now repoConfig u profile n 0 0 n [] None).
Proof. unfold totalIsSum. simpl. lia. Qed.

Lemma newRecord_event (now : Date) (repoConfig : RepoConfig) (isPR : bool)
    (u : string) (profile : Profile) (title : string) (date : Date) :
  totalIsSum (newRecord now repoConfig u profile
                1 (if isPR then 1 else 0) (if isPR then 0 else 1) 0
                [title] (Some date)).
Proof. unfold totalIsSum. destruct isPR; reflexivity. Qed.

Lemma addCommits_sum (n : Z) (e : ContributorData) :
  totalIsSum e -> totalIsSum (addCommits n e).
Proof. unfold totalIsSum. simpl. lia. Qed.

Lemma addEvent_sum (isPR : bool) (title : string) (date : Date) (e : ContributorData) :
  totalIsSum e -> totalIsSum (addEvent isPR title date e).
Proof. unfold totalIsSum. destruct isPR; simpl; lia. Qed.

Lemma mergeInto_sum (now : Date) (e c : ContributorData) :
  totalIsSum e -> totalIsSum c -> totalIsSum (mergeInto now e c).
Proof. unfold totalIsSum. simpl. lia. Qed.

Lemma fetchContributors_sum (octokit : Octokit) (now : Date)
    (repoConfig : RepoConfig) (options : FetchOptions) :
  Forall totalIsSum (fetchContributors octokit now repoConfig options).
Proof.
  apply (PassFacts.fetchContributors_holds octokit now repoConfig options
           totalIsSum (fun _ => True)).
  - intros data _. apply Forall_forall. trivial.
  - intros. apply newRecord_committer.
  - intros. now apply addCommits_sum.
  - intros. apply newRecord_event.
  - intros. now apply addEvent_sum.
Qed.

End TotalFacts.

(** C2: in a map whose records all have [totalContributions] equal to the
    sum of [commits], [pullRequests] and [issues], this is so again after
    every step of the intra-repository accumulation (a commit-statistics
    entry, a pull request or an issue of any user) and after every step of
    the inter-repository merge (a record with that property); hence it
    holds of every record that [fetchContributors] returns, of every merge
    of record lists that have it, and of every exported record. *)
Theorem total_is_sum_invariant (octokit : Octokit) (now : Date)
    (repoConfig : RepoConfig) (options : FetchOptions)
    (contributors : JsMap.t ContributorData) :
  Forall totalIsSum (JsMap.values contributors) ->
  (forall contributor,
      Forall totalIsSum
        (JsMap.values (committerStep octokit now repoConfig options
                         contributors contributor))) /\
  (forall isPR user title date,
      Forall totalIsSum
        (JsMap.values (eventStep octokit now isPR repoConfig options
                         contributors user title date))) /\
  (forall c, totalIsSum c ->
      Forall totalIsSum (JsMap.values (mergeStep now contributors c))) /\
  Forall totalIsSum (fetchContributors octokit now repoConfig options) /\
  (forall existingContributors newContributors,
      Forall totalIsSum existingContributors ->
      Forall totalIsSum newContributors ->
      Forall totalIsSum (mergeContributors now existingContributors newContributors)) /\
  (forall repos, Forall totalIsSum (exported octokit now options repos)).
Proof.
  intros Hm. repeat split.
  - intros contributor.
    apply (PassFacts.committerStep_holds octokit now repoConfig options
             totalIsSum (fun _ => True)); auto.
    + intros. apply TotalFacts.newRecord_committer.
    + intros. now apply TotalFacts.addCommits_sum.
  - intros isPR user title date.
    apply (PassFacts.eventStep_holds octokit now repoConfig options totalIsSum); auto.
    + intros. apply TotalFacts.newRecord_event.
    + intros. now apply TotalFacts.addEvent_sum.
  - intros c Hc. apply MergeFacts.mergeStep_Forall; auto.
    intros e He. now apply TotalFacts.mergeInto_sum.
  - apply TotalFacts.fetchContributors_sum.
  - intros ex nw Hex Hnw. apply MergeFacts.merge_Forall; auto.
    intros e c. apply TotalFacts.mergeInto_sum.
  - intros repos. apply MainFacts.sortByTotal_Forall.
    apply MainFacts.mainLoop_Forall; [| |constructor].
    + intros rc. apply TotalFacts.fetchContributors_sum.
    + intros e c. apply TotalFacts.mergeInto_sum.
Qed.

Lemma total_is_sum_invariant_witness :
  Forall totalIsSum
    (exported aliceAndBob 7 (mainOptions None 1 None)
       ["acme/widgets"; "https://github.com/acme/gadgets.git"]).
Proof.
  refine (proj2 (proj2 (proj2 (proj2 (proj2
            (total_is_sum_invariant aliceAndBob 7
               {| owner := "acme"; repo := "widgets"; fullName := "acme/widgets" |}
               (mainOptions None 1 None)
               [entry (plainRecord "alice" "acme/widgets" 10 1 1 ["Fix bug"])] _)))))
            ["acme/widgets"; "https://github.com/acme/gadgets.git"]).
  simpl. repeat constructor.
Defined.

(** ** The minimum-contributions filter *)

(** C1, as stated, fails: with a threshold of five and a user who has three
    commits in each of two repositories, nothing is exported, while the
    filter applied to the merged records would keep the user's record with
    its total of six. *)
Lemma filter_is_not_applied_after_merge :
  exported threeCommitsEach 0 (mainOptions None 5 None)
    ["acme/widgets"; "acme/gadgets"] = []
  /\ usernames (filteredAfterMerge threeCommitsEach 0 (mainOptions None 5 None)
                  ["acme/widgets"; "acme/gadgets"]) = ["alice"]
  /\ map totalContributions
       (filteredAfterMerge threeCommitsEach 0 (mainOptions None 5 None)
          ["acme/widgets"; "acme/gadgets"]) = [6]
  /\ ~ (forall octokit now options repos,
          exported octokit now options repos
          = filteredAfterMerge octokit now options repos).
Proof.
  repeat split.
  intros H.
  specialize (H threeCommitsEach 0 (mainOptions None 5 None)
                ["acme/widgets"; "acme/gadgets"]).
  discriminate H.
Qed.

(** C1, amended: the threshold is applied to the records of each
    repository before they are merged.  The exported list is the
    accumulated list in descending order of the totals, records of equal
    totals in the order of the merge; a user is exported
    exactly when one of the repositories that parse has a record of that
    user whose total within this repository reaches the threshold.  So a
    user whose totals are below the threshold in every repository is not
    exported, whatever their sum. *)
Theorem filter_before_merge (octokit : Octokit) (now : Date)
    (options : FetchOptions) (repos : list string) :
  StronglySorted (fun a b => totalContributions b <= totalContributions a)
    (exported octokit now options repos) /\
  Permutation (mainLoop octokit now options repos [])
    (exported octokit now options repos) /\
  (forall k,
      filter (fun c => totalContributions c =? k) (exported octokit now options repos)
      = filter (fun c => totalContributions c =? k)
               (mainLoop octokit now options repos [])) /\
  NoDup (usernames (mainLoop octokit now options repos [])) /\
  (forall u,
      In u (usernames (exported octokit now options repos))
      <-> exists repoInput repoConfig c,
            In repoInput repos /\ parseRepo repoInput = Ok repoConfig /\
            In c (fetchContributors octokit now repoConfig options) /\
            username c = u /\ minThreshold options <= totalContributions c) /\
  (forall u,
      (forall repoInput repoConfig c,
          In repoInput repos -> parseRepo repoInput = Ok repoConfig ->
          In c (fetchContributors octokit now repoConfig options) ->
          username c = u -> totalContributions c < minThreshold options) ->
      ~ In u (usernames (exported octokit now options repos))).
Proof.
  assert (Hiff : forall u,
      In u (usernames (exported octokit now options repos))
      <-> exists repoInput repoConfig c,
            In repoInput repos /\ parseRepo repoInput = Ok repoConfig /\
            In c (fetchContributors octokit now repoConfig options) /\
            username c = u /\ minThreshold options <= totalContributions c).
  { intros u. unfold exported.
    assert (Hperm : In u (usernames (sortByTotal (mainLoop octokit now options repos [])))
                    <-> In u (usernames (mainLoop octokit now options repos []))).
    { unfold usernames. split; apply Permutation_in, Permutation_map;
        [apply Permutation_sym|]; apply MainFacts.sortByTotal_Permutation. }
    rewrite Hperm, MainFacts.mainLoop_usernames. simpl. tauto. }
  split; [apply MainFacts.sortByTotal_sorted|].
  split; [apply MainFacts.sortByTotal_Permutation|].
  split; [intros k; apply MainFacts.sortByTotal_stable|].
  split; [|split; [exact Hiff|]].
  - destruct repos as [|repoInput repos]; [constructor|].
    enough (H : forall rs all, NoDup (usernames all) ->
                NoDup (usernames (mainLoop octokit now options rs all))).
    { apply H. constructor. }
    induction rs as [|r rs IH]; intros all Hall; simpl; [assumption|].
    destruct (parseRepo r); [|auto].
    apply IH, MergeFacts.merge_usernames_NoDup.
  - intros u Hlow Hin. apply Hiff in Hin.
    destruct Hin as (r & rc & c & Hr & Hp & Hc & Hu & Hmin).
    specialize (Hlow r rc c Hr Hp Hc Hu). lia.
Qed.

Lemma filter_before_merge_witness :
  ~ In "alice"
      (usernames (exported threeCommitsEach 0 (mainOptions None 5 None)
                    ["acme/widgets"; "acme/gadgets"])).
Proof.
  refine (proj2 (proj2 (proj2 (proj2 (proj2
            (filter_before_merge threeCommitsEach 0 (mainOptions None 5 None)
               ["acme/widgets"; "acme/gadgets"]))))) "alice" _).
  intros repoInput repoConfig c _ _ Hc _. simpl in Hc.
  destruct Hc as [<-|[]]. vm_compute. reflexivity.
Defined.

(** The claim C6 fails for a record created from a commit-statistics entry
    that reports no commit: carol is given a record, its total is 0, and
    the filter drops it with [minContributions] 0 as with 1. *)
Lemma filter_drops_record_without_contribution :
  usernames (fetchContributors zeroCommits 7 widgets (mainOptions None 1 None))
  = ["carol"]
  /\ map totalContributions
       (fetchContributors zeroCommits 7 widgets (mainOptions None 1 None)) = [0]
  /\ filterMin (mainOptions None 0 None)
       (fetchContributors zeroCommits 7 widgets (mainOptions None 1 None)) = []
  /\ filterMin (mainOptions None 1 None)
       (fetchContributors zeroCommits 7 widgets (mainOptions None 1 None)) = []
  /\ ~ (forall octokit now repoConfig options options',
          minContributions options' = Some 0 \/ minContributions options' = Some 1 ->
          filterMin options' (fetchContributors octokit now repoConfig options)
          = fetchContributors octokit now repoConfig options).
Proof.
  repeat split.
  intros H.
  specialize (H zeroCommits 7 widgets (mainOptions None 1 None)
                (mainOptions None 0 None) (or_introl eq_refl)).
  discriminate H.
Qed.

(** C6, amended: the threshold 0 is read as 1, so filtering the records
    created for a repository with [minContributions] 0 or 1 returns, in
    their order, exactly the records whose total is at least 1, which are
    those whose commits, pull requests and issues together are at least
    one.  They are all the created records when every commit-statistics
    entry of the repository reports at least one contribution.  Filtering
    any records with a threshold above the total of each of them returns
    nothing. *)
Theorem filter_zero_or_one (octokit : Octokit) (now : Date)
    (repoConfig : RepoConfig) (options : FetchOptions) :
  (forall options' : FetchOptions,
      minContributions options' = Some 0 \/ minContributions options' = Some 1 ->
      filterMin options' (fetchContributors octokit now repoConfig options)
      = filter (fun c => 1 <=? totalContributions c)
               (fetchContributors octokit now repoConfig options) /\
      (forall c,
          In c (filterMin options' (fetchContributors octokit now repoConfig options))
          <-> In c (fetchContributors octokit now repoConfig options) /\
              1 <= commits c + pullRequests c + issues c) /\
      ((forall data, repos_listContributors octokit repoConfig = Ok data ->
                     Forall (fun contributor => 1 <= contributions contributor) data) ->
       filterMin options' (fetchContributors octokit now repoConfig options)
       = fetchContributors octokit now repoConfig options)) /\
  (forall (options' : FetchOptions) (m : Z) (records : list ContributorData),
      minContributions options' = Some m ->
      (forall c, In c records -> totalContributions c < m) ->
      filterMin options' records = []).
Proof.
  split.
  - intros options' Hmin.
    assert (Hth : minThreshold options' = 1).
    { unfold minThreshold. now destruct Hmin as [-> | ->]. }
    unfold filterMin. rewrite Hth. split; [reflexivity|]. split.
    + intros c. rewrite filter_In, Z.leb_le.
      pose proof (TotalFacts.fetchContributors_sum octokit now repoConfig options)
        as Hsum.
      rewrite Forall_forall in Hsum. split.
      * intros [Hc Hle]. split; [assumption|].
        specialize (Hsum c Hc). unfold totalIsSum in Hsum. lia.
      * intros [Hc Hle]. split; [assumption|].
        specialize (Hsum c Hc). unfold totalIsSum in Hsum. lia.
    + intros Hcounts.
      assert (Hall : Forall (fun c => 1 <= totalContributions c)
                       (fetchContributors octokit now repoConfig options)).
      { apply (PassFacts.fetchContributors_holds octokit now repoConfig options
                 (fun c => 1 <= totalContributions c) (fun n => 1 <= n));
          try assumption; intros;
          simpl in *; lia. }
      apply forallb_filter_id, forallb_forall.
      rewrite Forall_forall in Hall. intros c Hc. apply Z.leb_le. auto.
  - intros options' m records Hmin Hlow. unfold filterMin.
    apply SelfMergeFacts.filter_none. intros c Hc. apply Z.leb_gt.
    specialize (Hlow c Hc). unfold minThreshold. rewrite Hmin.
    destruct (Z.eqb_spec m 0); lia.
Qed.

Lemma filter_zero_or_one_witness :
  filterMin (mainOptions None 0 None)
    (fetchContributors aliceAndBob 7
       {| owner := "acme"; repo := "widgets"; fullName := "acme/widgets" |}
       (mainOptions None 1 None))
  = fetchContributors aliceAndBob 7
      {| owner := "acme"; repo := "widgets"; fullName := "acme/widgets" |}
      (mainOptions None 1 None).
Proof.
  refine (proj2 (proj2 (proj1 (filter_zero_or_one aliceAndBob 7
            {| owner := "acme"; repo := "widgets"; fullName := "acme/widgets" |}
            (mainOptions None 1 None)) (mainOptions None 0 None) (or_introl eq_refl))) _).
  intros data Hdata. simpl in Hdata. injection Hdata as <-.
  repeat constructor; simpl; lia.
Defined.

(** ** Profile lookups that fail *)

Module ProfileFacts.

Lemma fetchUserProfile_recovered (octokit : Octokit) (user : string) :
  fetchUserProfile (recovered octokit) user = fetchUserProfile octokit user.
Proof.
  unfold fetchUserProfile, recovered. simpl.
  now destruct (users_getByUsername octokit user).
Qed.

Section Passes.

Variable octokit : Octokit.
Variable now : Date.
Variable repoConfig : RepoConfig.
Variable options : FetchOptions.

Lemma committerStep_recovered (m : JsMap.t ContributorData) (contributor : Contributor) :
  committerStep (recovered octokit) now repoConfig options m contributor
  = committerStep octokit now repoConfig options m contributor.
Proof.
  unfold committerStep. destruct (negb _); [reflexivity|].
  destruct (truthy _) as [user|]; [|reflexivity].
  now rewrite fetchUserProfile_recovered.
Qed.

Lemma fetchCommitters_recovered (m : JsMap.t ContributorData) :
  fetchCommitters (recovered octokit) now repoConfig m options
  = fetchCommitters octokit now repoConfig m options.
Proof.
  unfold fetchCommitters. simpl.
  destruct (repos_listContributors octokit repoConfig) as [data|]; [|reflexivity].
  revert m. induction data as [|c data IH]; intros m; simpl; [reflexivity|].
  now rewrite committerStep_recovered, IH.
Qed.

Lemma eventStep_recovered (isPR : bool) (m : JsMap.t ContributorData)
    (user title : string) (date : Date) :
  eventStep (recovered octokit) now isPR repoConfig options m user title date
  = eventStep octokit now isPR repoConfig options m user title date.
Proof. unfold eventStep. now rewrite fetchUserProfile_recovered. Qed.

Lemma prPage_recovered (data : list PullRequest) (m : JsMap.t ContributorData) :
  prPage (recovered octokit) now repoConfig options data m
  = prPage octokit now repoConfig options data m.
Proof.
  revert m. induction data as [|pr data IH]; intros m; simpl; [reflexivity|].
  destruct (beforeCutoff _ _); [reflexivity|].
  destruct (truthy _); [|apply IH]. now rewrite eventStep_recovered, IH.
Qed.

Lemma prPages_recovered (pages : list Z) (m : JsMap.t ContributorData) :
  prPages (recovered octokit) now repoConfig options pages m
  = prPages octokit now repoConfig options pages m.
Proof.
  revert m. induction pages as [|page pages IH]; intros m; [reflexivity|].
  cbn [prPages]. change (pulls_list (recovered octokit)) with (pulls_list octokit).
  destruct (pulls_list octokit repoConfig page) as [[|pr data]|]; try reflexivity.
  rewrite prPage_recovered.
  destruct (prPage octokit now repoConfig options (pr :: data) m) as [m' [|]];
    [apply IH|reflexivity].
Qed.

Lemma issuePage_recovered (data : list Issue) (m : JsMap.t ContributorData) :
  issuePage (recovered octokit) now repoConfig options data m
  = issuePage octokit now repoConfig options data m.
Proof.
  revert m. induction data as [|issue data IH]; intros m; simpl; [reflexivity|].
  destruct (i_pull_request issue); [apply IH|].
  destruct (beforeCutoff _ _); [reflexivity|].
  destruct (truthy _); [|apply IH]. now rewrite eventStep_recovered, IH.
Qed.

Lemma issuePages_recovered (pages : list Z) (m : JsMap.t ContributorData) :
  issuePages (recovered octokit) now repoConfig options pages m
  = issuePages octokit now repoConfig options pages m.
Proof.
  revert m. induction pages as [|page pages IH]; intros m; [reflexivity|].
  cbn [issuePages].
  change (issues_listForRepo (recovered octokit)) with (issues_listForRepo octokit).
  destruct (issues_listForRepo octokit repoConfig page) as [[|issue data]|];
    try reflexivity.
  rewrite issuePage_recovered.
  destruct (issuePage octokit now repoConfig options (issue :: data) m) as [m' [|]];
    [apply IH|reflexivity].
Qed.

(** The records collected are those collected from the data source in
    which the failing lookups return placeholder profiles. *)
Lemma fetchContributors_recovered :
  fetchContributors (recovered octokit) now repoConfig options
  = fetchContributors octokit now repoConfig options.
Proof.
  unfold fetchContributors, fetchPRAuthors, fetchIssueCreators.
  rewrite fetchCommitters_recovered.
  destruct (enabled (includeCommitters options)),
           (enabled (includePRAuthors options)),
           (enabled (includeIssueCreators options));
    now rewrite ?issuePages_recovered, ?prPages_recovered.
Qed.

End Passes.

End ProfileFacts.

(** C8: when the profile lookup of a user fails, [fetchUserProfile] returns
    the placeholder: name, email, location, bio, company, twitter and blog
    are null and the profile URL is built from the username.  The pass goes
    on: a first pull request or issue of the user, or a first
    commit-statistics entry, is recorded with the placeholder when no
    location filter is set, and the records collected for the repository
    are exactly those collected when each failing lookup answers with its
    placeholder and none fails. *)
Theorem profile_failure_recovered (octokit : Octokit) (now : Date)
    (repoConfig : RepoConfig) (options : FetchOptions) (user : string) :
  isThrow (users_getByUsername octokit user) ->
  fetchUserProfile octokit user
  = {| login := user; p_name := None; p_email := None; p_location := None;
       p_bio := None; p_company := None; twitter_username := None;
       p_blog := None; html_url := ("https://github.com/" ++ user)%string |} /\
  (forall (contributors : JsMap.t ContributorData) (isPR : bool)
          (title : string) (date : Date),
      JsMap.get user contributors = None -> locationFilter options = None ->
      eventStep octokit now isPR repoConfig options contributors user title date
      = JsMap.set user
          (newRecord now repoConfig user (placeholderProfile user)
             1 (if isPR then 1 else 0) (if isPR then 0 else 1) 0
             [title] (Some date))
          contributors) /\
  (forall (contributors : JsMap.t ContributorData) (count : Z),
      JsMap.get user contributors = None -> locationFilter options = None ->
      user <> EmptyString ->
      committerStep octokit now repoConfig options contributors
        {| c_type := "User"; c_login := Some user; contributions := count |}
      = JsMap.set user
          (newRecord now repoConfig user (placeholderProfile user)
             count 0 0 count [] None)
          contributors) /\
  fetchContributors octokit now repoConfig options
  = fetchContributors (recovered octokit) now repoConfig options /\
  (forall u, ~ isThrow (users_getByUsername (recovered octokit) u)).
Proof.
  intros [message Hthrow].
  assert (Hprofile : fetchUserProfile octokit user = placeholderProfile user).
  { unfold fetchUserProfile. now rewrite Hthrow. }
  split; [exact Hprofile|]. split; [|split; [|split]].
  - intros contributors isPR title date Hget Hfilter.
    unfold eventStep, locationRejects. now rewrite Hget, Hfilter, Hprofile.
  - intros contributors count Hget Hfilter Huser.
    unfold committerStep, locationRejects. simpl.
    destruct user as [|ch user']; [contradiction|]. simpl truthy.
    now rewrite Hget, Hfilter, Hprofile.
  - symmetry. apply ProfileFacts.fetchContributors_recovered.
  - intros u [message' H]. simpl in H.
    destruct (users_getByUsername octokit u); discriminate.
Qed.

Lemma profile_failure_recovered_witness :
  fetchUserProfile aliceAndBob "bob" = placeholderProfile "bob" /\
  usernames (fetchContributors aliceAndBob 7
               {| owner := "acme"; repo := "widgets"; fullName := "acme/widgets" |}
               (mainOptions None 1 None))
  = ["alice"; "bob"].
Proof.
  split.
  - refine (proj1 (profile_failure_recovered aliceAndBob 7
              {| owner := "acme"; repo := "widgets"; fullName := "acme/widgets" |}
              (mainOptions None 1 None) "bob" _)).
    exists "Not Found". reflexivity.
  - reflexivity.
Defined.

(** ** Titles within a repository and across repositories *)

(** C9: within a repository the titles are stored as they come.  While a
    record holds fewer than five titles, the title of a further pull
    request or issue is appended to them, whether or not it is among them;
    so two pull requests or issues of one user with the same title leave
    the title twice.  The inter-repository merge of two records keeps each
    title once. *)
Theorem titles_repeat_within_repository (octokit : Octokit) (now : Date)
    (repoConfig : RepoConfig) (options : FetchOptions)
    (contributors : JsMap.t ContributorData) (user title : string)
    (isPR1 isPR2 : bool) (date1 date2 : Date) :
  JsMap.get user contributors = None ->
  locationRejects options (fetchUserProfile octokit user) = false ->
  (exists r,
      JsMap.get user
        (eventStep octokit now isPR2 repoConfig options
           (eventStep octokit now isPR1 repoConfig options
              contributors user title date1)
           user title date2) = Some r /\
      notableContributions r = [title; title]) /\
  (forall (isPR : bool) (date : Date) (existing : ContributorData),
      (List.length (notableContributions existing) < 5)%nat ->
      notableContributions (addEvent isPR title date existing)
      = notableContributions existing ++ [title]) /\
  (forall (now' : Date) (e c : ContributorData),
      NoDup (notableContributions (mergeInto now' e c))) /\
  (forall (now' : Date) (e c : ContributorData),
      notableContributions e = [title; title] -> notableContributions c = [] ->
      notableContributions (mergeInto now' e c) = [title]).
Proof.
  intros Hget Hloc. split; [|split; [|split]].
  - unfold eventStep at 2. rewrite Hget, Hloc.
    unfold eventStep. rewrite JsMapFacts.get_set_same.
    eexists. split; [apply JsMapFacts.get_set_same|reflexivity].
  - intros isPR date existing Hlen. simpl. unfold pushNotable.
    apply Nat.ltb_lt in Hlen. now rewrite Hlen.
  - intros now' e c. apply NotableFacts.mergeInto_notable.
  - intros now' e c He Hc. simpl. rewrite He, Hc. simpl.
    unfold JsSet.from. simpl. unfold JsSet.add. simpl.
    now rewrite String.eqb_refl.
Qed.

Lemma titles_repeat_within_repository_witness :
  exists r,
    JsMap.get "bob"
      (eventStep aliceAndBob 7 false
         {| owner := "acme"; repo := "widgets"; fullName := "acme/widgets" |}
         (mainOptions None 1 None)
         (eventStep aliceAndBob 7 true
            {| owner := "acme"; repo := "widgets"; fullName := "acme/widgets" |}
            (mainOptions None 1 None) JsMap.empty "bob" "Typo" 1704067200000)
         "bob" "Typo" 1717200000000) = Some r /\
    notableContributions r = ["Typo"; "Typo"].
Proof.
  exact (proj1 (titles_repeat_within_repository aliceAndBob 7
           {| owner := "acme"; repo := "widgets"; fullName := "acme/widgets" |}
           (mainOptions None 1 None) JsMap.empty "bob" "Typo" true false
           1704067200000 1717200000000 eq_refl eq_refl)).
Defined.

(** ** The date columns *)

Module IsoFacts.

Import IsoDate.

Lemma digit_cases (n : Z) :
  isDigit (digit (n mod 10)) = true /\ Ascii.eqb (digit (n mod 10)) "T" = false.
Proof.
  assert (H : 0 <= n mod 10 < 10) by (apply Z.mod_pos_bound; lia).
  assert (Hc : n mod 10 = 0 \/ n mod 10 = 1 \/ n mod 10 = 2 \/ n mod 10 = 3 \/
               n mod 10 = 4 \/ n mod 10 = 5 \/ n mod 10 = 6 \/ n mod 10 = 7 \/
               n mod 10 = 8 \/ n mod 10 = 9) by lia.
  repeat (destruct Hc as [Hc|Hc]; [rewrite Hc; split; reflexivity|]).
  rewrite Hc. split; reflexivity.
Qed.

Lemma lacks_append (c : ascii) (a b : string) :
  lacks c (a ++ b)%string = lacks c a && lacks c b.
Proof.
  induction a as [|x a IH]; simpl; [reflexivity|].
  now rewrite IH, andb_assoc.
Qed.

Lemma lacks_digits (width : nat) (n : Z) : lacks "T" (digits width n) = true.
Proof.
  revert n. induction width as [|w IH]; intros n; cbn [digits]; [reflexivity|].
  rewrite lacks_append, IH. cbn [lacks andb].
  rewrite (proj2 (digit_cases n)). reflexivity.
Qed.

Lemma lacks_yearString (y : Z) : lacks "T" (yearString y) = true.
Proof.
  unfold yearString. destruct ((0 <=? y) && (y <=? 9999)).
  - apply lacks_digits.
  - rewrite lacks_append, lacks_digits. now destruct (y <? 0).
Qed.

Lemma lacks_dateString (t : Date) : lacks "T" (dateString t) = true.
Proof.
  unfold dateString.
  now rewrite !lacks_append, lacks_yearString, !lacks_digits.
Qed.

(** The first segment of a string cut at a separator that it holds after a
    part without it is that part. *)
Lemma split_first (sep : ascii) (a b : string) :
  lacks sep a = true ->
  JsString.split sep (a ++ String sep b)%string = a :: JsString.split sep b.
Proof.
  induction a as [|x a IH]; simpl; intros Ha.
  - now rewrite Ascii.eqb_refl.
  - apply andb_true_iff in Ha. destruct Ha as [Hx Ha].
    apply negb_true_iff in Hx. rewrite Hx, (IH Ha). reflexivity.
Qed.

(** The day of an ISO string is its date part. *)
Lemma isoDay_dateString (t : Date) : isoDay t = dateString t.
Proof.
  unfold isoDay, toISOString.
  change (dateString t ++ "T" ++ timeString t ++ "Z")%string
    with (dateString t ++ String "T" (timeString t ++ "Z"))%string.
  now rewrite (split_first "T" _ _ (lacks_dateString t)).
Qed.

Lemma orEmpty_Some (s : string) : orEmpty (Some s) = s.
Proof. now destruct s. Qed.

(** Four digits, a hyphen, two digits, a hyphen and two digits have the
    shape of a date. *)
Lemma isYMD_digits (y m d : Z) :
  isYMD (digits 4 y ++ "-" ++ digits 2 m ++ "-" ++ digits 2 d)%string = true.
Proof.
  cbn [digits append isYMD].
  rewrite !(proj1 (digit_cases _)). reflexivity.
Qed.

(** Linear arithmetic with quotients and remainders by constants. *)
Ltac div_lia := Z.div_mod_to_equations; lia.

(** The year of the cycle holds the day of the cycle. *)
Lemma year_of_cycle (doe : Z) :
  0 <= doe < 146097 ->
  let yoe := (doe - doe / 1460 + doe / 36524 - doe / 146096) / 365 in
  0 <= yoe <= 399 /\
  365 * yoe + yoe / 4 - yoe / 100 <= doe
  < 365 * (yoe + 1) + (yoe + 1) / 4 - (yoe + 1) / 100 + (yoe + 1) / 400.
Proof.
  intros H yoe. subst yoe.
  assert (Hc : doe / 36524 = 0 \/ doe / 36524 = 1 \/ doe / 36524 = 2 \/
               doe / 36524 = 3 \/ doe / 36524 = 4) by div_lia.
  destruct Hc as [Hc|[Hc|[Hc|[Hc|Hc]]]]; rewrite Hc; div_lia.
Qed.

(** The first day of a year, counted in days of the calendar that starts on
    0000-03-01. *)
Lemma DayFromYear_march (y : Z) :
  DayFromYear y + 59 + (DaysInYear y - 365) + 719468
  = 365 * y + y / 4 - y / 100 + y / 400.
Proof.
  unfold DayFromYear, DaysInYear.
  destruct (Z.eqb_spec (y mod 4) 0), (Z.eqb_spec (y mod 100) 0),
           (Z.eqb_spec (y mod 400) 0); cbn [negb]; div_lia.
Qed.

(** The next year starts when the year ends. *)
Lemma DayFromYear_next (y : Z) : DayFromYear (y + 1) = DayFromYear y + DaysInYear y.
Proof.
  unfold DayFromYear, DaysInYear.
  destruct (Z.eqb_spec (y mod 4) 0), (Z.eqb_spec (y mod 100) 0),
           (Z.eqb_spec (y mod 400) 0); cbn [negb]; div_lia.
Qed.

Lemma DaysInYear_cases (y : Z) : DaysInYear y = 365 \/ DaysInYear y = 366.
Proof.
  unfold DaysInYear.
  destruct (negb (y mod 4 =? 0)), (negb (y mod 100 =? 0)), (negb (y mod 400 =? 0));
    auto.
Qed.

(** Case analysis on the comparisons of the goal. *)
Ltac decide_ltb :=
  repeat match goal with
         | |- context [?a <? ?b] =>
             destruct (Z.ltb_spec a b); try (exfalso; div_lia)
         end.

(** The month and the day of the month of a day of a year that starts on
    the first of March, read from the table of the year that starts in
    January: the same year before the 306th day, the next year from it on. *)
Lemma month_of_march_day (doy : Z) :
  0 <= doy <= 365 ->
  let mp := (5 * doy + 2) / 153 in
  let d := doy - (153 * mp + 2) / 5 + 1 in
  let m := if mp <? 10 then mp + 3 else mp - 9 in
  (doy < 306 -> 3 <= m <= 12) /\ (306 <= doy -> 1 <= m <= 2) /\ 1 <= d <= 31 /\
  (forall leap, doy < 306 -> 0 <= leap <= 1 ->
     monthAndDate (doy + 59 + leap) leap = (m - 1, d)) /\
  (forall leap, 306 <= doy -> 0 <= leap <= 1 -> doy <= 364 + leap ->
     monthAndDate (doy - 306) leap = (m - 1, d)).
Proof.
  intros Hdoy mp d m.
  assert (Hmp : mp = 0 \/ mp = 1 \/ mp = 2 \/ mp = 3 \/ mp = 4 \/ mp = 5 \/ mp = 6 \/
                mp = 7 \/ mp = 8 \/ mp = 9 \/ mp = 10 \/ mp = 11) by (subst mp; div_lia).
  assert (Hdoy' : 153 * mp <= 5 * doy + 2 < 153 * mp + 153) by (subst mp; div_lia).
  clearbody mp.
  repeat (destruct Hmp as [Hmp|Hmp];
          [subst mp d m; cbn [Z.ltb Z.compare Pos.compare Pos.compare_cont];
           repeat split; intros; try div_lia;
           unfold monthAndDate; decide_ltb; f_equal; div_lia|]).
  subst mp d m; cbn [Z.ltb Z.compare Pos.compare Pos.compare_cont];
    repeat split; intros; try div_lia;
    unfold monthAndDate; decide_ltb; f_equal; div_lia.
Qed.

(** The year, month and day computed for a day number are those of the
    standard: the year is the one that holds the day, the month (from 0)
    and the day of the month are read from the table. *)
Lemma civil_standard (days y m d : Z) :
  civil days = (y, m, d) ->
  DayFromYear y <= days < DayFromYear (y + 1) /\
  monthAndDate (days - DayFromYear y) (DaysInYear y - 365) = (m - 1, d) /\
  1 <= m <= 12 /\ 1 <= d <= 31.
Proof.
  intros Hcivil.
  change (civil days) with
    (let doe := (days + 719468) mod 146097 in
     let yoe := (doe - doe / 1460 + doe / 36524 - doe / 146096) / 365 in
     let doy := doe - (365 * yoe + yoe / 4 - yoe / 100) in
     let mp := (5 * doy + 2) / 153 in
     let m := if mp <? 10 then mp + 3 else mp - 9 in
     (yoe + (days + 719468) / 146097 * 400 + (if m <=? 2 then 1 else 0), m,
      doy - (153 * mp + 2) / 5 + 1)) in Hcivil.
  cbv zeta in Hcivil.
  apply pair_equal_spec in Hcivil. destruct Hcivil as [Hcivil <-].
  apply pair_equal_spec in Hcivil. destruct Hcivil as [<- <-].
  pose proof (Z.div_mod (days + 719468) 146097 ltac:(lia)) as Hdays.
  pose proof (Z.mod_pos_bound (days + 719468) 146097 ltac:(lia)) as Hdoe.
  set (era := (days + 719468) / 146097) in *.
  set (doe := (days + 719468) mod 146097) in *.
  pose proof (year_of_cycle doe Hdoe) as Hyear. cbv zeta in Hyear.
  set (yoe := (doe - doe / 1460 + doe / 36524 - doe / 146096) / 365) in *.
  destruct Hyear as [Hyoe Hbracket].
  set (doy := doe - (365 * yoe + yoe / 4 - yoe / 100)) in *.
  pose proof (DayFromYear_march (yoe + era * 400)) as Hmarch.
  pose proof (DayFromYear_march (yoe + era * 400 + 1)) as Hmarch1.
  pose proof (DayFromYear_next (yoe + era * 400)) as Hnext.
  pose proof (DayFromYear_next (yoe + era * 400 + 1)) as Hnext1.
  pose proof (DaysInYear_cases (yoe + era * 400)) as Hleap.
  pose proof (DaysInYear_cases (yoe + era * 400 + 1)) as Hleap1.
  assert (Hs : 365 * (yoe + era * 400) + (yoe + era * 400) / 4
               - (yoe + era * 400) / 100 + (yoe + era * 400) / 400
               = 365 * yoe + yoe / 4 - yoe / 100 + era * 146097) by div_lia.
  assert (Hs1 : 365 * (yoe + era * 400 + 1) + (yoe + era * 400 + 1) / 4
                - (yoe + era * 400 + 1) / 100 + (yoe + era * 400 + 1) / 400
                = 365 * (yoe + 1) + (yoe + 1) / 4 - (yoe + 1) / 100 + (yoe + 1) / 400
                  + era * 146097) by div_lia.
  rewrite Hs in Hmarch. rewrite Hs1 in Hmarch1. clear Hs Hs1.
  assert (Hdoy : 0 <= doy <= 365) by (subst doy; lia).
  pose proof (month_of_march_day doy Hdoy) as Hmonth. cbv zeta in Hmonth.
  set (mp := (5 * doy + 2) / 153) in *.
  set (d := doy - (153 * mp + 2) / 5 + 1) in *.
  set (m := if mp <? 10 then mp + 3 else mp - 9) in *.
  destruct Hmonth as (Hm3 & Hm2 & Hd & Hsame & Hnext_year).
  set (leap := DaysInYear (yoe + era * 400) - 365) in *.
  set (leap1 := DaysInYear (yoe + era * 400 + 1) - 365) in *.
  assert (Hwithin : days - DayFromYear (yoe + era * 400) = doy + 59 + leap)
    by (subst doy; lia).
  destruct (Z.lt_ge_cases doy 306) as [Hlt|Hge].
  - specialize (Hm3 Hlt). specialize (Hsame leap Hlt ltac:(lia)).
    destruct (Z.leb_spec m 2) as [Hm|Hm]; [lia|]. cbv iota.
    rewrite Z.add_0_r. fold leap. rewrite Hwithin.
    repeat split; try lia. exact Hsame.
  - specialize (Hm2 Hge).
    specialize (Hnext_year leap1 Hge ltac:(lia) ltac:(subst doy; lia)).
    destruct (Z.leb_spec m 2) as [Hm|Hm]; [|lia]. cbv iota.
    fold leap1.
    replace (days - DayFromYear (yoe + era * 400 + 1)) with (doy - 306) by lia.
    repeat split; try lia. exact Hnext_year.
Qed.

Lemma civil_in_range (days : Z) :
  1 <= snd (fst (civil days)) <= 12 /\ 1 <= snd (civil days) <= 31.
Proof.
  destruct (civil days) as [[y m] d] eqn:Hcivil.
  apply civil_standard in Hcivil. cbn [fst snd]. tauto.
Qed.

(** The year of a time value is the year in which the time lies. *)
Lemma YearFromTime_standard (t : Date) :
  msPerDay * DayFromYear (YearFromTime t) <= t
  < msPerDay * DayFromYear (YearFromTime t + 1).
Proof.
  unfold YearFromTime.
  destruct (civil (Day t)) as [[y m] d] eqn:Hcivil.
  apply civil_standard in Hcivil. destruct Hcivil as [Hyear _].
  cbn [fst]. unfold Day, msPerDay, Date in *.
  pose proof (Z.div_mod t 86400000 ltac:(lia)) as Hdiv.
  pose proof (Z.mod_pos_bound t 86400000 ltac:(lia)) as Hmod.
  nia.
Qed.

Lemma firstn_min {A : Type} (n : nat) (l : list A) :
  firstn (Nat.min n (List.length l)) l = firstn n l.
Proof.
  destruct (Nat.le_ge_cases n (List.length l)) as [H|H].
  - now rewrite Nat.min_l.
  - rewrite Nat.min_r by assumption.
    now rewrite firstn_all, firstn_all2.
Qed.

(** A date column: empty for no date, the date part of the ISO string
    otherwise. *)
Lemma dateColumn (date : option Date) :
  orEmpty (option_map isoDay date)
  = match date with
    | None => EmptyString
    | Some t => dateString t
    end.
Proof.
  destruct date as [t|]; [|reflexivity].
  cbn [option_map]. now rewrite orEmpty_Some, isoDay_dateString.
Qed.

End IsoFacts.

(** C7: in the row of a record, the notable-contributions column is the
    first [min 3 length] stored titles joined with [" | "]; the column of
    a null first or last contribution date is empty; the column of a date
    with a year from 0 to 9999 is the four digits of its year, a hyphen,
    the two digits of its month (1 to 12), a hyphen and the two digits of
    its day of the month (1 to 31). *)
Theorem csv_row_columns (contributor : ContributorData) :
  r_notableContributions (toCsvRecord contributor)
  = JsString.join " | "
      (firstn (Nat.min 3 (List.length (notableContributions contributor)))
              (notableContributions contributor)) /\
  (firstContribution contributor = None ->
   r_firstContribution (toCsvRecord contributor) = EmptyString) /\
  (lastContribution contributor = None ->
   r_lastContribution (toCsvRecord contributor) = EmptyString) /\
  (forall t, firstContribution contributor = Some t ->
             0 <= IsoDate.YearFromTime t <= 9999 ->
     r_firstContribution (toCsvRecord contributor)
     = (IsoDate.digits 4 (IsoDate.YearFromTime t) ++ "-"
        ++ IsoDate.digits 2 (IsoDate.MonthFromTime t + 1) ++ "-"
        ++ IsoDate.digits 2 (IsoDate.DateFromTime t))%string /\
     IsoDate.isYMD (r_firstContribution (toCsvRecord contributor)) = true /\
     1 <= IsoDate.MonthFromTime t + 1 <= 12 /\
     1 <= IsoDate.DateFromTime t <= 31) /\
  (forall t, lastContribution contributor = Some t ->
             0 <= IsoDate.YearFromTime t <= 9999 ->
     r_lastContribution (toCsvRecord contributor)
     = (IsoDate.digits 4 (IsoDate.YearFromTime t) ++ "-"
        ++ IsoDate.digits 2 (IsoDate.MonthFromTime t + 1) ++ "-"
        ++ IsoDate.digits 2 (IsoDate.DateFromTime t))%string /\
     IsoDate.isYMD (r_lastContribution (toCsvRecord contributor)) = true /\
     1 <= IsoDate.MonthFromTime t + 1 <= 12 /\
     1 <= IsoDate.DateFromTime t <= 31).
Proof.
  assert (Hdate : forall t, 0 <= IsoDate.YearFromTime t <= 9999 ->
            IsoDate.dateString t
            = (IsoDate.digits 4 (IsoDate.YearFromTime t) ++ "-"
               ++ IsoDate.digits 2 (IsoDate.MonthFromTime t + 1) ++ "-"
               ++ IsoDate.digits 2 (IsoDate.DateFromTime t))%string).
  { intros t [Hlo Hhi]. unfold IsoDate.dateString, IsoDate.yearString.
    apply Z.leb_le in Hlo, Hhi. now rewrite Hlo, Hhi. }
  assert (Hrange : forall t, 1 <= IsoDate.MonthFromTime t + 1 <= 12 /\
                             1 <= IsoDate.DateFromTime t <= 31).
  { intros t. unfold IsoDate.MonthFromTime, IsoDate.DateFromTime.
    pose proof (IsoFacts.civil_in_range (IsoDate.Day t)). lia. }
  cbn [toCsvRecord r_notableContributions r_firstContribution r_lastContribution].
  rewrite !IsoFacts.dateColumn, IsoFacts.firstn_min.
  split; [reflexivity|].
  split; [now intros ->|]. split; [now intros ->|].
  split; intros t -> Hyear; rewrite (Hdate t Hyear);
    (split; [reflexivity|split; [apply IsoFacts.isYMD_digits|apply Hrange]]).
Qed.

Lemma csv_row_columns_witness :
  r_firstContribution (toCsvRecord aliceRecord) = "2024-01-01" /\
  r_lastContribution (toCsvRecord aliceRecord) = "2024-06-01".
Proof.
  split.
  - refine (proj1 (proj1 (proj2 (proj2 (proj2 (csv_row_columns aliceRecord))))
                     1704067200000 eq_refl _)).
    vm_compute. split; discriminate.
  - refine (proj1 (proj2 (proj2 (proj2 (proj2 (csv_row_columns aliceRecord))))
                     1717200000000 eq_refl _)).
    vm_compute. split; discriminate.
Defined.

(** ** The pipeline on the sample data *)

Example alice_collected :
  fetchContributors aliceAndBob 7
    {| owner := "acme"; repo := "widgets"; fullName := "acme/widgets" |}
    (mainOptions (Some ["bangalore"]) 1 None)
  = [aliceRecord].
Proof. reflexivity. Qed.

Example alice_row_notable :
  r_notableContributions (toCsvRecord aliceRecord) = "Fix bug | Report bug".
Proof. reflexivity. Qed.

Example three_of_five_titles :
  r_notableContributions
    (toCsvRecord (plainRecord "bob" "acme/widgets" 0 5 0 ["a"; "b"; "c"; "d"; "e"]))
  = "a | b | c".
Proof. reflexivity. Qed.

Example location_filter :
  matchesLocation "Bangalore, India" ["bangalore"] = true /\
  matchesLocation "Berlin" ["bangalore"] = false.
Proof. split; reflexivity. Qed.

(** * Further properties of the code *)
(** ** More on repository references *)

Module RepoFacts.

Lemma lacks_drop (c : ascii) (n : nat) (s : string) :
  lacks c s = true -> lacks c (JsString.drop n s) = true.
Proof.
  revert s. induction n as [|n IH]; intros s Hs; [assumption|].
  destruct s as [|a s]; [reflexivity|]. simpl in *.
  apply andb_true_iff in Hs. apply IH. tauto.
Qed.

(** Removing a pattern brings in no character. *)
Lemma lacks_replace (c : ascii) (pattern s : string) :
  lacks c s = true -> lacks c (JsString.replace pattern "" s) = true.
Proof.
  induction s as [|a s IH]; intros Hs.
  - simpl. now destruct pattern.
  - cbn [JsString.replace]. destruct (prefix pattern (String a s)).
    + cbn [append]. now apply lacks_drop.
    + simpl in *. apply andb_true_iff in Hs. destruct Hs as [Ha Hs].
      now rewrite Ha, IH.
Qed.

Lemma span_not_spec (c : ascii) (s : string) :
  lacks c (fst (JsString.span_not c s)) = true /\
  s = (fst (JsString.span_not c s) ++ snd (JsString.span_not c s))%string.
Proof.
  induction s as [|a s [IH1 IH2]]; [split; reflexivity|].
  cbn [JsString.span_not]. destruct (Ascii.eqb a c) eqn:Ha.
  - split; reflexivity.
  - destruct (JsString.span_not c s) as [seg rest]. simpl in *.
    rewrite Ha, IH1. split; [reflexivity|]. now rewrite <- IH2.
Qed.

Lemma span_not_lacks (c : ascii) (a rest : string) :
  lacks c a = true ->
  JsString.span_not c (a ++ String c rest)%string = (a, String c rest).
Proof.
  induction a as [|x a IH]; simpl; intros Ha.
  - now rewrite Ascii.eqb_refl.
  - apply andb_true_iff in Ha. destruct Ha as [Hx Ha].
    apply negb_true_iff in Hx. now rewrite Hx, (IH Ha).
Qed.

Lemma span_not_all (c : ascii) (a : string) :
  lacks c a = true -> JsString.span_not c a = (a, EmptyString).
Proof.
  induction a as [|x a IH]; simpl; intros Ha; [reflexivity|].
  apply andb_true_iff in Ha. destruct Ha as [Hx Ha].
  apply negb_true_iff in Hx. now rewrite Hx, (IH Ha).
Qed.

Lemma match_here_groups (s g1 g2 : string) :
  RepoUrl.match_here s = Some (g1, g2) ->
  lacks "/" g1 = true /\ lacks "/" g2 = true /\
  g1 <> EmptyString /\ g2 <> EmptyString.
Proof.
  unfold RepoUrl.match_here. destruct (prefix "github.com/" s); [|discriminate].
  pose proof (span_not_spec "/" (JsString.drop 11 s)) as [H1 _].
  destruct (JsString.span_not "/" (JsString.drop 11 s)) as [a rest].
  destruct a as [|x a]; [discriminate|]. destruct rest as [|y rest]; [discriminate|].
  pose proof (span_not_spec "/" rest) as [H2 _].
  destruct (JsString.span_not "/" rest) as [b rest'].
  destruct b as [|z b]; [discriminate|].
  intros H. injection H as <- <-. simpl in H1, H2. repeat split; try assumption;
    discriminate.
Qed.

(** The groups captured from a URL are non-empty and hold no slash. *)
Lemma search_groups (s g1 g2 : string) :
  RepoUrl.search s = Some (g1, g2) ->
  lacks "/" g1 = true /\ lacks "/" g2 = true /\
  g1 <> EmptyString /\ g2 <> EmptyString.
Proof.
  induction s as [|c s IH]; cbn [RepoUrl.search].
  - destruct (RepoUrl.match_here "") as [[a b]|] eqn:Hm; [|discriminate].
    intros H. injection H as <- <-. now apply (match_here_groups "").
  - destruct (RepoUrl.match_here (String c s)) as [[a b]|] eqn:Hm; [|exact IH].
    intros H. injection H as <- <-. now apply (match_here_groups (String c s)).
Qed.

Lemma split_lacks_one (sep : ascii) (s : string) :
  lacks sep s = true -> JsString.split sep s = [s].
Proof.
  induction s as [|c s IH]; simpl; intros Hs; [reflexivity|].
  apply andb_true_iff in Hs. destruct Hs as [Hc Hs].
  apply negb_true_iff in Hc. now rewrite Hc, (IH Hs).
Qed.

(** Two parts without the separator, joined by it, split into the two. *)
Lemma split_pair (sep : ascii) (a b : string) :
  lacks sep a = true -> lacks sep b = true ->
  JsString.split sep (a ++ String sep b)%string = [a; b].
Proof.
  intros Ha Hb. rewrite (IsoFacts.split_first sep a b Ha).
  now rewrite (split_lacks_one sep b Hb).
Qed.

End RepoFacts.

(** The parts of a parsed reference. *)
Lemma parseRepo_parts (s : string) (rc : RepoConfig) :
  parseRepo s = Ok rc ->
  fullName rc = (owner rc ++ "/" ++ repo rc)%string /\
  lacks "/" (owner rc) = true /\ lacks "/" (repo rc) = true.
Proof.
  unfold parseRepo. destruct (JsString.includes "github.com" s).
  - destruct (RepoUrl.search s) as [[m1 m2]|] eqn:Hsearch; [|discriminate].
    intros H. injection H as <-. simpl.
    apply RepoFacts.search_groups in Hsearch. destruct Hsearch as (H1 & H2 & _).
    repeat split; try assumption. now apply RepoFacts.lacks_replace.
  - pose proof (ParseRepoFacts.split_lacks "/" s) as Hlacks.
    destruct (JsString.split "/" s) as [|p0 [|p1 [|p2 rest]]] eqn:Hsplit;
      try discriminate.
    intros H. injection H as <-. simpl.
    inversion Hlacks as [|? ? H0 H1]; subst. inversion H1; subst.
    repeat split; try assumption. now apply ParseRepoFacts.split_two.
Qed.

(** X1: a reference that [parseRepo] accepts, in either form, gives a full
    name that is the owner, a slash and the repository name, and neither
    the owner nor the repository name contains a slash. *)
Theorem parseRepo_fullName (s : string) (rc : RepoConfig) :
  parseRepo s = Ok rc ->
  fullName rc = (owner rc ++ "/" ++ repo rc)%string /\
  lacks "/" (owner rc) = true /\ lacks "/" (repo rc) = true.
Proof. exact (parseRepo_parts s rc). Qed.

Lemma parseRepo_fullName_witness :
  fullName widgets = (owner widgets ++ "/" ++ repo widgets)%string /\
  lacks "/" (owner widgets) = true /\ lacks "/" (repo widgets) = true.
Proof.
  apply (parseRepo_fullName "acme/widgets" widgets). reflexivity.
Defined.

(** X2: round trip.  The full name of a parsed reference, unless it
    contains [github.com], is itself a reference, and it parses to the
    same owner, repository name and full name. *)
Theorem parseRepo_round_trip (s : string) (rc : RepoConfig) :
  parseRepo s = Ok rc ->
  JsString.includes "github.com" (fullName rc) = false ->
  parseRepo (fullName rc) = Ok rc.
Proof.
  intros Hparse Hhost.
  destruct (parseRepo_parts s rc Hparse) as (Hfull & Ho & Hr).
  unfold parseRepo. rewrite Hhost. rewrite Hfull at 1.
  change (owner rc ++ "/" ++ repo rc)%string
    with (owner rc ++ String "/" (repo rc))%string.
  rewrite (RepoFacts.split_pair "/" _ _ Ho Hr).
  destruct rc as [o r f]. simpl in *. now subst f.
Qed.

Lemma parseRepo_round_trip_witness : parseRepo (fullName widgets) = Ok widgets.
Proof.
  apply (parseRepo_round_trip "https://github.com/acme/widgets.git" widgets);
    reflexivity.
Defined.

Module GitSuffixFacts.

Lemma includes_cons (needle : string) (c : ascii) (s : string) :
  JsString.includes needle (String c s) = false ->
  prefix needle (String c s) = false /\ JsString.includes needle s = false.
Proof.
  cbn [JsString.includes]. destruct (prefix needle (String c s)); [discriminate|].
  auto.
Qed.

(** A name without the pattern is left as it is. *)
Lemma replace_absent (pattern replacement s : string) :
  JsString.includes pattern s = false ->
  JsString.replace pattern replacement s = s.
Proof.
  induction s as [|c s IH]; intros H.
  - cbn [JsString.includes JsString.replace] in *.
    now destruct (prefix pattern "").
  - apply includes_cons in H. destruct H as [Hp Hs].
    cbn [JsString.replace]. rewrite Hp. now rewrite (IH Hs).
Qed.

(** No occurrence of [.git] starts within a name without [.git] that is
    followed by [.git]. *)
Lemma git_not_across (c : ascii) (n : string) :
  prefix ".git" (String c n) = false ->
  prefix ".git" (String c (n ++ ".git")%string) = false.
Proof.
  cbn [prefix]. destruct (ascii_dec "." c); [|reflexivity].
  destruct n as [|c1 n]; [reflexivity|]. cbn [prefix append].
  destruct (ascii_dec "g" c1); [|reflexivity].
  destruct n as [|c2 n]; [reflexivity|]. cbn [prefix append].
  destruct (ascii_dec "i" c2); [|reflexivity].
  destruct n as [|c3 n]; [reflexivity|]. cbn [prefix append].
  destruct (ascii_dec "t" c3); [|reflexivity].
  now destruct n.
Qed.

(** A [.git] that ends a name without another [.git] is removed. *)
Lemma replace_git_suffix (n : string) :
  JsString.includes ".git" n = false ->
  JsString.replace ".git" "" (n ++ ".git")%string = n.
Proof.
  induction n as [|c n IH]; intros H; [reflexivity|].
  apply includes_cons in H. destruct H as [Hp Hn].
  cbn [append JsString.replace]. rewrite (git_not_across c n Hp).
  now rewrite (IH Hn).
Qed.

Lemma match_here_other (c : ascii) (s : string) :
  c <> "g"%char -> RepoUrl.match_here (String c s) = None.
Proof.
  intros Hc. unfold RepoUrl.match_here. cbn [prefix].
  destruct (ascii_dec "g" c) as [<-|_]; [contradiction|reflexivity].
Qed.

Lemma search_other (c : ascii) (s : string) :
  c <> "g"%char -> RepoUrl.search (String c s) = RepoUrl.search s.
Proof.
  intros Hc. cbn [RepoUrl.search]. now rewrite (match_here_other c s Hc).
Qed.

End GitSuffixFacts.


(** X3: an [https://github.com/] URL with a non-empty owner and repository
    name, alone or followed by a further path, parses to that owner and to
    the name without its first [.git]: a name without [.git] is kept as it
    is, and a name that ends in its only [.git] loses that suffix. *)
Theorem parseRepo_https (a b tail : string) :
  a <> EmptyString -> b <> EmptyString ->
  lacks "/" a = true -> lacks "/" b = true ->
  tail = EmptyString \/ (exists t, tail = String "/" t) ->
  parseRepo ("https://github.com/" ++ a ++ "/" ++ b ++ tail)%string
  = Ok {| owner := a;
          repo := JsString.replace ".git" "" b;
          fullName := (a ++ "/" ++ JsString.replace ".git" "" b)%string |} /\
  (JsString.includes ".git" b = false -> JsString.replace ".git" "" b = b) /\
  (forall n, b = (n ++ ".git")%string -> JsString.includes ".git" n = false ->
             JsString.replace ".git" "" b = n).
Proof.
  intros Ha Hb Hla Hlb Htail. split; [|split].
  - unfold parseRepo.
    destruct a as [|x a]; [contradiction|]. destruct b as [|y b]; [contradiction|].
    replace (JsString.includes "github.com"
               ("https://github.com/" ++ String x a ++ "/" ++ String y b ++ tail)%string)
      with true by reflexivity.
    assert (Hsearch :
      RepoUrl.search ("https://github.com/" ++ String x a ++ "/" ++ String y b ++ tail)%string
      = Some (String x a, String y b)).
    { cbn [append].
      do 8 (rewrite GitSuffixFacts.search_other by discriminate).
      cbn [RepoUrl.search]. unfold RepoUrl.match_here at 1.
      replace (prefix "github.com/"
                 (String "g" (String "i" (String "t" (String "h" (String "u"
                   (String "b" (String "." (String "c" (String "o" (String "m"
                     (String "/" (String x (a ++ String "/" (String y (b ++ tail))))))))))))))))
        with true by reflexivity.
      cbn [JsString.drop].
      change (String x (a ++ String "/" (String y (b ++ tail))))%string
        with (String x a ++ String "/" (String y b ++ tail))%string.
      rewrite (RepoFacts.span_not_lacks "/" (String x a) _ Hla).
      destruct Htail as [->|[t ->]].
      - replace (String y b ++ "")%string with (String y b)
          by (clear; induction b as [|c b IH]; simpl in *; congruence).
        now rewrite (RepoFacts.span_not_all "/" (String y b) Hlb).
      - now rewrite (RepoFacts.span_not_lacks "/" (String y b) t Hlb). }
    now rewrite Hsearch.
  - apply GitSuffixFacts.replace_absent.
  - intros n -> Hn. now apply GitSuffixFacts.replace_git_suffix.
Qed.

Lemma parseRepo_https_witness :
  parseRepo "https://github.com/acme/widgets.git/issues" = Ok widgets.
Proof.
  refine (eq_trans (proj1 (parseRepo_https "acme" "widgets.git" "/issues" _ _ _ _ _)) _);
    try discriminate; try reflexivity.
  right. exists "issues"%string. reflexivity.
Defined.

(** ** The location filter *)

Module LocationFacts.

Lemma prefix_append (n s : string) :
  prefix n s = true <-> exists b, s = (n ++ b)%string.
Proof.
  revert s. induction n as [|c n IH]; intros s.
  - split; [intros _; now exists s|]. intros _. now destruct s.
  - destruct s as [|d s]; cbn [prefix].
    + split; [discriminate|]. intros [b Hb]. discriminate.
    + destruct (ascii_dec c d) as [->|Hne].
      * rewrite IH. split; intros [b Hb]; exists b; simpl in *; congruence.
      * split; [discriminate|]. intros [b Hb]. simpl in Hb. congruence.
Qed.

(** [includes] is the test for a substring. *)
Lemma includes_substring (n s : string) :
  JsString.includes n s = true <-> exists a b, s = (a ++ n ++ b)%string.
Proof.
  induction s as [|c s IH]; cbn [JsString.includes].
  - destruct (prefix n "") eqn:Hp.
    + apply prefix_append in Hp. destruct Hp as [b Hb].
      split; [intros _; now exists "", b|reflexivity].
    + split; [discriminate|]. intros (a & b & H).
      destruct a; [|discriminate]. simpl in H.
      assert (prefix n "" = true) by (apply prefix_append; now exists b).
      congruence.
  - destruct (prefix n (String c s)) eqn:Hp.
    + apply prefix_append in Hp. destruct Hp as [b Hb].
      split; [intros _; now exists "", b|reflexivity].
    + rewrite IH. split.
      * intros (a & b & ->). now exists (String c a), b.
      * intros (a & b & H). destruct a as [|d a].
        -- simpl in H. assert (prefix n (String c s) = true)
             by (apply prefix_append; now exists b).
           congruence.
        -- simpl in H. injection H as _ ->. now exists a, b.
Qed.

End LocationFacts.

(** X4: for a location and filter terms of ASCII characters, the location
    matches the filter exactly when one of the filter terms, in lower
    case, is a substring of the location in lower case. *)
Theorem matchesLocation_substring (location : string) (filters : list string) :
  asciiText location = true ->
  Forall (fun term => asciiText term = true) filters ->
  (matchesLocation location filters = true
   <-> exists term before after,
         In term filters /\
         JsString.toLowerCase location
         = (before ++ JsString.toLowerCase term ++ after)%string).
Proof.
  intros _ _. unfold matchesLocation. rewrite existsb_exists. split.
  - intros (term & Hin & Hinc). apply LocationFacts.includes_substring in Hinc.
    destruct Hinc as (a & b & H). now exists term, a, b.
  - intros (term & a & b & Hin & H). exists term. split; [assumption|].
    apply LocationFacts.includes_substring. now exists a, b.
Qed.

Lemma matchesLocation_substring_witness :
  matchesLocation "Bangalore, India" ["Pune"; "INDIA"] = true.
Proof.
  refine (proj2 (matchesLocation_substring "Bangalore, India" ["Pune"; "INDIA"] _ _) _).
  - reflexivity.
  - repeat constructor.
  - exists "INDIA"%string, "bangalore, "%string, EmptyString.
    split; [simpl; auto|reflexivity].
Defined.

(** ** Invariants of the map through the collection passes *)

Module StepFacts.

Lemma truthy_nonempty (s : option string) (u : string) :
  truthy s = Some u -> u <> EmptyString /\ s = Some u.
Proof.
  destruct s as [[|c s]|]; simpl; try discriminate.
  intros H. injection H as <-. split; [discriminate|reflexivity].
Qed.

Section MapInvariant.

Variable octokit : Octokit.
Variable now : Date.
Variable repoConfig : RepoConfig.
Variable options : FetchOptions.

(** [Inv] is a property of the map and [Qc] one of the commit-statistics
    entries of the repository. *)
Variable Inv : JsMap.t ContributorData -> Prop.
Variable Qc : Contributor -> Prop.

Hypothesis entries_Qc :
  forall data, repos_listContributors octokit repoConfig = Ok data -> Forall Qc data.
Hypothesis committer_Inv :
  forall m contributor, Qc contributor -> Inv m ->
    Inv (committerStep octokit now repoConfig options m contributor).
Hypothesis pr_Inv :
  forall m user title date,
    user <> EmptyString ->
    beforeCutoff (cutoffDate now options) date = false ->
    Inv m -> Inv (eventStep octokit now true repoConfig options m user title date).
Hypothesis issue_Inv :
  forall m user title date,
    user <> EmptyString ->
    beforeCutoff (cutoffDate now options) date = false ->
    Inv m -> Inv (eventStep octokit now false repoConfig options m user title date).

Lemma committerSteps_Inv (data : list Contributor) (m : JsMap.t ContributorData) :
  Forall Qc data -> Inv m ->
  Inv (fold_left (committerStep octokit now repoConfig options) data m).
Proof.
  intros Hq. revert m.
  induction Hq as [|c data Hc _ IH]; intros m Hm; simpl; [assumption|].
  apply IH. now apply committer_Inv.
Qed.

Lemma fetchCommitters_Inv (m : JsMap.t ContributorData) :
  Inv m -> Inv (fetchCommitters octokit now repoConfig m options).
Proof.
  intros Hm. unfold fetchCommitters. pose proof entries_Qc as Hq.
  destruct (repos_listContributors octokit repoConfig) as [data|]; [|assumption].
  apply committerSteps_Inv; auto.
Qed.

Lemma prPage_Inv (data : list PullRequest) (m : JsMap.t ContributorData) :
  Inv m -> Inv (fst (prPage octokit now repoConfig options data m)).
Proof.
  revert m. induction data as [|pr data IH]; intros m Hm; simpl; [assumption|].
  destruct (beforeCutoff _ _) eqn:Hcut; [assumption|].
  destruct (truthy _) as [u|] eqn:Hu; [|auto].
  apply IH, pr_Inv; auto. now apply truthy_nonempty in Hu.
Qed.

Lemma prPages_Inv (pages : list Z) (m : JsMap.t ContributorData) :
  Inv m -> Inv (prPages octokit now repoConfig options pages m).
Proof.
  revert m. induction pages as [|page pages IH]; intros m Hm; simpl; [assumption|].
  destruct (pulls_list octokit repoConfig page) as [[|pr data]|]; try assumption.
  pose proof (prPage_Inv (pr :: data) m Hm) as Hpage.
  destruct (prPage octokit now repoConfig options (pr :: data) m) as [m' hasMore].
  simpl in Hpage. destruct hasMore; auto.
Qed.

Lemma issuePage_Inv (data : list Issue) (m : JsMap.t ContributorData) :
  Inv m -> Inv (fst (issuePage octokit now repoConfig options data m)).
Proof.
  revert m. induction data as [|issue data IH]; intros m Hm; simpl; [assumption|].
  destruct (i_pull_request issue); [auto|].
  destruct (beforeCutoff _ _) eqn:Hcut; [assumption|].
  destruct (truthy _) as [u|] eqn:Hu; [|auto].
  apply IH, issue_Inv; auto. now apply truthy_nonempty in Hu.
Qed.

Lemma issuePages_Inv (pages : list Z) (m : JsMap.t ContributorData) :
  Inv m -> Inv (issuePages octokit now repoConfig options pages m).
Proof.
  revert m. induction pages as [|page pages IH]; intros m Hm; simpl; [assumption|].
  destruct (issues_listForRepo octokit repoConfig page) as [[|issue data]|];
    try assumption.
  pose proof (issuePage_Inv (issue :: data) m Hm) as Hpage.
  destruct (issuePage octokit now repoConfig options (issue :: data) m) as [m' hasMore].
  simpl in Hpage. destruct hasMore; auto.
Qed.

(** The records returned for a repository are the values of a map with the
    invariant. *)
Lemma fetchContributors_Inv :
  Inv JsMap.empty ->
  exists m, Inv m /\ fetchContributors octokit now repoConfig options = JsMap.values m.
Proof.
  intros H0. unfold fetchContributors, fetchPRAuthors, fetchIssueCreators.
  eexists. split; [|reflexivity].
  destruct (enabled (includeCommitters options));
    [apply fetchCommitters_Inv in H0|];
    (destruct (enabled (includePRAuthors options));
     [apply (prPages_Inv [1; 2; 3]) in H0|]);
    (destruct (enabled (includeIssueCreators options));
     [apply (issuePages_Inv [1; 2; 3]) in H0|]);
    exact H0.
Qed.

End MapInvariant.

(** *** Properties of the records *)

Section RecordInvariant.

Variable octokit : Octokit.
Variable now : Date.
Variable repoConfig : RepoConfig.
Variable options : FetchOptions.

Variable P : ContributorData -> Prop.
Variable Qc : Contributor -> Prop.

Hypothesis entries_Qc :
  forall data, repos_listContributors octokit repoConfig = Ok data -> Forall Qc data.
Hypothesis new_committer :
  forall user contributor,
    Qc contributor -> user <> EmptyString ->
    locationRejects options (fetchUserProfile octokit user) = false ->
    P (newRecord now repoConfig user (fetchUserProfile octokit user)
         (contributions contributor) 0 0 (contributions contributor) [] None).
Hypothesis add_commits :
  forall contributor e, Qc contributor -> P e ->
                        P (addCommits (contributions contributor) e).
Hypothesis new_event :
  forall (isPR : bool) user title date,
    user <> EmptyString ->
    beforeCutoff (cutoffDate now options) date = false ->
    locationRejects options (fetchUserProfile octokit user) = false ->
    P (newRecord now repoConfig user (fetchUserProfile octokit user)
         1 (if isPR then 1 else 0) (if isPR then 0 else 1) 0 [title] (Some date)).
Hypothesis add_event :
  forall (isPR : bool) title date e,
    beforeCutoff (cutoffDate now options) date = false ->
    P e -> P (addEvent isPR title date e).

Lemma keys_NoDup_set {V : Type} (k : string) (v : V) (m : JsMap.t V) :
  NoDup (JsMap.keys m) -> NoDup (JsMap.keys (JsMap.set k v m)).
Proof. rewrite JsMapFacts.keys_set. apply JsSetFacts.add_NoDup. Qed.

Lemma set_good (m : JsMap.t ContributorData) (c : ContributorData) :
  goodMap P m -> P c -> goodMap P (JsMap.set (username c) c m).
Proof.
  intros (Hk & Hnd & HP) Hc. split; [|split].
  - now apply MergeFacts.keyed_set.
  - now apply keys_NoDup_set.
  - now apply JsMapFacts.values_set.
Qed.

Lemma committerStep_good (m : JsMap.t ContributorData) (contributor : Contributor) :
  Qc contributor -> goodMap P m ->
  goodMap P (committerStep octokit now repoConfig options m contributor).
Proof.
  intros Hc Hm. unfold committerStep.
  destruct (negb _); [assumption|].
  destruct (truthy _) as [u|] eqn:Hu; [|assumption].
  apply truthy_nonempty in Hu. destruct Hu as [Hu _].
  destruct (JsMap.get u m) as [e|] eqn:Hget.
  - destruct Hm as (Hk & Hnd & HP).
    rewrite <- (MergeFacts.keyed_get u e m Hk Hget).
    apply (set_good m (addCommits (contributions contributor) e));
      [now repeat split|].
    apply add_commits; [assumption|]. exact (JsMapFacts.values_get P u e m HP Hget).
  - destruct (locationRejects _ _) eqn:Hloc; [assumption|].
    apply (set_good m (newRecord now repoConfig u (fetchUserProfile octokit u)
                         (contributions contributor) 0 0 (contributions contributor)
                         [] None)); auto.
Qed.

Lemma eventStep_good (isPR : bool) (m : JsMap.t ContributorData)
    (user title : string) (date : Date) :
  user <> EmptyString -> beforeCutoff (cutoffDate now options) date = false ->
  goodMap P m ->
  goodMap P (eventStep octokit now isPR repoConfig options m user title date).
Proof.
  intros Hu Hcut Hm. unfold eventStep.
  destruct (JsMap.get user m) as [e|] eqn:Hget.
  - destruct Hm as (Hk & Hnd & HP).
    rewrite <- (MergeFacts.keyed_get user e m Hk Hget).
    apply (set_good m (addEvent isPR title date e)); [now repeat split|].
    apply add_event; [assumption|]. exact (JsMapFacts.values_get P user e m HP Hget).
  - destruct (locationRejects _ _) eqn:Hloc; [assumption|].
    apply (set_good m (newRecord now repoConfig user (fetchUserProfile octokit user)
                         1 (if isPR then 1 else 0) (if isPR then 0 else 1) 0
                         [title] (Some date))); auto.
Qed.

(** The records of a repository have distinct usernames, and each has the
    property. *)
Lemma fetchContributors_records :
  NoDup (usernames (fetchContributors octokit now repoConfig options)) /\
  Forall P (fetchContributors octokit now repoConfig options).
Proof.
  destruct (fetchContributors_Inv octokit now repoConfig options (goodMap P) Qc entries_Qc)
    as (m & (Hk & Hnd & HP) & ->).
  - apply committerStep_good.
  - apply eventStep_good.
  - apply eventStep_good.
  - repeat split; constructor.
  - split; [|assumption]. now rewrite MergeFacts.keyed_values.
Qed.

End RecordInvariant.

End StepFacts.

(** ** What every record of a repository satisfies *)

(** X5: the records returned for a repository have distinct usernames,
    none of them empty, and each record carries the full name of the
    repository and the time of the fetch. *)
Theorem fetchContributors_users (octokit : Octokit) (now : Date)
    (repoConfig : RepoConfig) (options : FetchOptions) :
  NoDup (usernames (fetchContributors octokit now repoConfig options)) /\
  Forall (fun c => username c <> EmptyString /\
                   repoName c = fullName repoConfig /\ fetchedAt c = now)
         (fetchContributors octokit now repoConfig options).
Proof.
  apply (StepFacts.fetchContributors_records octokit now repoConfig options _
           (fun _ => True)).
  - intros data _. apply Forall_forall. trivial.
  - intros. simpl. auto.
  - intros c e _ H. exact H.
  - intros. simpl. auto.
  - intros isPR title date e _ H. exact H.
Qed.

(** X6: the profile fields of every returned record are those of the
    profile lookup of its user, whichever pass created the record and
    whatever was counted afterwards; for a user whose lookup fails they are
    the placeholder fields: no name, email, location, bio, company, twitter
    or blog, and the profile URL built from the username. *)
Theorem fetchContributors_profiles (octokit : Octokit) (now : Date)
    (repoConfig : RepoConfig) (options : FetchOptions) :
  Forall (fun c => hasProfile (fetchUserProfile octokit (username c)) c)
         (fetchContributors octokit now repoConfig options) /\
  (forall c, In c (fetchContributors octokit now repoConfig options) ->
             isThrow (users_getByUsername octokit (username c)) ->
             hasProfile (placeholderProfile (username c)) c).
Proof.
  assert (H : Forall (fun c => hasProfile (fetchUserProfile octokit (username c)) c)
                (fetchContributors octokit now repoConfig options)).
  { apply (StepFacts.fetchContributors_records octokit now repoConfig options _
             (fun _ => True)).
    - intros data _. apply Forall_forall. trivial.
    - intros. unfold hasProfile. simpl. repeat split; reflexivity.
    - intros c e _ H. exact H.
    - intros. unfold hasProfile. simpl. repeat split; reflexivity.
    - intros isPR title date e _ H. exact H. }
  split; [exact H|].
  intros c Hc [message Hthrow]. rewrite Forall_forall in H. specialize (H c Hc).
  unfold fetchUserProfile in H. now rewrite Hthrow in H.
Qed.

Lemma fetchContributors_profiles_witness :
  hasProfile (placeholderProfile "bob")
    (nth 1 (fetchContributors aliceAndBob 7 widgets (mainOptions None 1 None))
         aliceRecord).
Proof.
  refine (proj2 (fetchContributors_profiles aliceAndBob 7 widgets
                   (mainOptions None 1 None))
            (nth 1 (fetchContributors aliceAndBob 7 widgets (mainOptions None 1 None))
                 aliceRecord) _ _).
  - vm_compute. right. left. reflexivity.
  - exists "Not Found"%string. reflexivity.
Defined.

(** X7: with a non-empty location filter of ASCII terms, over a data source
    whose profile locations are ASCII text, every returned record has a
    non-empty location that matches the filter, and a user whose profile
    lookup fails has no record. *)
Theorem fetchContributors_located (octokit : Octokit) (now : Date)
    (repoConfig : RepoConfig) (options : FetchOptions)
    (term : string) (terms : list string) :
  locationFilter options = Some (term :: terms) ->
  Forall (fun filter => asciiText filter = true) (term :: terms) ->
  (forall user profile place,
      users_getByUsername octokit user = Ok profile ->
      p_location profile = Some place -> asciiText place = true) ->
  Forall (fun c => exists place,
                     location c = Some place /\ place <> EmptyString /\
                     matchesLocation place (term :: terms) = true)
         (fetchContributors octokit now repoConfig options) /\
  (forall user, isThrow (users_getByUsername octokit user) ->
                ~ In user (usernames (fetchContributors octokit now repoConfig options))).
Proof.
  intros Hfilter _ _.
  assert (H : Forall (fun c =>
                location c = p_location (fetchUserProfile octokit (username c)) /\
                locationRejects options (fetchUserProfile octokit (username c)) = false)
                (fetchContributors octokit now repoConfig options)).
  { apply (StepFacts.fetchContributors_records octokit now repoConfig options _
             (fun _ => True)).
    - intros data _. apply Forall_forall. trivial.
    - intros. simpl. auto.
    - intros c e _ H. exact H.
    - intros. simpl. auto.
    - intros isPR title date e _ H. exact H. }
  rewrite Forall_forall in H. split.
  - apply Forall_forall. intros c Hc. destruct (H c Hc) as [Hloc Hrej].
    unfold locationRejects in Hrej. rewrite Hfilter, <- Hloc in Hrej.
    destruct (location c) as [[|ch place]|]; simpl in Hrej; try discriminate.
    exists (String ch place). repeat split; [discriminate|].
    now apply negb_false_iff in Hrej.
  - intros user [message Hthrow] Hin. unfold usernames in Hin.
    apply in_map_iff in Hin. destruct Hin as (c & <- & Hc).
    destruct (H c Hc) as [_ Hrej].
    unfold locationRejects, fetchUserProfile in Hrej.
    rewrite Hfilter, Hthrow in Hrej. discriminate.
Qed.

Lemma fetchContributors_located_witness :
  usernames (fetchContributors aliceAndBob 7 widgets
               (mainOptions (Some ["Pune"; "INDIA"]%string) 1 None))
  = ["alice"%string] /\
  ~ In "bob"%string
      (usernames (fetchContributors aliceAndBob 7 widgets
                    (mainOptions (Some ["Pune"; "INDIA"]%string) 1 None))).
Proof.
  split; [reflexivity|].
  refine (proj2 (fetchContributors_located aliceAndBob 7 widgets
                   (mainOptions (Some ["Pune"; "INDIA"]%string) 1 None)
                   "Pune" ["INDIA"%string] _ _ _) "bob"%string _).
  - reflexivity.
  - repeat constructor.
  - intros user profile place Hprofile Hplace. simpl in Hprofile.
    destruct (String.eqb user "alice"); [|discriminate].
    injection Hprofile as <-. simpl in Hplace. injection Hplace as <-. reflexivity.
  - exists "Not Found"%string. reflexivity.
Defined.

(** Counters and titles of the fetched records. *)
Lemma fetched_titles (octokit : Octokit) (now : Date)
    (repoConfig : RepoConfig) (options : FetchOptions) :
  Forall (fun c => 0 <= pullRequests c /\ 0 <= issues c /\
                   Z.of_nat (List.length (notableContributions c))
                   = Z.min 5 (pullRequests c + issues c))
         (fetchContributors octokit now repoConfig options).
Proof.
  apply (StepFacts.fetchContributors_records octokit now repoConfig options _
           (fun _ => True)).
  - intros data _. apply Forall_forall. trivial.
  - intros. simpl. lia.
  - intros c e _ H. exact H.
  - intros isPR user title date _ _ _. destruct isPR; simpl; lia.
  - intros isPR title date e _ (Hp & Hi & Hlen).
    unfold addEvent, pushNotable. cbn [pullRequests issues notableContributions].
    destruct (Nat.ltb_spec (List.length (notableContributions e)) 5) as [Hlt|Hge].
    + rewrite length_app. simpl List.length. destruct isPR; lia.
    + destruct isPR; lia.
Qed.

(** X8: in every returned record the numbers of pull requests and issues
    are not negative, and the number of notable titles is the number of
    pull requests and issues counted for the user, up to five. *)
Theorem fetchContributors_titles (octokit : Octokit) (now : Date)
    (repoConfig : RepoConfig) (options : FetchOptions) :
  Forall (fun c => 0 <= pullRequests c /\ 0 <= issues c /\
                   Z.of_nat (List.length (notableContributions c))
                   = Z.min 5 (pullRequests c + issues c))
         (fetchContributors octokit now repoConfig options).
Proof. exact (fetched_titles octokit now repoConfig options). Qed.

(** Dates of the fetched records. *)
Lemma fetched_dates (octokit : Octokit) (now : Date)
    (repoConfig : RepoConfig) (options : FetchOptions) :
  Forall (datesConsistent (cutoffDate now options))
         (fetchContributors octokit now repoConfig options).
Proof.
  assert (H : Forall (fun c => 0 <= pullRequests c /\ 0 <= issues c /\
                               datesConsistent (cutoffDate now options) c)
                (fetchContributors octokit now repoConfig options)).
  { apply (StepFacts.fetchContributors_records octokit now repoConfig options _
             (fun _ => True)).
    - intros data _. apply Forall_forall. trivial.
    - intros. unfold datesConsistent. simpl. lia.
    - intros c e _ H. exact H.
    - intros isPR user title date _ Hcut _. unfold datesConsistent, beforeCutoff in *.
      simpl. destruct (cutoffDate now options); destruct isPR; lia.
    - intros isPR title date e Hcut (Hp & Hi & Hd).
      unfold datesConsistent, beforeCutoff, addEvent, earlier, later in *.
      cbn [pullRequests issues firstContribution lastContribution].
      destruct (firstContribution e) as [f|], (lastContribution e) as [l|];
        try contradiction.
      + destruct (Z.ltb_spec date f), (Z.ltb_spec l date),
          (cutoffDate now options), isPR; lia.
      + destruct (cutoffDate now options), isPR; lia. }
  eapply Forall_impl; [|exact H]. intros c (_ & _ & Hd). exact Hd.
Qed.

(** X9: in every returned record the two dates are both absent, and then no
    pull request or issue was counted, or both present, and then the first
    is not after the last, at least one pull request or issue was counted,
    and the first is not before the activity cutoff when there is one. *)
Theorem fetchContributors_dates (octokit : Octokit) (now : Date)
    (repoConfig : RepoConfig) (options : FetchOptions) :
  Forall (datesConsistent (cutoffDate now options))
         (fetchContributors octokit now repoConfig options).
Proof. exact (fetched_dates octokit now repoConfig options). Qed.

(** ** Records are kept and only grow *)

Module GrowFacts.

Lemma get_set_other {V : Type} (k k' : string) (v : V) (m : JsMap.t V) :
  k <> k' -> JsMap.get k (JsMap.set k' v m) = JsMap.get k m.
Proof.
  intros Hne. induction m as [|[k0 v0] m IH]; simpl.
  - destruct (String.eqb_spec k k'); [contradiction|reflexivity].
  - destruct (String.eqb_spec k' k0) as [->|Hk0]; simpl.
    + destruct (String.eqb_spec k k0); [contradiction|reflexivity].
    + destruct (String.eqb k k0); [reflexivity|exact IH].
Qed.

Lemma keys_set_present {V : Type} (k : string) (v e : V) (m : JsMap.t V) :
  JsMap.get k m = Some e -> JsMap.keys (JsMap.set k v m) = JsMap.keys m.
Proof.
  intros Hget. rewrite JsMapFacts.keys_set. unfold JsSet.add.
  destruct (JsSet.mem k (JsMap.keys m)) eqn:Hmem; [reflexivity|].
  apply JsSetFacts.mem_not_In in Hmem.
  rewrite (JsMapFacts.get_not_in k m Hmem) in Hget. discriminate.
Qed.

Lemma keys_set_absent {V : Type} (k : string) (v : V) (m : JsMap.t V) :
  JsMap.get k m = None -> JsMap.keys (JsMap.set k v m) = JsMap.keys m ++ [k].
Proof.
  intros Hget. rewrite JsMapFacts.keys_set. unfold JsSet.add.
  destruct (JsSet.mem k (JsMap.keys m)) eqn:Hmem; [|reflexivity].
  apply JsSetFacts.mem_In, JsMapFacts.get_in in Hmem.
  destruct Hmem as [v' Hv]. congruence.
Qed.

Lemma grownFrom_refl (e : ContributorData) : grownFrom e e.
Proof.
  unfold grownFrom, hasProfile. simpl. repeat split; try reflexivity; try lia.
  - exists []. now rewrite app_nil_r.
  - intros f Hf. exists f. split; [assumption|lia].
  - intros l Hl. exists l. split; [assumption|lia].
Qed.

Lemma grownFrom_trans (a b c : ContributorData) :
  grownFrom a b -> grownFrom b c -> grownFrom a c.
Proof.
  unfold grownFrom, hasProfile. simpl.
  intros (Hu & (H1 & H2 & H3 & H4 & H5 & H6 & H7 & H8) & Hr & Hf & Hc & Hp & Hi & Ht
          & (l1 & Hl1) & Hfirst & Hlast)
         (Hu' & (H1' & H2' & H3' & H4' & H5' & H6' & H7' & H8') & Hr' & Hf' & Hc' & Hp'
          & Hi' & Ht' & (l2 & Hl2) & Hfirst' & Hlast').
  repeat split; try congruence; try lia.
  - exists (l1 ++ l2). rewrite Hl2, Hl1. now rewrite app_assoc.
  - intros f Ha. destruct (Hfirst f Ha) as (f1 & Hb & Hle).
    destruct (Hfirst' f1 Hb) as (f2 & Hc2 & Hle2). exists f2. split; [assumption|lia].
  - intros l Ha. destruct (Hlast l Ha) as (x1 & Hb & Hle).
    destruct (Hlast' x1 Hb) as (x2 & Hc2 & Hle2). exists x2. split; [assumption|lia].
Qed.

Lemma grownFrom_addCommits (n : Z) (e : ContributorData) :
  0 <= n -> grownFrom e (addCommits n e).
Proof.
  intros Hn. unfold grownFrom, hasProfile. simpl.
  repeat split; try reflexivity; try lia.
  - exists []. now rewrite app_nil_r.
  - intros f Hf. exists f. split; [assumption|lia].
  - intros l Hl. exists l. split; [assumption|lia].
Qed.

Lemma grownFrom_addEvent (isPR : bool) (title : string) (date : Date)
    (e : ContributorData) :
  grownFrom e (addEvent isPR title date e).
Proof.
  unfold grownFrom, hasProfile. simpl.
  repeat split; try reflexivity; try (destruct isPR; lia).
  - unfold pushNotable. destruct (_ <? _)%nat; [now exists [title]|].
    exists []. now rewrite app_nil_r.
  - intros f Hf. rewrite Hf. unfold earlier.
    destruct (Z.ltb_spec date f); eexists; split; try reflexivity; lia.
  - intros l Hl. rewrite Hl. unfold later.
    destruct (Z.ltb_spec l date); eexists; split; try reflexivity; lia.
Qed.

Lemma extendsMap_refl (m : JsMap.t ContributorData) : extendsMap m m.
Proof.
  split.
  - exists []. now rewrite app_nil_r.
  - intros k e He. exists e. split; [assumption|apply grownFrom_refl].
Qed.

(** Updating the record of a user keeps the map an extension. *)
Lemma extendsMap_update (m0 m : JsMap.t ContributorData) (k : string)
    (e v : ContributorData) :
  extendsMap m0 m -> JsMap.get k m = Some e -> grownFrom e v ->
  extendsMap m0 (JsMap.set k v m).
Proof.
  intros [[added Hkeys] Hrec] Hget Hgrow. split.
  - exists added. now rewrite (keys_set_present k v e m Hget).
  - intros k0 e0 He0. destruct (Hrec k0 e0 He0) as (e' & He' & Hg).
    destruct (String.eqb_spec k0 k) as [->|Hne].
    + exists v. split; [apply JsMapFacts.get_set_same|].
      rewrite Hget in He'. injection He' as <-.
      now apply (grownFrom_trans e0 e v).
    + exists e'. split; [|assumption]. now rewrite get_set_other.
Qed.

(** Adding the record of a new user keeps the map an extension. *)
Lemma extendsMap_insert (m0 m : JsMap.t ContributorData) (k : string)
    (v : ContributorData) :
  extendsMap m0 m -> JsMap.get k m = None -> extendsMap m0 (JsMap.set k v m).
Proof.
  intros [[added Hkeys] Hrec] Hget. split.
  - exists (added ++ [k]). rewrite (keys_set_absent k v m Hget), Hkeys.
    now rewrite app_assoc.
  - intros k0 e0 He0. destruct (Hrec k0 e0 He0) as (e' & He' & Hg).
    exists e'. split; [|assumption]. rewrite get_set_other; [assumption|].
    intros ->. congruence.
Qed.

Section Growth.

Variable octokit : Octokit.
Variable now : Date.
Variable repoConfig : RepoConfig.
Variable options : FetchOptions.
Variable m0 : JsMap.t ContributorData.

Lemma committerStep_extends (m : JsMap.t ContributorData) (contributor : Contributor) :
  0 <= contributions contributor -> extendsMap m0 m ->
  extendsMap m0 (committerStep octokit now repoConfig options m contributor).
Proof.
  intros Hn Hm. unfold committerStep.
  destruct (negb _); [assumption|].
  destruct (truthy _) as [u|]; [|assumption].
  destruct (JsMap.get u m) as [e|] eqn:Hget.
  - apply (extendsMap_update m0 m u e); auto. now apply grownFrom_addCommits.
  - destruct (locationRejects _ _); [assumption|]. now apply extendsMap_insert.
Qed.

Lemma eventStep_extends (isPR : bool) (m : JsMap.t ContributorData)
    (user title : string) (date : Date) :
  extendsMap m0 m ->
  extendsMap m0 (eventStep octokit now isPR repoConfig options m user title date).
Proof.
  intros Hm. unfold eventStep.
  destruct (JsMap.get user m) as [e|] eqn:Hget.
  - apply (extendsMap_update m0 m user e); auto. apply grownFrom_addEvent.
  - destruct (locationRejects _ _); [assumption|]. now apply extendsMap_insert.
Qed.

End Growth.

End GrowFacts.

(** X10: when the commit counts of the contributor list are not negative,
    each of the three passes only extends the map it is given: the users
    already present keep their position, profile, repository and fetch
    time, their counters do not decrease, their titles are kept with later
    ones after them, their first date only moves back and their last date
    only forward; new users are added after them. *)
Theorem passes_extend_map (octokit : Octokit) (now : Date)
    (repoConfig : RepoConfig) (options : FetchOptions)
    (contributors : JsMap.t ContributorData) :
  (forall data, repos_listContributors octokit repoConfig = Ok data ->
                Forall (fun contributor => 0 <= contributions contributor) data) ->
  extendsMap contributors (fetchCommitters octokit now repoConfig contributors options) /\
  extendsMap contributors (fetchPRAuthors octokit now repoConfig contributors options) /\
  extendsMap contributors (fetchIssueCreators octokit now repoConfig contributors options).
Proof.
  intros Hcounts. split; [|split].
  - apply (StepFacts.fetchCommitters_Inv octokit now repoConfig options
             (extendsMap contributors) (fun c => 0 <= contributions c) Hcounts).
    + intros m c Hc Hm. now apply GrowFacts.committerStep_extends.
    + apply GrowFacts.extendsMap_refl.
  - unfold fetchPRAuthors.
    apply (StepFacts.prPages_Inv octokit now repoConfig options
             (extendsMap contributors)).
    + intros m u title date _ _ Hm. now apply GrowFacts.eventStep_extends.
    + apply GrowFacts.extendsMap_refl.
  - unfold fetchIssueCreators.
    apply (StepFacts.issuePages_Inv octokit now repoConfig options
             (extendsMap contributors)).
    + intros m u title date _ _ Hm. now apply GrowFacts.eventStep_extends.
    + apply GrowFacts.extendsMap_refl.
Qed.

Lemma passes_extend_map_witness :
  extendsMap zoeAndAlice
    (fetchCommitters aliceAndBob 7 widgets zoeAndAlice (mainOptions None 1 None)) /\
  extendsMap zoeAndAlice
    (fetchPRAuthors aliceAndBob 7 widgets zoeAndAlice (mainOptions None 1 None)) /\
  extendsMap zoeAndAlice
    (fetchIssueCreators aliceAndBob 7 widgets zoeAndAlice (mainOptions None 1 None)).
Proof.
  apply (passes_extend_map aliceAndBob 7 widgets (mainOptions None 1 None) zoeAndAlice).
  intros data Hdata. simpl in Hdata. injection Hdata as <-.
  repeat constructor; simpl; lia.
Defined.

(** ** Pagination and the recency cutoff *)

Module PageFacts.

Section Pages.

Variable octokit : Octokit.
Variable now : Date.
Variable repoConfig : RepoConfig.
Variable options : FetchOptions.

(** Entries that are not older than the cutoff are processed one after the
    other, whatever follows them. *)
Lemma prPage_app (pre post : list PullRequest) (m : JsMap.t ContributorData) :
  Forall (fun pr => beforeCutoff (cutoffDate now options) (pr_created_at pr) = false)
         pre ->
  prPage octokit now repoConfig options (pre ++ post) m
  = prPage octokit now repoConfig options post
      (fst (prPage octokit now repoConfig options pre m)).
Proof.
  intros Hpre. revert m. induction Hpre as [|pr pre Hpr _ IH]; intros m; [reflexivity|].
  cbn [app prPage]. rewrite Hpr. destruct (truthy (pr_user pr)); apply IH.
Qed.

Lemma prPage_hasMore (data : list PullRequest) (m : JsMap.t ContributorData) :
  Forall (fun pr => beforeCutoff (cutoffDate now options) (pr_created_at pr) = false)
         data ->
  snd (prPage octokit now repoConfig options data m) = true.
Proof.
  intros Hdata. revert m. induction Hdata as [|pr data Hpr _ IH]; intros m; [reflexivity|].
  cbn [prPage]. rewrite Hpr. destruct (truthy (pr_user pr)); apply IH.
Qed.

Lemma issuePage_app (pre post : list Issue) (m : JsMap.t ContributorData) :
  Forall (fun issue => i_pull_request issue = true \/
            beforeCutoff (cutoffDate now options) (i_created_at issue) = false) pre ->
  issuePage octokit now repoConfig options (pre ++ post) m
  = issuePage octokit now repoConfig options post
      (fst (issuePage octokit now repoConfig options pre m)).
Proof.
  intros Hpre. revert m.
  induction Hpre as [|issue pre Hissue _ IH]; intros m; [reflexivity|].
  cbn [app issuePage]. destruct (i_pull_request issue); [apply IH|].
  destruct Hissue as [Hpr|Hcut]; [discriminate|]. rewrite Hcut.
  destruct (truthy (i_user issue)); apply IH.
Qed.

Lemma issuePage_hasMore (data : list Issue) (m : JsMap.t ContributorData) :
  Forall (fun issue => i_pull_request issue = true \/
            beforeCutoff (cutoffDate now options) (i_created_at issue) = false) data ->
  snd (issuePage octokit now repoConfig options data m) = true.
Proof.
  intros Hdata. revert m.
  induction Hdata as [|issue data Hissue _ IH]; intros m; [reflexivity|].
  cbn [issuePage]. destruct (i_pull_request issue); [apply IH|].
  destruct Hissue as [Hpr|Hcut]; [discriminate|]. rewrite Hcut.
  destruct (truthy (i_user issue)); apply IH.
Qed.

End Pages.

End PageFacts.

(** X11: the pull-request pass stops at the first pull request of the first
    page that is older than the cutoff: the result is that of the pull
    requests before it; the rest of the page and the further pages are not
    counted. *)
Theorem fetchPRAuthors_stops_at_old (octokit : Octokit) (now : Date)
    (repoConfig : RepoConfig) (options : FetchOptions)
    (contributors : JsMap.t ContributorData)
    (pre post : list PullRequest) (old : PullRequest) :
  pulls_list octokit repoConfig 1 = Ok (pre ++ old :: post) ->
  Forall (fun pr => beforeCutoff (cutoffDate now options) (pr_created_at pr) = false)
         pre ->
  beforeCutoff (cutoffDate now options) (pr_created_at old) = true ->
  fetchPRAuthors octokit now repoConfig contributors options
  = fst (prPage octokit now repoConfig options pre contributors).
Proof.
  intros Hpage Hpre Hold. unfold fetchPRAuthors. cbn [prPages]. rewrite Hpage.
  rewrite (PageFacts.prPage_app octokit now repoConfig options pre (old :: post)
             contributors Hpre).
  cbn [prPage]. rewrite Hold.
  destruct (pre ++ old :: post) eqn:Hnil; [now destruct pre|reflexivity].
Qed.

Lemma fetchPRAuthors_stops_at_old_witness :
  fetchPRAuthors pagedSource 1719792000000 widgets JsMap.empty
    (mainOptions None 1 (Some 6))
  = fst (prPage pagedSource 1719792000000 widgets (mainOptions None 1 (Some 6))
           [ {| pr_created_at := 1717200000000; pr_user := Some "alice"%string;
                pr_title := "Fix bug"%string |} ]
           JsMap.empty).
Proof.
  apply (fetchPRAuthors_stops_at_old pagedSource 1719792000000 widgets
           (mainOptions None 1 (Some 6)) JsMap.empty
           [ {| pr_created_at := 1717200000000; pr_user := Some "alice"%string;
                pr_title := "Fix bug"%string |} ]
           [ {| pr_created_at := 1717200000000; pr_user := Some "carol"%string;
                pr_title := "New docs"%string |} ]
           {| pr_created_at := 1672531200000; pr_user := Some "bob"%string;
              pr_title := "Old docs"%string |}).
  - reflexivity.
  - repeat constructor.
  - reflexivity.
Defined.

(** X12: the issue pass stops at the first issue of the first page that is
    not a pull request and is older than the cutoff; the entries before it
    are counted (those that are pull requests are passed over, whatever
    their date) and nothing after it is. *)
Theorem fetchIssueCreators_stops_at_old (octokit : Octokit) (now : Date)
    (repoConfig : RepoConfig) (options : FetchOptions)
    (contributors : JsMap.t ContributorData)
    (pre post : list Issue) (old : Issue) :
  issues_listForRepo octokit repoConfig 1 = Ok (pre ++ old :: post) ->
  Forall (fun issue => i_pull_request issue = true \/
            beforeCutoff (cutoffDate now options) (i_created_at issue) = false) pre ->
  i_pull_request old = false ->
  beforeCutoff (cutoffDate now options) (i_created_at old) = true ->
  fetchIssueCreators octokit now repoConfig contributors options
  = fst (issuePage octokit now repoConfig options pre contributors).
Proof.
  intros Hpage Hpre Hpr Hold. unfold fetchIssueCreators. cbn [issuePages].
  rewrite Hpage.
  rewrite (PageFacts.issuePage_app octokit now repoConfig options pre (old :: post)
             contributors Hpre).
  cbn [issuePage]. rewrite Hpr, Hold.
  destruct (pre ++ old :: post) eqn:Hnil; [now destruct pre|reflexivity].
Qed.

Lemma fetchIssueCreators_stops_at_old_witness :
  fetchIssueCreators pagedSource 1719792000000 widgets JsMap.empty
    (mainOptions None 1 (Some 6))
  = fst (issuePage pagedSource 1719792000000 widgets (mainOptions None 1 (Some 6))
           [ {| i_pull_request := true; i_created_at := 1672531200000;
                i_user := Some "bob"%string; i_title := "Old docs"%string |};
             {| i_pull_request := false; i_created_at := 1717200000000;
                i_user := Some "bob"%string; i_title := "Crash"%string |} ]
           JsMap.empty).
Proof.
  apply (fetchIssueCreators_stops_at_old pagedSource 1719792000000 widgets
           (mainOptions None 1 (Some 6)) JsMap.empty
           [ {| i_pull_request := true; i_created_at := 1672531200000;
                i_user := Some "bob"%string; i_title := "Old docs"%string |};
             {| i_pull_request := false; i_created_at := 1717200000000;
                i_user := Some "bob"%string; i_title := "Crash"%string |} ]
           [ {| i_pull_request := false; i_created_at := 1717200000000;
                i_user := Some "dave"%string; i_title := "Question"%string |} ]
           {| i_pull_request := false; i_created_at := 1672531200000;
              i_user := Some "carol"%string; i_title := "Old crash"%string |}).
  - reflexivity.
  - constructor; [left; reflexivity|]. constructor; [right; reflexivity|constructor].
  - reflexivity.
  - reflexivity.
Defined.

(** X13: when the first two pages of pull requests are not empty and no
    pull request of the first three pages is older than the cutoff, the
    pass counts exactly the three pages, as if they were one list; a
    fourth page is never requested. *)
Theorem pages_as_one_list (octokit : Octokit) (now : Date)
    (repoConfig : RepoConfig) (options : FetchOptions)
    (contributors : JsMap.t ContributorData)
    (p1 p2 p3 : list PullRequest) :
  pulls_list octokit repoConfig 1 = Ok p1 ->
  pulls_list octokit repoConfig 2 = Ok p2 ->
  pulls_list octokit repoConfig 3 = Ok p3 ->
  p1 <> [] -> p2 <> [] ->
  Forall (fun pr => beforeCutoff (cutoffDate now options) (pr_created_at pr) = false)
         (p1 ++ p2 ++ p3) ->
  fetchPRAuthors octokit now repoConfig contributors options
  = fst (prPage octokit now repoConfig options (p1 ++ p2 ++ p3) contributors).
Proof.
  intros H1 H2 H3 Hn1 Hn2 Hall.
  apply Forall_app in Hall. destruct Hall as [Ha1 Hall].
  apply Forall_app in Hall. destruct Hall as [Ha2 Ha3].
  rewrite (PageFacts.prPage_app octokit now repoConfig options p1 _ contributors Ha1).
  rewrite (PageFacts.prPage_app octokit now repoConfig options p2 _ _ Ha2).
  unfold fetchPRAuthors. cbn [prPages]. rewrite H1, H2, H3.
  pose proof (PageFacts.prPage_hasMore octokit now repoConfig options p1
                contributors Ha1) as Hm1.
  destruct (prPage octokit now repoConfig options p1 contributors) as [m1 more1].
  simpl in Hm1. subst more1. cbn [fst].
  pose proof (PageFacts.prPage_hasMore octokit now repoConfig options p2 m1 Ha2) as Hm2.
  destruct (prPage octokit now repoConfig options p2 m1) as [m2 more2].
  simpl in Hm2. subst more2. cbn [fst].
  destruct p1 as [|x1 p1]; [contradiction|]. destruct p2 as [|x2 p2]; [contradiction|].
  destruct p3 as [|x3 p3]; [reflexivity|].
  destruct (prPage octokit now repoConfig options (x3 :: p3) m2) as [m3 [|]];
    reflexivity.
Qed.

Lemma pages_as_one_list_witness :
  JsMap.keys
    (fetchPRAuthors pagedSource 7 widgets JsMap.empty (mainOptions None 1 None))
  = ["alice"; "bob"; "carol"; "dave"]%string.
Proof.
  refine (eq_trans
            (f_equal JsMap.keys
               (pages_as_one_list pagedSource 7 widgets (mainOptions None 1 None)
                  JsMap.empty _ _ _ eq_refl eq_refl eq_refl _ _ _)) _).
  - discriminate.
  - discriminate.
  - repeat constructor.
  - reflexivity.
Defined.

(** ** Sums of counters *)

Module SumFacts.

Lemma sumBy_app (f : ContributorData -> Z) (l1 l2 : list ContributorData) :
  sumBy f (l1 ++ l2) = sumBy f l1 + sumBy f l2.
Proof. induction l1 as [|c l1 IH]; simpl; [reflexivity|]. rewrite IH. lia. Qed.

Lemma sumBy_Permutation (f : ContributorData -> Z) (l1 l2 : list ContributorData) :
  Permutation l1 l2 -> sumBy f l1 = sumBy f l2.
Proof. induction 1; simpl; lia. Qed.

(** [xs.reduce((sum, c) => sum + f(c), 0)] is the sum. *)
Lemma reduce_sum (f : ContributorData -> Z) (l : list ContributorData) (start : Z) :
  fold_left (fun sum c => sum + f c) l start = start + sumBy f l.
Proof.
  revert start. induction l as [|c l IH]; intros start; simpl; [lia|].
  rewrite IH. lia.
Qed.

(** The sum after [set]: the new value counts instead of the one it
    replaces, if there is one. *)
Lemma sumBy_set (f : ContributorData -> Z) (k : string) (v : ContributorData)
    (m : JsMap.t ContributorData) :
  sumBy f (JsMap.values (JsMap.set k v m))
  = sumBy f (JsMap.values m) + f v
    - match JsMap.get k m with Some e => f e | None => 0 end.
Proof.
  unfold JsMap.values.
  induction m as [|[k0 v0] m IH]; cbn [JsMap.set JsMap.get map snd sumBy fold_right];
    [lia|].
  destruct (String.eqb k k0); cbn [map snd sumBy fold_right]; [lia|].
  fold (sumBy f (map snd (JsMap.set k v m))). fold (sumBy f (map snd m)).
  rewrite IH. lia.
Qed.

Lemma mergeStep_sum (f : ContributorData -> Z) (now : Date)
    (m : JsMap.t ContributorData) (c : ContributorData) :
  (forall e, f (mergeInto now e c) = f e + f c) ->
  sumBy f (JsMap.values (mergeStep now m c)) = sumBy f (JsMap.values m) + f c.
Proof.
  intros Hf. unfold mergeStep.
  destruct (JsMap.get (username c) m) as [e|] eqn:Hget; rewrite sumBy_set, Hget.
  - rewrite Hf. lia.
  - lia.
Qed.

(** The merge adds the sums, for a counter that the merge of two records
    adds. *)
Lemma merge_sum (f : ContributorData -> Z) (now : Date)
    (ex nw : list ContributorData) :
  (forall e c, f (mergeInto now e c) = f e + f c) ->
  NoDup (usernames ex) ->
  sumBy f (mergeContributors now ex nw) = sumBy f ex + sumBy f nw.
Proof.
  intros Hf Hex. unfold mergeContributors.
  rewrite (MergeFacts.insert_all_entries ex Hex).
  rewrite <- (MergeFacts.values_entries ex) at 2.
  generalize (map entry ex) as m. clear Hex ex.
  induction nw as [|c nw IH]; intros m; simpl; [lia|].
  rewrite IH, mergeStep_sum by auto. lia.
Qed.

Lemma mainLoop_sum (f : ContributorData -> Z) (octokit : Octokit) (now : Date)
    (options : FetchOptions) (repos : list string) (all : list ContributorData) :
  (forall e c, f (mergeInto now e c) = f e + f c) ->
  NoDup (usernames all) ->
  sumBy f (mainLoop octokit now options repos all)
  = sumBy f all + filteredSum f octokit now options repos.
Proof.
  intros Hf. revert all.
  induction repos as [|r repos IH]; intros all Hall; simpl; [lia|].
  destruct (parseRepo r) as [rc|]; [|auto].
  rewrite IH by apply MergeFacts.merge_usernames_NoDup.
  rewrite merge_sum by assumption. lia.
Qed.

End SumFacts.

(** X14: the merge loses and invents no contribution: when the existing
    records have distinct usernames, the commits, pull requests, issues and
    totals of the merged records sum to those of the existing records plus
    those of the new records. *)
Theorem merge_adds_counters (now : Date)
    (existingContributors newContributors : list ContributorData) :
  NoDup (usernames existingContributors) ->
  let merged := mergeContributors now existingContributors newContributors in
  sumBy commits merged
  = sumBy commits existingContributors + sumBy commits newContributors /\
  sumBy pullRequests merged
  = sumBy pullRequests existingContributors + sumBy pullRequests newContributors /\
  sumBy issues merged
  = sumBy issues existingContributors + sumBy issues newContributors /\
  sumBy totalContributions merged
  = sumBy totalContributions existingContributors
    + sumBy totalContributions newContributors.
Proof.
  intros Hex merged. subst merged.
  repeat split; apply SumFacts.merge_sum; auto.
Qed.

Lemma merge_adds_counters_witness :
  sumBy totalContributions
    (mergeContributors 7
       [plainRecord "alice" "acme/widgets" 10 1 1 ["Fix bug"%string];
        plainRecord "bob" "acme/widgets" 0 1 0 ["Add docs"%string]]
       [plainRecord "carol" "acme/gadgets" 2 0 0 [];
        plainRecord "bob" "acme/gadgets" 4 0 0 [];
        plainRecord "carol" "acme/gadgets" 0 1 0 ["Typo"%string]])
  = 13 + 7.
Proof.
  refine (proj2 (proj2 (proj2 (merge_adds_counters 7
            [plainRecord "alice" "acme/widgets" 10 1 1 ["Fix bug"%string];
             plainRecord "bob" "acme/widgets" 0 1 0 ["Add docs"%string]]
            [plainRecord "carol" "acme/gadgets" 2 0 0 [];
             plainRecord "bob" "acme/gadgets" 4 0 0 [];
             plainRecord "carol" "acme/gadgets" 0 1 0 ["Typo"%string]] _)))).
  simpl. repeat constructor; simpl; intuition discriminate.
Defined.

(** X15: the commits, pull requests, issues and totals of the exported
    records sum to those of the records that passed the threshold in the
    repositories whose reference parses: the merge and the sort keep
    them. *)
Theorem exported_counts (octokit : Octokit) (now : Date)
    (options : FetchOptions) (repos : list string) :
  sumBy commits (exported octokit now options repos)
  = filteredSum commits octokit now options repos /\
  sumBy pullRequests (exported octokit now options repos)
  = filteredSum pullRequests octokit now options repos /\
  sumBy issues (exported octokit now options repos)
  = filteredSum issues octokit now options repos /\
  sumBy totalContributions (exported octokit now options repos)
  = filteredSum totalContributions octokit now options repos.
Proof.
  unfold exported.
  repeat split;
    rewrite <- (SumFacts.sumBy_Permutation _ _ _
                  (MainFacts.sortByTotal_Permutation _));
    rewrite SumFacts.mainLoop_sum by (auto; constructor); reflexivity.
Qed.

(** ** How many pull requests and issues are counted *)

Module CountFacts.

Section Counts.

Variable octokit : Octokit.
Variable now : Date.
Variable repoConfig : RepoConfig.
Variable options : FetchOptions.

(** [f] is the counter of pull requests or of issues, and [delta isPR] what
    an event adds to it. *)
Variable f : ContributorData -> Z.
Variable delta : bool -> Z.

Hypothesis f_committer :
  forall user profile n, f (newRecord now repoConfig user profile n 0 0 n [] None) = 0.
Hypothesis f_addCommits : forall n e, f (addCommits n e) = f e.
Hypothesis f_event :
  forall (isPR : bool) user profile title date,
    f (newRecord now repoConfig user profile
         1 (if isPR then 1 else 0) (if isPR then 0 else 1) 0 [title] (Some date))
    = delta isPR.
Hypothesis f_addEvent :
  forall (isPR : bool) title date e, f (addEvent isPR title date e) = f e + delta isPR.
Hypothesis delta_range : forall isPR, 0 <= delta isPR <= 1.

Lemma committerStep_sum (m : JsMap.t ContributorData) (contributor : Contributor) :
  sumBy f (JsMap.values (committerStep octokit now repoConfig options m contributor))
  = sumBy f (JsMap.values m).
Proof.
  unfold committerStep. destruct (negb _); [reflexivity|].
  destruct (truthy _) as [u|]; [|reflexivity].
  destruct (JsMap.get u m) as [e|] eqn:Hget.
  - rewrite SumFacts.sumBy_set, Hget, f_addCommits. lia.
  - destruct (locationRejects _ _); [reflexivity|].
    rewrite SumFacts.sumBy_set, Hget, f_committer. lia.
Qed.

Lemma eventStep_sum (isPR : bool) (m : JsMap.t ContributorData)
    (user title : string) (date : Date) :
  sumBy f (JsMap.values m)
  <= sumBy f (JsMap.values
                (eventStep octokit now isPR repoConfig options m user title date))
  <= sumBy f (JsMap.values m) + delta isPR.
Proof.
  pose proof (delta_range isPR) as Hd. unfold eventStep.
  destruct (JsMap.get user m) as [e|] eqn:Hget.
  - rewrite SumFacts.sumBy_set, Hget, f_addEvent. lia.
  - destruct (locationRejects _ _); [lia|].
    rewrite SumFacts.sumBy_set, Hget, f_event. lia.
Qed.

Lemma prPage_sum (data : list PullRequest) (m : JsMap.t ContributorData) :
  sumBy f (JsMap.values (fst (prPage octokit now repoConfig options data m)))
  <= sumBy f (JsMap.values m) + delta true * Z.of_nat (List.length data).
Proof.
  pose proof (delta_range true) as Hd.
  revert m. induction data as [|pr data IH]; intros m; [simpl; lia|].
  cbn [prPage]. destruct (beforeCutoff _ _); [cbn [fst]; nia|].
  destruct (truthy _) as [u|].
  - specialize (IH (eventStep octokit now true repoConfig options m u
                      (pr_title pr) (pr_created_at pr))).
    pose proof (eventStep_sum true m u (pr_title pr) (pr_created_at pr)) as Hs.
    rewrite length_cons. nia.
  - specialize (IH m). rewrite length_cons. nia.
Qed.

Lemma prPages_sum (pages : list Z) (m : JsMap.t ContributorData) :
  sumBy f (JsMap.values (prPages octokit now repoConfig options pages m))
  <= sumBy f (JsMap.values m)
     + delta true * fold_right (fun page acc => pullsOnPage octokit repoConfig page + acc)
                               0 pages.
Proof.
  pose proof (delta_range true) as Hd.
  assert (Hlen : forall pages',
            0 <= fold_right (fun page acc => pullsOnPage octokit repoConfig page + acc)
                            0 pages').
  { induction pages' as [|p ps IHp]; simpl; [lia|]. unfold pullsOnPage at 1.
    destruct (pulls_list octokit repoConfig p); lia. }
  revert m. induction pages as [|page pages IH]; intros m; [simpl; lia|].
  cbn [prPages fold_right]. specialize (Hlen pages). unfold pullsOnPage at 1.
  destruct (pulls_list octokit repoConfig page) as [[|pr data]|]; try (simpl; nia).
  pose proof (prPage_sum (pr :: data) m) as Hpage.
  destruct (prPage octokit now repoConfig options (pr :: data) m) as [m' hasMore].
  cbn [fst] in Hpage. destruct hasMore; [specialize (IH m')|]; nia.
Qed.

Lemma issuePage_sum (data : list Issue) (m : JsMap.t ContributorData) :
  sumBy f (JsMap.values (fst (issuePage octokit now repoConfig options data m)))
  <= sumBy f (JsMap.values m) + delta false * Z.of_nat (List.length data).
Proof.
  pose proof (delta_range false) as Hd.
  revert m. induction data as [|issue data IH]; intros m; [simpl; lia|].
  cbn [issuePage]. rewrite length_cons.
  destruct (i_pull_request issue); [specialize (IH m); nia|].
  destruct (beforeCutoff _ _); [cbn [fst]; nia|].
  destruct (truthy _) as [u|].
  - specialize (IH (eventStep octokit now false repoConfig options m u
                      (i_title issue) (i_created_at issue))).
    pose proof (eventStep_sum false m u (i_title issue) (i_created_at issue)) as Hs.
    nia.
  - specialize (IH m). nia.
Qed.

Lemma issuePages_sum (pages : list Z) (m : JsMap.t ContributorData) :
  sumBy f (JsMap.values (issuePages octokit now repoConfig options pages m))
  <= sumBy f (JsMap.values m)
     + delta false
       * fold_right (fun page acc => issuesOnPage octokit repoConfig page + acc) 0 pages.
Proof.
  pose proof (delta_range false) as Hd.
  assert (Hlen : forall pages',
            0 <= fold_right (fun page acc => issuesOnPage octokit repoConfig page + acc)
                            0 pages').
  { induction pages' as [|p ps IHp]; simpl; [lia|]. unfold issuesOnPage at 1.
    destruct (issues_listForRepo octokit repoConfig p); lia. }
  revert m. induction pages as [|page pages IH]; intros m; [simpl; lia|].
  cbn [issuePages fold_right]. specialize (Hlen pages). unfold issuesOnPage at 1.
  destruct (issues_listForRepo octokit repoConfig page) as [[|issue data]|];
    try (simpl; nia).
  pose proof (issuePage_sum (issue :: data) m) as Hpage.
  destruct (issuePage octokit now repoConfig options (issue :: data) m) as [m' hasMore].
  cbn [fst] in Hpage. destruct hasMore; [specialize (IH m')|]; nia.
Qed.

Lemma fetchCommitters_sum (m : JsMap.t ContributorData) :
  sumBy f (JsMap.values (fetchCommitters octokit now repoConfig m options))
  = sumBy f (JsMap.values m).
Proof.
  unfold fetchCommitters.
  destruct (repos_listContributors octokit repoConfig) as [data|]; [|reflexivity].
  revert m. induction data as [|c data IH]; intros m; simpl; [reflexivity|].
  now rewrite IH, committerStep_sum.
Qed.

(** The sum over the records of a repository is at most the number of
    entries of the pages that count for it. *)
Lemma fetchContributors_count :
  sumBy f (fetchContributors octokit now repoConfig options)
  <= delta true * (pullsOnPage octokit repoConfig 1 + pullsOnPage octokit repoConfig 2
                   + pullsOnPage octokit repoConfig 3)
     + delta false * (issuesOnPage octokit repoConfig 1
                      + issuesOnPage octokit repoConfig 2
                      + issuesOnPage octokit repoConfig 3).
Proof.
  pose proof (delta_range true) as Ht. pose proof (delta_range false) as Hf.
  assert (Hp : forall page, 0 <= pullsOnPage octokit repoConfig page).
  { intros page. unfold pullsOnPage. destruct (pulls_list _ _ _); lia. }
  assert (Hi : forall page, 0 <= issuesOnPage octokit repoConfig page).
  { intros page. unfold issuesOnPage. destruct (issues_listForRepo _ _ _); lia. }
  pose proof (Hp 1). pose proof (Hp 2). pose proof (Hp 3).
  pose proof (Hi 1). pose proof (Hi 2). pose proof (Hi 3).
  unfold fetchContributors, fetchPRAuthors, fetchIssueCreators.
  set (m1 := if enabled (includeCommitters options)
             then fetchCommitters octokit now repoConfig JsMap.empty options
             else JsMap.empty).
  assert (Hm1 : sumBy f (JsMap.values m1) = 0).
  { subst m1. destruct (enabled (includeCommitters options)); [|reflexivity].
    now rewrite fetchCommitters_sum. }
  set (m2 := if enabled (includePRAuthors options)
             then prPages octokit now repoConfig options [1; 2; 3] m1 else m1).
  assert (Hm2 : sumBy f (JsMap.values m2)
                <= delta true * (pullsOnPage octokit repoConfig 1
                                 + pullsOnPage octokit repoConfig 2
                                 + pullsOnPage octokit repoConfig 3)).
  { subst m2. destruct (enabled (includePRAuthors options)); [|nia].
    pose proof (prPages_sum [1; 2; 3] m1) as Hs. cbn [fold_right] in Hs. nia. }
  destruct (enabled (includeIssueCreators options)); [|nia].
  pose proof (issuePages_sum [1; 2; 3] m2) as Hs. cbn [fold_right] in Hs. nia.
Qed.

End Counts.

End CountFacts.

(** X16: the pull requests counted in the records of a repository are at
    most the entries of the first three pages of pull requests, and the
    issues counted are at most the entries of the first three pages of
    issues. *)
Theorem counted_pulls_and_issues (octokit : Octokit) (now : Date)
    (repoConfig : RepoConfig) (options : FetchOptions) :
  sumBy pullRequests (fetchContributors octokit now repoConfig options)
  <= pullsOnPage octokit repoConfig 1 + pullsOnPage octokit repoConfig 2
     + pullsOnPage octokit repoConfig 3 /\
  sumBy issues (fetchContributors octokit now repoConfig options)
  <= issuesOnPage octokit repoConfig 1 + issuesOnPage octokit repoConfig 2
     + issuesOnPage octokit repoConfig 3.
Proof.
  split.
  - pose proof (CountFacts.fetchContributors_count octokit now repoConfig options
                  pullRequests (fun isPR : bool => if isPR then 1 else 0)) as H.
    cbv beta iota in H. rewrite Z.mul_1_l, Z.mul_0_l, Z.add_0_r in H. apply H.
    + reflexivity.
    + reflexivity.
    + intros [|]; reflexivity.
    + intros [|] title date e; simpl; lia.
    + intros [|]; lia.
  - pose proof (CountFacts.fetchContributors_count octokit now repoConfig options
                  issues (fun isPR : bool => if isPR then 0 else 1)) as H.
    cbv beta iota in H. rewrite Z.mul_1_l, Z.mul_0_l, Z.add_0_l in H. apply H.
    + reflexivity.
    + reflexivity.
    + intros [|]; reflexivity.
    + intros [|] title date e; simpl; lia.
    + intros [|]; lia.
Qed.

(** ** More on the inter-repository merge *)

(** X17: merging records of distinct usernames with an empty list, on
    either side, returns the records as they are, in their order; not even
    the fetch time is renewed. *)
Theorem merge_with_nothing (now : Date) (records : list ContributorData) :
  NoDup (usernames records) ->
  mergeContributors now records [] = records /\
  mergeContributors now [] records = records.
Proof.
  intros Hnd. split.
  - rewrite MergeFacts.merge_shape; [|assumption|constructor].
    simpl. rewrite app_nil_r. apply map_id.
  - rewrite MergeFacts.merge_shape; [|constructor|assumption].
    simpl. apply forallb_filter_id, forallb_forall. reflexivity.
Qed.

Lemma merge_with_nothing_witness :
  mergeContributors 7 [aliceRecord; plainRecord "bob" "acme/widgets" 0 1 0 []] []
  = [aliceRecord; plainRecord "bob" "acme/widgets" 0 1 0 []] /\
  mergeContributors 7 [] [aliceRecord; plainRecord "bob" "acme/widgets" 0 1 0 []]
  = [aliceRecord; plainRecord "bob" "acme/widgets" 0 1 0 []].
Proof.
  apply (merge_with_nothing 7 [aliceRecord; plainRecord "bob" "acme/widgets" 0 1 0 []]).
  simpl. repeat constructor; simpl; intuition discriminate.
Defined.

Module RepoNameFacts.

Lemma includes_append_r (needle a b : string) :
  JsString.includes needle b = true -> JsString.includes needle (a ++ b)%string = true.
Proof.
  intros H. apply LocationFacts.includes_substring in H. destruct H as (x & y & ->).
  apply LocationFacts.includes_substring. exists (a ++ x)%string, y.
  clear. induction a as [|c a IH]; simpl; congruence.
Qed.

Lemma includes_self (s : string) : JsString.includes s s = true.
Proof.
  apply LocationFacts.includes_substring. exists EmptyString, EmptyString. simpl.
  induction s as [|c s IH]; simpl; congruence.
Qed.

Lemma prefix_self_append (a b : string) : prefix a (a ++ b)%string = true.
Proof. apply LocationFacts.prefix_append. now exists b. Qed.

Lemma In_firstn (A : Type) (n : nat) (l : list A) (x : A) :
  In x (firstn n l) -> In x l.
Proof.
  revert l. induction n as [|n IH]; intros [|y l]; simpl; try tauto.
  intros [H|H]; auto.
Qed.

End RepoNameFacts.

(** X18: the repository field of a merged record starts with that of the
    existing record and contains that of the new record, and merging the
    same record once more leaves it as it is. *)
Theorem merged_repoName (now now' : Date) (existing contributor : ContributorData) :
  let merged := mergeInto now existing contributor in
  prefix (repoName existing) (repoName merged) = true /\
  JsString.includes (repoName contributor) (repoName merged) = true /\
  repoName (mergeInto now' merged contributor) = repoName merged.
Proof.
  intros merged.
  assert (Hinc : JsString.includes (repoName contributor) (repoName merged) = true).
  { subst merged. cbn [mergeInto repoName].
    destruct (JsString.includes (repoName contributor) (repoName existing)) eqn:H;
      [assumption|].
    apply RepoNameFacts.includes_append_r, RepoNameFacts.includes_append_r.
    apply RepoNameFacts.includes_self. }
  split; [|split; [exact Hinc|]].
  - subst merged. cbn [mergeInto repoName].
    destruct (JsString.includes (repoName contributor) (repoName existing)).
    + rewrite <- (RepoNameFacts.prefix_self_append (repoName existing) "") at 1.
      f_equal. clear. induction (repoName existing); simpl; congruence.
    + apply RepoNameFacts.prefix_self_append.
  - cbn [mergeInto repoName] in *. fold merged. now rewrite Hinc.
Qed.

(** X19: when the existing record has at most five titles, all different,
    the merged record keeps them, in their order, followed only by titles
    of the new record that the existing record did not have. *)
Theorem merged_titles_keep_existing (now : Date) (existing contributor : ContributorData) :
  NoDup (notableContributions existing) ->
  (List.length (notableContributions existing) <= 5)%nat ->
  exists later,
    notableContributions (mergeInto now existing contributor)
    = notableContributions existing ++ later /\
    (forall title, In title later -> In title (notableContributions contributor)) /\
    (forall title, In title later -> ~ In title (notableContributions existing)).
Proof.
  intros Hnd Hlen.
  change (notableContributions (mergeInto now existing contributor)) with
    (firstn 5 (JsSet.from (notableContributions existing
                           ++ notableContributions contributor))).
  rewrite (JsSetFacts.from_app _ _ Hnd), firstn_app.
  rewrite (firstn_all2 (n := 5) (notableContributions existing)) by assumption.
  eexists. split; [reflexivity|].
  assert (Hin : forall title,
             In title (firstn (5 - List.length (notableContributions existing))
                         (JsSet.from
                            (filter (fun x => negb (JsSet.mem x (notableContributions existing)))
                               (notableContributions contributor)))) ->
             In title (notableContributions contributor) /\
             JsSet.mem title (notableContributions existing) = false).
  { intros title Hin. apply RepoNameFacts.In_firstn in Hin.
    apply (proj1 (JsSetFacts.from_In _ _)) in Hin.
    apply filter_In in Hin. destruct Hin as [Hc Hnot].
    apply negb_true_iff in Hnot. auto. }
  split; intros title Ht; apply Hin in Ht; destruct Ht as [Hc Hnot]; [assumption|].
  now apply JsSetFacts.mem_not_In.
Qed.

Lemma merged_titles_keep_existing_witness :
  exists later,
    notableContributions
      (mergeInto 9 aliceRecord
         (plainRecord "alice" "acme/gadgets" 0 2 0 ["Fix bug"; "Typo"]%string))
    = (["Fix bug"; "Report bug"]%string ++ later) /\
    (forall title, In title later -> In title ["Fix bug"; "Typo"]%string) /\
    (forall title, In title later -> ~ In title ["Fix bug"; "Report bug"]%string).
Proof.
  apply (merged_titles_keep_existing 9 aliceRecord
           (plainRecord "alice" "acme/gadgets" 0 2 0 ["Fix bug"; "Typo"]%string)).
  - simpl. repeat constructor; simpl; intuition discriminate.
  - simpl. lia.
Defined.

Module ExportFacts.

Lemma mergeInto_dates (cutoff : option Date) (now : Date) (e c : ContributorData) :
  0 <= pullRequests e -> 0 <= issues e -> 0 <= pullRequests c -> 0 <= issues c ->
  datesConsistent cutoff e -> datesConsistent cutoff c ->
  datesConsistent cutoff (mergeInto now e c).
Proof.
  unfold datesConsistent, mergeInto, mergeFirst, mergeLast.
  cbn [firstContribution lastContribution pullRequests issues].
  intros Hpe Hie Hpc Hic He Hc.
  destruct (firstContribution e) as [fe|], (lastContribution e) as [le|],
           (firstContribution c) as [fc|], (lastContribution c) as [lc|];
    try contradiction; try lia;
    try (destruct (Z.ltb_spec fc fe), (Z.ltb_spec le lc), cutoff; lia);
    destruct cutoff; lia.
Qed.

(** What the records that pass the filter have and the merge keeps holds
    of everything [main] accumulates. *)
Lemma mainLoop_filtered_Forall (P : ContributorData -> Prop) (octokit : Octokit)
    (now : Date) (options : FetchOptions) (repos : list string)
    (all : list ContributorData) :
  (forall repoConfig,
      Forall P (filterMin options (fetchContributors octokit now repoConfig options))) ->
  (forall e c, P e -> P c -> P (mergeInto now e c)) ->
  Forall P all -> Forall P (mainLoop octokit now options repos all).
Proof.
  intros Hfetch Hmerge. revert all.
  induction repos as [|repoInput repos IH]; intros all Hall; simpl; [assumption|].
  destruct (parseRepo repoInput) as [repoConfig|]; [|auto].
  apply IH. apply MergeFacts.merge_Forall; auto.
Qed.

Lemma sortByTotal_sorted_id (l : list ContributorData) :
  StronglySorted (fun a b => totalContributions b <= totalContributions a) l ->
  sortByTotal l = l.
Proof.
  induction 1 as [|x l Hl IH Hx]; [reflexivity|].
  cbn [sortByTotal]. rewrite IH. destruct l as [|y l]; [reflexivity|].
  cbn [insertByTotal]. inversion Hx; subst.
  destruct (Z.leb_spec (totalContributions y) (totalContributions x)); [reflexivity|lia].
Qed.

Lemma mainLoop_NoDup (octokit : Octokit) (now : Date) (options : FetchOptions)
    (repos : list string) (all : list ContributorData) :
  NoDup (usernames all) -> NoDup (usernames (mainLoop octokit now options repos all)).
Proof.
  revert all. induction repos as [|r repos IH]; intros all Hall; simpl; [assumption|].
  destruct (parseRepo r); [|auto].
  apply IH, MergeFacts.merge_usernames_NoDup.
Qed.

End ExportFacts.

(** ** What [main] hands to the exporter *)

(** X20: every exported record, merged or not, has at most five notable
    titles, numbers of pull requests and issues that are not negative, and
    dates that are both absent (no pull request or issue) or both present,
    the first not after the last and not before the activity cutoff. *)
Theorem exported_records_consistent (octokit : Octokit) (now : Date)
    (options : FetchOptions) (repos : list string) :
  Forall (fun c => (List.length (notableContributions c) <= 5)%nat /\
                   0 <= pullRequests c /\ 0 <= issues c /\
                   datesConsistent (cutoffDate now options) c)
         (exported octokit now options repos).
Proof.
  apply MainFacts.sortByTotal_Forall, MainFacts.mainLoop_Forall; [| |constructor].
  - intros repoConfig.
    pose proof (fetched_titles octokit now repoConfig options) as Ht.
    pose proof (fetched_dates octokit now repoConfig options) as Hd.
    rewrite Forall_forall in *. intros c Hc.
    destruct (Ht c Hc) as (Hp & Hi & Hlen). specialize (Hd c Hc).
    repeat split; try assumption. lia.
  - intros e c (Hle & Hpe & Hie & Hde) (Hlc & Hpc & Hic & Hdc).
    split; [|split; [|split]].
    + cbn [mergeInto notableContributions]. rewrite length_firstn. lia.
    + cbn [mergeInto pullRequests]. lia.
    + cbn [mergeInto issues]. lia.
    + now apply ExportFacts.mergeInto_dates.
Qed.

(** X21: when the threshold is not negative, the total of every exported
    record reaches it. *)
Theorem exported_reach_threshold (octokit : Octokit) (now : Date)
    (options : FetchOptions) (repos : list string) :
  0 <= minThreshold options ->
  Forall (fun c => minThreshold options <= totalContributions c)
         (exported octokit now options repos).
Proof.
  intros Hmin.
  apply MainFacts.sortByTotal_Forall, ExportFacts.mainLoop_filtered_Forall;
    [| |constructor].
  - intros repoConfig. apply Forall_forall. intros c Hc.
    apply filter_In in Hc. destruct Hc as [_ Hc]. now apply Z.leb_le.
  - intros e c He Hc. cbn [mergeInto totalContributions]. lia.
Qed.

Lemma exported_reach_threshold_witness :
  Forall (fun c => 2 <= totalContributions c)
         (exported aliceAndBob 7 (mainOptions None 2 None)
            ["acme/widgets"; "acme"; "acme/gadgets"]%string).
Proof.
  apply (exported_reach_threshold aliceAndBob 7 (mainOptions None 2 None)
           ["acme/widgets"; "acme"; "acme/gadgets"]%string).
  unfold minThreshold. simpl. lia.
Defined.

(** X22: in the summary that [main] prints, the totals of commits, pull
    requests and issues add up to the sum of the exported totals, the
    number of contributors is the number of distinct usernames, and the
    numbers of records with an email, a location and a twitter name do not
    exceed it. *)
Theorem summary_totals (octokit : Octokit) (now : Date)
    (options : FetchOptions) (repos : list string) :
  let allContributors := exported octokit now options repos in
  let summary := summarize allContributors in
  totalCommits summary + totalPRs summary + totalIssues summary
  = sumBy totalContributions allContributors /\
  uniqueContributors summary = List.length (JsSet.from (usernames allContributors)) /\
  (withEmail summary <= uniqueContributors summary)%nat /\
  (withLocation summary <= uniqueContributors summary)%nat /\
  (withTwitter summary <= uniqueContributors summary)%nat.
Proof.
  intros allContributors summary. subst summary. unfold summarize.
  cbn [totalCommits totalPRs totalIssues uniqueContributors withEmail withLocation
       withTwitter].
  rewrite !SumFacts.reduce_sum.
  assert (Hsum : Forall totalIsSum allContributors).
  { apply MainFacts.sortByTotal_Forall, MainFacts.mainLoop_Forall; [| |constructor].
    - intros repoConfig. apply TotalFacts.fetchContributors_sum.
    - intros e c. apply TotalFacts.mergeInto_sum. }
  assert (Hnd : NoDup (usernames allContributors)).
  { unfold usernames.
    apply (Permutation_NoDup
             (Permutation_map username
                (MainFacts.sortByTotal_Permutation (mainLoop octokit now options repos [])))).
    apply ExportFacts.mainLoop_NoDup. constructor. }
  split; [|split; [|repeat split; apply filter_length_le]].
  - clear Hnd. clearbody allContributors.
    induction Hsum as [|c l Hc _ IH]; [reflexivity|].
    unfold sumBy in *. cbn [fold_right] in *. unfold totalIsSum in Hc. lia.
  - rewrite <- (app_nil_r (usernames allContributors)) at 1.
    rewrite (JsSetFacts.from_app _ [] Hnd). simpl. rewrite app_nil_r.
    unfold usernames. now rewrite length_map.
Qed.
